(** * Autonomous AI Team: orchestration loop, manager delegation, token
      budget and cache strategy

    A shallow embedding of the Python sources

      - [src/core/agent_base.py]    ([AgentBase.run] and its helpers),
      - [src/agents/manager.py]     ([ManagerAgent._handle_tool_use],
                                     [_call_specialist_agent],
                                     [_request_human_approval]),
      - [src/core/tools.py]         ([ToolRegistry] and the default
                                     tools),
      - [src/core/token_manager.py] ([TokenUsage], [TokenManager]),
      - [src/core/prompt_cache.py]  ([PromptCache], [CacheStrategy]).

    Modelling conventions.

      - A Python call either returns a value or raises; this is the type
        [result].  An exception carries its class name, [str(e)] and
        whether it is an instance of [Exception]: [KeyboardInterrupt],
        [SystemExit] and [asyncio.CancelledError] are not, and
        [except Exception] does not catch them.
      - The outside world (the model provider, the tools' network calls,
        the clock) is an abstract state [W]; code that talks to it lives
        in a state-and-error monad over [W] extended with a ghost counter
        of the calls made to [client.messages.create].
      - Python dictionaries built by dict literals ([RunResult], tool
        results, tool inputs) are association lists of JSON values in
        insertion order; [d.get(k)] is [dict_get], a missing key is
        [None].
      - Python [int] is [Z] and a Python [str] is a [string] whose
        characters are the code points below 256, so [len] and slices
        are Python's on such text.  Python [float] amounts of money are taken as
        exact rationals [Q], and [round(x, n)] as rounding to the nearest
        multiple of [10^-n] with ties to even; binary rounding error of
        the floating point unit is not represented.  The computed
        amounts therefore differ from the exact ones by a rounding error
        that is many orders of magnitude below a cent, and an amount that
        lies exactly on a rounding tie can round either way.  Theorems
        that compare the day's spend with a threshold keep a margin of a
        tenth of a cent or more around every rounding tie, so that they
        hold for the floating point computation as well.
      - Calls to the structured logger are not represented, except for
        the argument expressions they evaluate when these can raise
        ([task[:100]]).  The diagnostic [conversation_history] is not
        represented either. *)

From Stdlib Require Import ZArith QArith Qround Lqa String Ascii List Bool Lia.
From stdpp Require Import base option list strings gmap.
Import ListNotations.

Local Open Scope string_scope.
Local Open Scope Z_scope.

(** ** Python values, exceptions and results *)

Set Warnings "-register-all".

Module Py.

(** An exception instance: its class name, [str(e)], and
    [isinstance(e, Exception)]. *)
Record exn : Type := mkExn {
  exn_class : string;
  exn_message : string;
  is_exception : bool
}.

(** An instance of a class that derives from [Exception]. *)
Definition Exn (class message : string) : exn := mkExn class message true.

(** [KeyboardInterrupt()], which derives from [BaseException] only. *)
Definition KeyboardInterrupt : exn := mkExn "KeyboardInterrupt" "" false.

Inductive result (A : Type) : Type :=
| Ok (a : A)
| Raise (e : exn).
Arguments Ok {A} a.
Arguments Raise {A} e.

Definition rbind {A B : Type} (r : result A) (k : A -> result B) : result B :=
  match r with
  | Ok a => k a
  | Raise e => Raise e
  end.

(** JSON-like Python values: [None], [bool], [int], [float], [str],
    [list] and [dict]. *)
Inductive json : Type :=
| JNone
| JBool (b : bool)
| JInt (z : Z)
| JFloat (q : Q)
| JStr (s : string)
| JList (l : list json)
| JDict (d : list (string * json)).

Definition pydict : Type := list (string * json).

(** [d.get(k)] as an option: [None] when the key is absent. *)
Fixpoint dict_get (k : string) (d : pydict) : option json :=
  match d with
  | [] => None
  | (k', v) :: d' => if String.eqb k k' then Some v else dict_get k d'
  end.

(** [d.get(k)] as Python sees it: the value [None] when the key is
    absent. *)
Definition dict_get_or_none (k : string) (d : pydict) : json :=
  match dict_get k d with
  | Some v => v
  | None => JNone
  end.

(** [d.get(k, dflt)]. *)
Definition dict_get_default (k : string) (dflt : json) (d : pydict) : json :=
  match dict_get k d with
  | Some v => v
  | None => dflt
  end.

(** [x[:100]]: defined on sequences ([str], [list]); every other JSON
    value raises (a [TypeError] for [None], numbers and booleans; for a
    dictionary the class of the exception depends on the interpreter's
    version). *)
Definition slice_100 (x : json) : result json :=
  match x with
  | JStr s => Ok (JStr (String.substring 0 100 s))
  | JList l => Ok (JList (firstn 100 l))
  | JNone => Raise (Exn "TypeError" "'NoneType' object is not subscriptable")
  | JBool _ => Raise (Exn "TypeError" "'bool' object is not subscriptable")
  | JInt _ => Raise (Exn "TypeError" "'int' object is not subscriptable")
  | JFloat _ => Raise (Exn "TypeError" "'float' object is not subscriptable")
  | JDict _ => Raise (Exn "TypeError" "unhashable type: 'slice'")
  end.

(** [s.startswith(p)], [s.endswith(p)]. *)
Definition startswith (p s : string) : bool := String.prefix p s.

Definition endswith (p s : string) : bool :=
  (String.length p <=? String.length s)%nat
  && String.eqb (String.substring (String.length s - String.length p)
                                  (String.length p) s) p.

(** [s.replace(old, new)] for a non-empty [old]: every non-overlapping
    occurrence, scanning from the left.  [skip] counts the characters
    of an occurrence that was just replaced and are still to be
    dropped. *)
Fixpoint replace_from (old new : string) (skip : nat) (s : string) : string :=
  match s with
  | EmptyString => EmptyString
  | String c s' =>
      match skip with
      | S k => replace_from old new k s'
      | O =>
          if String.prefix old s
          then new ++ replace_from old new (String.length old - 1) s'
          else String c (replace_from old new O s')
      end
  end.

Definition replace (old new s : string) : string := replace_from old new O s.

End Py.
Import Py.

(** ** Cache strategy ([src/core/prompt_cache.py]) *)

Module CacheStrategy.

Definition MIN_TOKENS_TO_CACHE : Z := 1024.

Definition should_cache_system_prompt (prompt_length : Z) : bool :=
  prompt_length >=? MIN_TOKENS_TO_CACHE.

Definition should_cache_tools (num_tools : Z) : bool :=
  num_tools >? 3.

Definition should_cache_conversation_history (num_turns : Z) : bool :=
  num_turns >? 2.

End CacheStrategy.

(** ** Token manager ([src/core/token_manager.py]) *)

Module TokenManager.

Local Open Scope Q_scope.

(** [TokenUsage]: one ledger entry.  [timestamp] is the clock reading
    taken by the dataclass' default factory. *)
Record TokenUsage : Type := mkTokenUsage {
  input_tokens : Z;
  output_tokens : Z;
  model : string;
  timestamp : Z
}.

Definition total_tokens (u : TokenUsage) : Z :=
  (input_tokens u + output_tokens u)%Z.

(** [TokenUsage.calculate_cost]. *)
Definition calculate_cost (u : TokenUsage)
    (input_cost_per_1k output_cost_per_1k : Q) : Q :=
  let input_cost := (inject_Z (input_tokens u) / 1000) * input_cost_per_1k in
  let output_cost := (inject_Z (output_tokens u) / 1000) * output_cost_per_1k in
  input_cost + output_cost.

Definition DEFAULT_INPUT_COST : Q := 3 # 1000.
Definition DEFAULT_OUTPUT_COST : Q := 15 # 1000.

(** One entry of [self.model_pricing]: [{"input": ..., "output": ...}]. *)
Record Pricing : Type := mkPricing { price_input : Q; price_output : Q }.

(** [self.model_pricing], as set by [__init__] and never changed
    afterwards. *)
Definition model_pricing : list (string * Pricing) :=
  [ ("claude-sonnet-4-5", mkPricing DEFAULT_INPUT_COST DEFAULT_OUTPUT_COST);
    ("claude-sonnet-3-5", mkPricing (3 # 1000) (15 # 1000));
    ("claude-haiku", mkPricing (25 # 100000) (125 # 100000)) ].

Definition default_pricing : Pricing :=
  mkPricing DEFAULT_INPUT_COST DEFAULT_OUTPUT_COST.

Fixpoint pricing_lookup (m : string) (table : list (string * Pricing))
    : option Pricing :=
  match table with
  | [] => None
  | (k, p) :: table' => if String.eqb m k then Some p else pricing_lookup m table'
  end.

(** [self.model_pricing.get(model, {default prices})]. *)
Definition pricing_for (m : string) : Pricing :=
  match pricing_lookup m model_pricing with
  | Some p => p
  | None => default_pricing
  end.

(** The state of a [TokenManager].  [tokenizer] is [None] when tiktoken
    could not be initialised; otherwise it gives the number of tokens of
    [self.tokenizer.encode(text)], or nothing when [encode] raises. *)
Record TokenManager : Type := mkTokenManager {
  daily_budget : Q;
  usage_by_agent : gmap string (list TokenUsage);
  usage_by_date : gmap string (list TokenUsage);
  tokenizer : option (string -> option nat)
}.

(** [TokenManager(daily_budget)] with [settings.max_cost_per_day]: a
    budget that is [None] or zero falls back to the setting. *)
Definition init (daily_budget_arg : option Q) (max_cost_per_day : Q)
    (tok : option (string -> option nat)) : TokenManager :=
  let budget :=
    match daily_budget_arg with
    | Some b => if Qeq_bool b 0 then max_cost_per_day else b
    | None => max_cost_per_day
    end in
  mkTokenManager budget ∅ ∅ tok.

(** [estimate_tokens]. *)
Definition estimate_tokens (tm : TokenManager) (text : string) : Z :=
  match tokenizer tm with
  | None => Z.of_nat (String.length text) / 4
  | Some encode =>
      match encode text with
      | Some n => Z.of_nat n
      | None => Z.of_nat (String.length text) / 4
      end
  end.

(** Python's [round(x)] on an exact value: nearest integer, ties to
    even. *)
Definition round_half_even (q : Q) : Z :=
  let f := Qfloor q in
  match Qcompare (q - inject_Z f) (1 # 2) with
  | Lt => f
  | Gt => (f + 1)%Z
  | Eq => if Z.even f then f else (f + 1)%Z
  end.

(** [round(x, ndigits)]. *)
Definition py_round (q : Q) (ndigits : nat) : Q :=
  let scale := inject_Z (10 ^ Z.of_nat ndigits) in
  inject_Z (round_half_even (q * scale)) / scale.

(** What a Python function hands back to its caller, for the functions
    of this module whose result the specification describes by type. *)
Inductive pyval : Type :=
| PyFloat (q : Q)
| PyTokenUsage (u : TokenUsage).

(** [defaultdict(list)] access followed by [append]:
    [d[k].append(u)]. *)
Definition bucket_append (k : string) (u : TokenUsage)
    (d : gmap string (list TokenUsage)) : gmap string (list TokenUsage) :=
  <[k := (default [] (d !! k) ++ [u])%list]> d.

(** Outcome of [record_usage]: the new state, the returned object and
    the cost handed to the logger ([round(cost, 4)]). *)
Record Recorded : Type := mkRecorded {
  rec_state : TokenManager;
  rec_returned : pyval;
  rec_logged_cost : Q
}.

(** [record_usage].  [now] is the clock reading stored in the entry and
    [today] is [datetime.utcnow().date().isoformat()]. *)
Definition record_usage (tm : TokenManager) (now : Z) (today : string)
    (agent_id : string) (input_tokens output_tokens : Z) (model : string)
    : Recorded :=
  let usage := mkTokenUsage input_tokens output_tokens model now in
  let pricing := pricing_for model in
  let cost := calculate_cost usage (price_input pricing) (price_output pricing) in
  let tm' :=
    mkTokenManager (daily_budget tm)
                   (bucket_append agent_id usage (usage_by_agent tm))
                   (bucket_append today usage (usage_by_date tm))
                   (tokenizer tm) in
  mkRecorded tm' (PyTokenUsage usage) (py_round cost 4).

(** The dictionary returned by [get_daily_usage].  The two budget keys
    exist only in the dictionary built for a day with usage: an absent
    key is [None] here. *)
Record DailyUsage : Type := mkDailyUsage {
  du_date : string;
  du_total_tokens : Z;
  du_input_tokens : Z;
  du_output_tokens : Z;
  total_cost_usd : Q;
  call_count : Z;
  budget_remaining_usd : option Q;
  budget_used_percentage : option Q
}.

(** [sum(u.input_tokens for u in usages)] and its sibling. *)
Definition sum_input (usages : list TokenUsage) : Z :=
  fold_left (fun acc u => (acc + input_tokens u)%Z) usages 0%Z.

Definition sum_output (usages : list TokenUsage) : Z :=
  fold_left (fun acc u => (acc + output_tokens u)%Z) usages 0%Z.

(** The loop [for usage in usages: total_cost += ...]. *)
Definition cost_of (u : TokenUsage) : Q :=
  let pricing := pricing_for (model u) in
  calculate_cost u (price_input pricing) (price_output pricing).

Definition sum_cost (usages : list TokenUsage) : Q :=
  fold_left (fun acc u => acc + cost_of u) usages 0.

(** [self.usage_by_agent.get(agent_id, [])]. *)
Definition usages_of (tm : TokenManager) (agent_id : string) : list TokenUsage :=
  default [] (usage_by_agent tm !! agent_id).

(** [self.usage_by_date.get(date, [])]. *)
Definition usages_on (tm : TokenManager) (date : string) : list TokenUsage :=
  default [] (usage_by_date tm !! date).

(** The exact amount spent on a day, before any rounding. *)
Definition spent_on (tm : TokenManager) (date : string) : Q :=
  sum_cost (usages_on tm date).

(** [get_daily_usage(date)]; [today] is the clock's date, used when
    [date] is [None].  Division by a zero budget raises. *)
Definition get_daily_usage (tm : TokenManager) (today : string)
    (date : option string) : result DailyUsage :=
  let date := match date with Some d => d | None => today end in
  let usages := usages_on tm date in
  match usages with
  | [] => Ok (mkDailyUsage date 0 0 0 0 0 None None)
  | _ :: _ =>
      let total_input := sum_input usages in
      let total_output := sum_output usages in
      let total_cost := sum_cost usages in
      if Qeq_bool (daily_budget tm) 0
      then Raise (Exn "ZeroDivisionError" "float division by zero")
      else Ok (mkDailyUsage date (total_input + total_output)
                 total_input total_output
                 (py_round total_cost 2)
                 (Z.of_nat (List.length usages))
                 (Some (py_round (daily_budget tm - total_cost) 2))
                 (Some (py_round ((total_cost / daily_budget tm) * 100) 1)))
  end.

(** [usage[key]] on the two budget keys: [KeyError] when absent. *)
Definition getitem (key : string) (field : option Q) : result Q :=
  match field with
  | Some q => Ok q
  | None => Raise (Exn "KeyError" ("'" ++ key ++ "'")%string)
  end.

Definition Qltb (x y : Q) : bool := negb (Qle_bool y x).

(** [check_budget_available]. *)
Definition check_budget_available (tm : TokenManager) (today : string)
    : result bool :=
  rbind (get_daily_usage tm today None) (fun usage =>
  rbind (getitem "budget_remaining_usd" (budget_remaining_usd usage)) (fun remaining =>
  if Qltb remaining 0 then Ok false
  else
    rbind (getitem "budget_used_percentage" (budget_used_percentage usage)) (fun _ =>
    Ok true))).

(** [estimate_call_cost]. *)
Definition estimate_call_cost (tm : TokenManager) (input_text : string)
    (expected_output_tokens : Z) (model : string) : Q :=
  let input_tokens := estimate_tokens tm input_text in
  let pricing := pricing_for model in
  let input_cost := (inject_Z input_tokens / 1000) * price_input pricing in
  let output_cost := (inject_Z expected_output_tokens / 1000) * price_output pricing in
  input_cost + output_cost.

(** The second component of [should_allow_call]'s result, one
    constructor per message: ["Daily budget exceeded"],
    [f"Call would exceed remaining budget (${remaining:.2f})"] and
    ["Budget available"]. *)
Inductive Reason : Type :=
| DailyBudgetExceeded
| WouldExceedRemaining (remaining : Q)
| BudgetAvailable.

(** [should_allow_call].  [today] is the date read by the clock for
    both of the call's readings of the day's usage. *)
Definition should_allow_call (tm : TokenManager) (today : string)
    (input_text : string) (expected_output_tokens : Z) (model : string)
    : result (bool * Reason) :=
  rbind (check_budget_available tm today) (fun available =>
  if negb available then Ok (false, DailyBudgetExceeded)
  else
    let estimated_cost :=
      estimate_call_cost tm input_text expected_output_tokens model in
    rbind (get_daily_usage tm today None) (fun usage =>
    rbind (getitem "budget_remaining_usd" (budget_remaining_usd usage)) (fun remaining =>
    if Qltb remaining estimated_cost
    then Ok (false, WouldExceedRemaining remaining)
    else Ok (true, BudgetAvailable)))).

End TokenManager.

(** ** The state-and-error monad *)

Module Monad.

(** A computation over a state [S] that returns or raises. *)
Definition M (S A : Type) : Type := S -> result A * S.

Definition ret {S A : Type} (a : A) : M S A := fun s => (Ok a, s).

Definition raise {S A : Type} (e : exn) : M S A := fun s => (Raise e, s).

Definition bind {S A B : Type} (m : M S A) (k : A -> M S B) : M S B :=
  fun s =>
    match m s with
    | (Ok a, s') => k a s'
    | (Raise e, s') => (Raise e, s')
    end.

(** A pure computation that may raise. *)
Definition lift {S A : Type} (r : result A) : M S A := fun s => (r, s).

(** [try: body except Exception as e: handler(e)]: an exception that
    is no instance of [Exception] passes through. *)
Definition try_except {S A : Type} (body : M S A) (handler : exn -> M S A)
    : M S A :=
  fun s =>
    match body s with
    | (Ok a, s') => (Ok a, s')
    | (Raise e, s') => if is_exception e then handler e s' else (Raise e, s')
    end.

(** The state of one [run]: the outside world and the number of calls
    this run has made so far to [client.messages.create].  The counter
    is ghost state: the code never reads it, the theorems do. *)
Record State (W : Type) : Type := mkState { world : W; model_calls : nat }.
Arguments mkState {W} world model_calls.
Arguments world {W} s.
Arguments model_calls {W} s.

(** An operation on the world, run inside a [run]; it leaves the
    counter alone. *)
Definition io {W A : Type} (f : M W A) : M (State W) A :=
  fun st =>
    let '(r, w') := f (world st) in (r, mkState w' (model_calls st)).

(** A call to [client.messages.create]: counted, whether it returns or
    raises. *)
Definition model_call {W A : Type} (f : M W A) : M (State W) A :=
  fun st =>
    let '(r, w') := f (world st) in (r, mkState w' (S (model_calls st))).

(** [datetime.utcnow()], in seconds. *)
Definition read_clock {W : Type} (utcnow : W -> Q) : M (State W) Q :=
  fun st => (Ok (utcnow (world st)), st).

End Monad.
Import Monad.

Declare Scope monad_scope.
Delimit Scope monad_scope with monad.
Notation "x <- c1 ;; c2" := (bind c1 (fun x => c2))
  (at level 100, c1 at next level, right associativity) : monad_scope.
Notation "c1 ;;; c2" := (bind c1 (fun _ => c2))
  (at level 100, right associativity) : monad_scope.

(** ** Messages and tools ([anthropic.types.Message], [src/core/tools.py]) *)

Module Tools.

Inductive ContentBlock : Type :=
| TextBlock (text : string)
| ToolUseBlock (id name : string) (input : pydict)
| OtherBlock (type : string).

Record Usage : Type := mkUsage { usage_input_tokens : Z; usage_output_tokens : Z }.

Record Response : Type := mkResponse {
  content : list ContentBlock;
  stop_reason : string;
  usage : Usage
}.

(** The text put in a tool result: [str(result)] in the base agent,
    [json.dumps(result, indent=2)] in the manager.  The serialised
    dictionary is kept as such. *)
Inductive Rendered : Type :=
| PyStr (d : pydict)
| JsonDumps (d : pydict).

(** [{"type": "tool_result", "tool_use_id": ..., "content": ...}]. *)
Record ToolResultBlock : Type := mkToolResult {
  tr_type : string;
  tool_use_id : string;
  tr_content : Rendered
}.

Inductive MessageContent : Type :=
| MText (s : string)
| MBlocks (blocks : list ContentBlock)
| MToolResults (results : list ToolResultBlock).

(** [{"role": ..., "content": ...}]. *)
Record Message : Type := mkMessage { role : string; msg_content : MessageContent }.

(** A registered tool: its name, the parameters of its [execute] method
    (those without and those with a default value) and the effect of
    [execute] once its arguments are bound. *)
Record Tool (W : Type) : Type := mkTool {
  tool_name : string;
  required_params : list string;
  optional_params : list string;
  tool_execute : pydict -> M W pydict
}.
Arguments mkTool {W} tool_name required_params optional_params tool_execute.
Arguments tool_name {W} t.
Arguments required_params {W} t.
Arguments optional_params {W} t.
Arguments tool_execute {W} t.

Definition has_key (k : string) (d : pydict) : bool :=
  match dict_get k d with Some _ => true | None => false end.

(** Binding [**kwargs] to the parameters of [execute]: a keyword that is
    no parameter, or a parameter without default that is not given,
    raises [TypeError].  The wording of the message follows the
    interpreter's only loosely. *)
Definition bind_kwargs {W : Type} (t : Tool W) (kwargs : pydict) : result unit :=
  match List.find (fun kv => negb (existsb (String.eqb (fst kv))
                          (required_params t ++ optional_params t)%list)) kwargs with
  | Some (k, _) =>
      Raise (Exn "TypeError"
               ("execute() got an unexpected keyword argument '" ++ k ++ "'"))
  | None =>
      match List.find (fun p => negb (has_key p kwargs)) (required_params t) with
      | Some p =>
          Raise (Exn "TypeError"
                   ("execute() missing 1 required positional argument: '" ++ p ++ "'"))
      | None => Ok tt
      end
  end.

(** [ToolRegistry.get]: the dictionary [self.tools], as the list of its
    items. *)
Fixpoint registry_get {W : Type} (tools : list (Tool W)) (name : string)
    : option (Tool W) :=
  match tools with
  | [] => None
  | t :: tools' =>
      if String.eqb name (tool_name t) then Some t else registry_get tools' name
  end.

(** [ToolRegistry.execute_tool(name, **kwargs)].  The call itself binds
    [self] and [name], so an input carrying one of these keys raises
    before the body runs. *)
Definition execute_tool {W : Type} (tools : list (Tool W)) (name : string)
    (kwargs : pydict) : M W pydict :=
  if has_key "name" kwargs || has_key "self" kwargs
  then raise (Exn "TypeError" "execute_tool() got multiple values for argument")
  else
    match registry_get tools name with
    | None =>
        ret [("success", JBool false);
             ("error", JStr ("Tool '" ++ name ++ "' not found"))]
    | Some t =>
        (lift (bind_kwargs t kwargs) ;;;
         tool_execute t kwargs)%monad
    end.

(** [StoreContextTool]: [execute(self, key, value, category="general")]. *)
Definition store_context {W : Type} : Tool W :=
  mkTool "store_context" ["key"; "value"] ["category"]
    (fun kwargs =>
       ret [("success", JBool true);
            ("key", dict_get_or_none "key" kwargs);
            ("category", dict_get_default "category" (JStr "general") kwargs);
            ("message", JStr "Context stored successfully")]).

End Tools.
Import Tools.

(** ** The agent run loop ([src/core/agent_base.py]) *)

Module Agent.

Local Open Scope monad_scope.

Definition newline : string := String (ascii_of_nat 10) EmptyString.

(** The three dictionaries [run] can return. *)
Definition success_result (agent_id result : string) (iteration : Z)
    (elapsed : Q) (response : Response) : pydict :=
  [("success", JBool true);
   ("agent_id", JStr agent_id);
   ("result", JStr result);
   ("iterations", JInt iteration);
   ("elapsed_seconds", JFloat elapsed);
   ("usage", JDict [("input_tokens", JInt (usage_input_tokens (usage response)));
                    ("output_tokens", JInt (usage_output_tokens (usage response)))])].

Definition max_iterations_result (agent_id : string) (iteration : Z) : pydict :=
  [("success", JBool false);
   ("error", JStr "Max iterations reached");
   ("agent_id", JStr agent_id);
   ("iterations", JInt iteration)].

Definition failure_result (agent_id : string) (e : exn) : pydict :=
  [("success", JBool false);
   ("error", JStr (exn_message e));
   ("agent_id", JStr agent_id)].

(** [_extract_result]: the text blocks, joined by newlines. *)
Fixpoint text_parts (blocks : list ContentBlock) : list string :=
  match blocks with
  | [] => []
  | TextBlock text :: blocks' => text :: text_parts blocks'
  | _ :: blocks' => text_parts blocks'
  end.

Definition _extract_result (response : Response) : string :=
  String.concat newline (text_parts (content response)).

(** The loop shared by the two [_handle_tool_use] methods: every
    [tool_use] block is dispatched in order and its result appended to
    [tool_results]; the methods differ in the dispatch and in how the
    result is serialised. *)
Fixpoint for_each_block {W : Type} (dispatch : string -> pydict -> M W pydict)
    (render : pydict -> Rendered) (tool_results : list ToolResultBlock)
    (blocks : list ContentBlock) : M W (list ToolResultBlock) :=
  match blocks with
  | [] => ret tool_results
  | ToolUseBlock id name input :: blocks' =>
      result <- dispatch name input ;;
      for_each_block dispatch render
        (tool_results ++ [mkToolResult "tool_result" id (render result)])%list
        blocks'
  | _ :: blocks' => for_each_block dispatch render tool_results blocks'
  end.

(** [AgentBase._handle_tool_use]. *)
Definition _handle_tool_use {W : Type} (tools : list (Tool W))
    (response : Response) : M W (list ToolResultBlock) :=
  for_each_block (execute_tool tools) PyStr [] (content response).

Section Run.

Context {W Value : Type}.

(** [self.agent_id]. *)
Variable agent_id : string.
(** [self.client.messages.create] with this agent's model, system prompt
    and tools, as a function of the conversation sent. *)
Variable create : list Message -> M W Response.
(** The clock. *)
Variable utcnow : W -> Q.
(** Formatting a context value inside the f-string, which calls the
    value's own [__str__]. *)
Variable format_value : Value -> result string.
(** The [_handle_tool_use] method of the agent's class. *)
Variable handle_tool_use : Response -> M W (list ToolResultBlock).

(** The loop [for key, value in context.items(): message += ...]. *)
Fixpoint render_context (message : string) (items : list (string * Value))
    : result string :=
  match items with
  | [] => Ok message
  | (key, value) :: items' =>
      rbind (format_value value) (fun v =>
      render_context (message ++ "- **" ++ key ++ "**: " ++ v ++ newline) items')
  end.

(** [_build_user_message]; [None] and the empty dictionary are falsy. *)
Definition _build_user_message (task : string)
    (context : option (list (string * Value))) : result string :=
  match context with
  | None => Ok task
  | Some [] => Ok task
  | Some items =>
      render_context
        (task ++ newline ++ newline ++ "**Additional Context:**" ++ newline) items
  end.

(** The two messages appended after a [tool_use] response. *)
Definition tool_use_turns (response : Response)
    (tool_results : list ToolResultBlock) : list Message :=
  [mkMessage "assistant" (MBlocks (content response));
   mkMessage "user" (MToolResults tool_results)].

(** The [while iteration < max_iterations] loop.  [remaining] is
    [max_iterations - iteration], so the loop condition holds exactly
    when it is a successor. *)
Fixpoint run_loop (start_time : Q) (remaining : nat) (iteration : Z)
    (messages : list Message) : M (State W) pydict :=
  match remaining with
  | O => ret (max_iterations_result agent_id iteration)
  | S remaining' =>
      let iteration := (iteration + 1)%Z in
      response <- model_call (create messages) ;;
      if String.eqb (stop_reason response) "end_turn" then
        let result := _extract_result response in
        now <- read_clock utcnow ;;
        ret (success_result agent_id result iteration (now - start_time)%Q response)
      else if String.eqb (stop_reason response) "tool_use" then
        tool_results <- io (handle_tool_use response) ;;
        run_loop start_time remaining' iteration
          (messages ++ tool_use_turns response tool_results)%list
      else
        ret (max_iterations_result agent_id iteration)
  end.

(** The body of the [try] block of [run]. *)
Definition run_body (start_time : Q) (task : string)
    (context : option (list (string * Value))) (max_iterations : Z)
    : M (State W) pydict :=
  first <- lift (_build_user_message task context) ;;
  run_loop start_time (Z.to_nat max_iterations) 0
    [mkMessage "user" (MText first)].

(** [AgentBase.run]. *)
Definition run (task : string) (context : option (list (string * Value)))
    (max_iterations : Z) : M (State W) pydict :=
  start_time <- read_clock utcnow ;;
  try_except (run_body start_time task context max_iterations)
             (fun e => ret (failure_result agent_id e)).

(** [run] as its caller sees it: an operation on the world. *)
Definition call_run (task : string) (context : option (list (string * Value)))
    (max_iterations : Z) : M W pydict :=
  fun w =>
    let '(r, st) := run task context max_iterations (mkState w O) in
    (r, world st).

(** [tool_use_steps n messages w messages' w']: starting from the
    conversation [messages] in the world [w], the loop goes through [n]
    iterations in each of which the model call returns a response with
    stop reason ["tool_use"] and the dispatch of its tool invocations
    returns; it leaves the conversation [messages'] and the world [w']. *)
Inductive tool_use_steps : nat -> list Message -> W -> list Message -> W -> Prop :=
| steps_done (messages : list Message) (w : W) :
    tool_use_steps O messages w messages w
| steps_more (n : nat) (messages : list Message) (w : W)
    (response : Response) (w1 : W)
    (tool_results : list ToolResultBlock) (w2 : W)
    (messages' : list Message) (w' : W) :
    create messages w = (Ok response, w1) ->
    stop_reason response = "tool_use" ->
    handle_tool_use response w1 = (Ok tool_results, w2) ->
    tool_use_steps n (messages ++ tool_use_turns response tool_results)%list w2
                   messages' w' ->
    tool_use_steps (S n) messages w messages' w'.

End Run.

End Agent.

(** ** The manager ([src/agents/manager.py]) *)

Module Manager.

Local Open Scope monad_scope.

(** The keys of [self.specialist_agents]. *)
Definition specialist_ids : list string :=
  ["analyst"; "growth_hacker"; "sales_machine"; "system_builder"; "brand_builder"].

(** The two failure dictionaries of [_call_specialist_agent]. *)
Definition unknown_specialist_result (agent_id : string) : pydict :=
  [("success", JBool false);
   ("error", JStr ("Unknown specialist agent: " ++ agent_id))].

Definition specialist_failed_result (agent_id : string) (e : exn) : pydict :=
  [("success", JBool false);
   ("agent_id", JStr agent_id);
   ("error", JStr (exn_message e))].

(** [tool_name.replace("call_", "").replace("_agent", "")]. *)
Definition specialist_id_of (tool_name : string) : string :=
  replace "_agent" "" (replace "call_" "" tool_name).

(** The test [tool_name.startswith("call_") and tool_name.endswith("_agent")]. *)
Definition is_specialist_call (tool_name : string) : bool :=
  startswith "call_" tool_name && endswith "_agent" tool_name.

Section Manager.

Context {W Value : Type}.

(** [self.specialist_agents[agent_id].run(task=task, context=context)],
    for the registered [agent_id]s. *)
Variable specialist_run : string -> json -> json -> M W pydict.
(** The generic tool registry. *)
Variable tools : list (Tool W).
(** [settings.is_development]. *)
Variable is_development : bool.

(** [self.specialist_agents.get(agent_id)], as the [run] method of the
    agent found. *)
Definition specialist_agents_get (agent_id : string)
    : option (json -> json -> M W pydict) :=
  if existsb (String.eqb agent_id) specialist_ids
  then Some (specialist_run agent_id)
  else None.

(** [_call_specialist_agent].  The logger call evaluates [task[:100]]
    before anything else. *)
Definition _call_specialist_agent (agent_id : string) (task context : json)
    : M W pydict :=
  lift (slice_100 task) ;;;
  match specialist_agents_get agent_id with
  | None => ret (unknown_specialist_result agent_id)
  | Some agent_run =>
      try_except (agent_run task context)
        (fun e => ret (specialist_failed_result agent_id e))
  end.

(** [_request_human_approval]. *)
Definition _request_human_approval (approval_request : pydict) : M W pydict :=
  let decision := dict_get_or_none "decision" approval_request in
  if is_development then
    ret [("approved", JBool true);
         ("message", JStr "Auto-approved in development mode");
         ("decision", decision)]
  else
    ret [("approved", JBool false);
         ("message", JStr "Human approval required (not implemented yet)");
         ("decision", decision);
         ("action_required", JStr "Implement human approval workflow")].

(** The body of the loop of [ManagerAgent._handle_tool_use] for one
    [tool_use] block. *)
Definition dispatch (tool_name : string) (tool_input : pydict) : M W pydict :=
  if is_specialist_call tool_name then
    let agent_id := specialist_id_of tool_name in
    _call_specialist_agent agent_id
      (dict_get_or_none "task" tool_input)
      (dict_get_or_none "context" tool_input)
  else if String.eqb tool_name "request_human_approval" then
    _request_human_approval tool_input
  else
    execute_tool tools tool_name tool_input.

(** [ManagerAgent._handle_tool_use]. *)
Definition _handle_tool_use (response : Response) : M W (list ToolResultBlock) :=
  Agent.for_each_block dispatch JsonDumps [] (content response).

(** [ManagerAgent.run] is [AgentBase.run] with the method above. *)
Definition run (create : list Message -> M W Response)
    (utcnow : W -> Q) (format_value : Value -> result string)
    (task : string) (context : option (list (string * Value)))
    (max_iterations : Z) : M (State W) pydict :=
  Agent.run "manager" create utcnow format_value _handle_tool_use
            task context max_iterations.

End Manager.

End Manager.

(** ** Concrete ledgers and scripted worlds *)

Module Scenarios.

Import TokenManager.
Local Open Scope Q_scope.

Definition day : string := "2026-01-01".

(** A manager with the default budget of 50 USD and nothing recorded. *)
Definition tm_fresh : TokenManager := init None 50 None.

(** A budget of 3 USD, and one call of a million input tokens recorded:
    exactly 3 USD spent. *)
Definition tm_at_ceiling : TokenManager :=
  rec_state (record_usage (init (Some 3) 50 None) 0 day "analyst"
                          1000000 0 "claude-sonnet-4-5").

(** A budget of zero taken from the settings, and nothing recorded. *)
Definition tm_zero_budget : TokenManager := init None 0 None.

(** A world that is the script of the outcomes of the coming model
    calls; a call on an exhausted script fails to connect. *)
Definition Script : Type := list (result Response).

Definition scripted_create (messages : list Message) : M Script Response :=
  fun w =>
    match w with
    | [] => (Raise (Exn "APIConnectionError" "Connection error."), [])
    | r :: w' => (r, w')
    end.

Definition frozen_clock (w : Script) : Q := 0.

Definition format_string (v : string) : result string := Ok v.

Definition usage_10_5 : Usage := mkUsage 10 5.

(** Two text blocks and the end of the turn. *)
Definition two_texts : Response :=
  mkResponse [TextBlock "a"; TextBlock "b"] "end_turn" usage_10_5.

(** A well-formed call of [store_context], and one that lacks the
    required [value]. *)
Definition store_ok : Response :=
  mkResponse
    [ToolUseBlock "toolu_1" "store_context" [("key", JStr "k"); ("value", JStr "v")]]
    "tool_use" usage_10_5.

Definition store_bad : Response :=
  mkResponse [ToolUseBlock "toolu_1" "store_context" [("key", JStr "k")]]
             "tool_use" usage_10_5.

Definition default_tools : list (Tool Script) := [store_context].

(** An analyst on the default registry. *)
Definition analyst_run (task : string) (max_iterations : Z)
    : M (State Script) pydict :=
  Agent.run "analyst" scripted_create frozen_clock format_string
            (Agent._handle_tool_use default_tools) task None max_iterations.

Definition call_analyst : Response :=
  mkResponse
    [TextBlock "Delegating.";
     ToolUseBlock "toolu_2" "call_analyst_agent" [("task", JStr "Size the market")]]
    "tool_use" usage_10_5.

Definition final_answer : Response :=
  mkResponse [TextBlock "Done."] "end_turn" usage_10_5.

(** A call of a specialist that does not exist, without arguments. *)
Definition call_ghost : Response :=
  mkResponse [ToolUseBlock "toolu_3" "call_ghost_agent" []] "tool_use" usage_10_5.

(** A call of the analyst that carries a context and no task. *)
Definition call_analyst_without_task : Response :=
  mkResponse
    [TextBlock "Delegating.";
     ToolUseBlock "toolu_8" "call_analyst_agent"
       [("context", JDict [("segment", JStr "SMB")])]]
    "tool_use" usage_10_5.

(** A manager on the scripted model, over the specialists
    [specialist_run]. *)
Definition manager_run (specialist_run : string -> json -> json -> M Script pydict)
    (task : string) (max_iterations : Z) : M (State Script) pydict :=
  Manager.run specialist_run default_tools true
              scripted_create frozen_clock format_string
              task None max_iterations.

End Scenarios.

(** ** Views of responses and conversations *)

Module Conversation.

(** The identifiers of the [tool_use] blocks of a response, in order. *)
Fixpoint tool_use_ids (blocks : list ContentBlock) : list string :=
  match blocks with
  | [] => []
  | ToolUseBlock id _ _ :: blocks' => id :: tool_use_ids blocks'
  | _ :: blocks' => tool_use_ids blocks'
  end.

(** One line of the context block of the first message,
    [f"- **{key}**: {value}\n"], and the heading put before the lines. *)
Definition bullet (key value : string) : string :=
  "- **" ++ key ++ "**: " ++ value ++ Agent.newline.

Definition context_header : string :=
  Agent.newline ++ Agent.newline ++ "**Additional Context:**" ++ Agent.newline.

(** A response cut short by the token limit while it was asking for a
    tool. *)
Definition truncated : Response :=
  mkResponse
    [ToolUseBlock "toolu_4" "store_context" [("key", JStr "k"); ("value", JStr "v")]]
    "max_tokens" (mkUsage 10 4096).

(** A response asking for two tools, with text around the requests. *)
Definition two_calls : Response :=
  mkResponse
    [TextBlock "Saving both.";
     ToolUseBlock "toolu_5" "store_context" [("key", JStr "a"); ("value", JStr "1")];
     TextBlock "And the second.";
     ToolUseBlock "toolu_6" "store_context"
       [("key", JStr "b"); ("value", JStr "2"); ("category", JStr "strategy")]]
    "tool_use" (mkUsage 20 30).

(** A response whose tool input has a key [name]. *)
Definition named_call : Response :=
  mkResponse
    [TextBlock "Saving the contact.";
     ToolUseBlock "toolu_7" "store_context"
       [("name", JStr "Ada"); ("key", JStr "k"); ("value", JStr "v")]]
    "tool_use" (mkUsage 20 30).

(** A context of two entries. *)
Definition crm_context : list (string * string) :=
  [("product", "CRM"); ("market", "SMB")].

(** *** Recording what a run sends to the model

    To observe the [messages] argument of the calls a run makes to
    [client.messages.create], the world is paired with a transcript: the
    conversation sent and the outcome of the call, oldest first.  The
    recording [create] appends to the transcript and otherwise does what
    [create] does; the handler and the clock leave the transcript
    alone. *)

Definition Transcript : Type := list (list Message * result Response).

Definition recording_create {W : Type} (create : list Message -> M W Response)
    : list Message -> M (W * Transcript) Response :=
  fun messages rw =>
    let '(r, w') := create messages (fst rw) in
    (r, (w', (snd rw ++ [(messages, r)])%list)).

Definition recording_handler {W : Type}
    (handle_tool_use : Response -> M W (list ToolResultBlock))
    : Response -> M (W * Transcript) (list ToolResultBlock) :=
  fun response rw =>
    let '(r, w') := handle_tool_use response (fst rw) in
    (r, (w', snd rw)).

Definition recording_clock {W : Type} (utcnow : W -> Q) : W * Transcript -> Q :=
  fun rw => utcnow (fst rw).

(** Forgetting the transcript. *)
Definition erase {W : Type} (st : State (W * Transcript)) : State W :=
  mkState (fst (world st)) (model_calls st).

(** [grows_by_turns messages sent]: the first call was sent [messages],
    and every later call was sent what the call before it was sent
    followed by two messages, the content of the response to that call
    (which had stop reason ["tool_use"]) as the assistant's and a list of
    tool results as the user's. *)
Fixpoint grows_by_turns (messages : list Message) (sent : Transcript) : Prop :=
  match sent with
  | [] => True
  | (sent_messages, outcome) :: later =>
      sent_messages = messages /\
      (later = [] \/
       exists (response : Response) (tool_results : list ToolResultBlock),
         outcome = Ok response /\
         stop_reason response = "tool_use" /\
         grows_by_turns
           (messages ++ [mkMessage "assistant" (MBlocks (content response));
                         mkMessage "user" (MToolResults tool_results)])%list
           later)
  end.

End Conversation.

(** ** The tool registry and its default tools ([src/core/tools.py]) *)

Module Registry.

Local Open Scope monad_scope.

(** [ToolRegistry.register]: [self.tools[tool.name] = tool].  A name
    already present keeps its place in the dictionary and gets the new
    tool; a new name goes to the end. *)
Fixpoint register {W : Type} (t : Tool W) (tools : list (Tool W))
    : list (Tool W) :=
  match tools with
  | [] => [t]
  | t' :: tools' =>
      if String.eqb (tool_name t) (tool_name t')
      then t :: tools'
      else t' :: register t tools'
  end.

(** The names listed by [get_all_claude_tools], in the order of
    [self.tools.values()]. *)
Definition tool_names {W : Type} (tools : list (Tool W)) : list string :=
  map tool_name tools.

(** Truth value of an optional setting: [None] and the empty string are
    falsy. *)
Definition truthy (s : option string) : bool :=
  match s with
  | Some (String _ _) => true
  | _ => false
  end.

Section DefaultTools.

Context {W : Type}.

(** [settings.brave_api_key] and [settings.serpapi_key]. *)
Variable brave_api_key : option string.
Variable serpapi_key : option string.
(** [WebSearchTool._search_brave] and [_search_serpapi]: the requests to
    the search services. *)
Variable _search_brave : json -> json -> M W pydict.
Variable _search_serpapi : json -> json -> M W pydict.
(** The body of the [try] block of [ExtractDataTool.execute]: the
    request to the page and the dictionary built from its answer. *)
Variable fetch_url : json -> M W pydict.

Definition no_search_api_result : pydict :=
  [("success", JBool false);
   ("error", JStr "No search API key configured. Please set BRAVE_API_KEY or SERPAPI_KEY.");
   ("results", JList [])].

(** [WebSearchTool]: [execute(self, query, num_results=10)]. *)
Definition web_search : Tool W :=
  mkTool "web_search" ["query"] ["num_results"]
    (fun kwargs =>
       let query := dict_get_or_none "query" kwargs in
       let num_results := dict_get_default "num_results" (JInt 10) kwargs in
       try_except
         (if truthy brave_api_key then _search_brave query num_results
          else if truthy serpapi_key then _search_serpapi query num_results
          else ret no_search_api_result)
         (fun e => ret [("success", JBool false);
                        ("error", JStr (exn_message e));
                        ("results", JList [])])).

(** [ExtractDataTool]: [execute(self, url)]. *)
Definition extract_data_from_url : Tool W :=
  mkTool "extract_data_from_url" ["url"] []
    (fun kwargs =>
       let url := dict_get_or_none "url" kwargs in
       try_except (fetch_url url)
         (fun e => ret [("success", JBool false);
                        ("url", url);
                        ("error", JStr (exn_message e))])).

(** [ToolRegistry.__init__]: [_register_default_tools] on the empty
    dictionary. *)
Definition default_registry : list (Tool W) :=
  register store_context (register extract_data_from_url (register web_search [])).

End DefaultTools.

End Registry.

(** ** The tools the manager offers ([ManagerAgent.available_tools]) *)

Module ManagerTools.

(** The tools added to the generic ones, each with the arguments its
    schema requires. *)
Definition specialist_tools : list (string * list string) :=
  [("call_analyst_agent", ["task"]);
   ("call_growth_hacker_agent", ["task"]);
   ("call_sales_machine_agent", ["task"]);
   ("call_system_builder_agent", ["task"]);
   ("call_brand_builder_agent", ["task"]);
   ("request_human_approval", ["decision"; "rationale"])].

(** The names of [available_tools]: [tools + specialist_tools]. *)
Definition available_tool_names {W : Type} (tools : list (Tool W)) : list string :=
  (Registry.tool_names tools ++ map fst specialist_tools)%list.

(** Search services that cannot be reached, and the default registry
    over them. *)
Definition offline_search (query num_results : json) : M Scenarios.Script pydict :=
  raise (Exn "ConnectError" "All connection attempts failed").

Definition offline_fetch (url : json) : M Scenarios.Script pydict :=
  raise (Exn "ConnectError" "All connection attempts failed").

Definition offline_registry : list (Tool Scenarios.Script) :=
  Registry.default_registry (Some "brave-key") None
    offline_search offline_search offline_fetch.

(** A specialist that is a base agent talking to the scripted model,
    run as the manager runs it. *)
Definition analyst_specialist (agent_id : string) (task context : json)
    : M Scenarios.Script pydict :=
  match task with
  | JStr s =>
      Agent.call_run agent_id Scenarios.scripted_create Scenarios.frozen_clock
        Scenarios.format_string
        (Agent._handle_tool_use Scenarios.default_tools) s None 10
  | _ => raise (Exn "TypeError" "task must be a string")
  end.

End ManagerTools.

(** ** The token manager's reports ([src/core/token_manager.py]) *)

Module TokenReports.

Import TokenManager.
Local Open Scope Q_scope.

(** The dictionary returned by [get_agent_usage].  The keys
    [input_tokens], [output_tokens] and [avg_tokens_per_call] exist only
    for an agent with usage: an absent key is [None] here. *)
Record AgentUsage : Type := mkAgentUsage {
  au_agent_id : string;
  au_total_tokens : Z;
  au_input_tokens : option Z;
  au_output_tokens : option Z;
  au_total_cost_usd : Q;
  au_call_count : Z;
  avg_tokens_per_call : option Q
}.

(** [get_agent_usage]. *)
Definition get_agent_usage (tm : TokenManager) (agent_id : string) : AgentUsage :=
  let usages := usages_of tm agent_id in
  match usages with
  | [] => mkAgentUsage agent_id 0 None None 0 0 None
  | _ :: _ =>
      let total_input := sum_input usages in
      let total_output := sum_output usages in
      mkAgentUsage agent_id (total_input + total_output)
        (Some total_input) (Some total_output)
        (py_round (sum_cost usages) 2)
        (Z.of_nat (List.length usages))
        (Some (py_round (inject_Z (total_input + total_output)
                         / inject_Z (Z.of_nat (List.length usages))) 0))
  end.

(** The suggestion dictionaries, one constructor per [issue]:
    ["high_tokens_per_call"] with its [agent] and [avg_tokens], and
    ["high_daily_spend"] with its [percentage]. *)
Inductive Suggestion : Type :=
| HighTokensPerCall (agent : string) (avg_tokens : Q)
| HighDailySpend (percentage : Q).

(** The loop [for agent_id in self.usage_by_agent] of
    [get_cost_optimization_suggestions], over the keys [agents] of the
    dictionary in its iteration order. *)
Fixpoint agent_suggestions (tm : TokenManager) (agents : list string)
    (suggestions : list Suggestion) : result (list Suggestion) :=
  match agents with
  | [] => Ok suggestions
  | agent_id :: agents' =>
      let usage := get_agent_usage tm agent_id in
      rbind (getitem "avg_tokens_per_call" (avg_tokens_per_call usage)) (fun avg =>
      agent_suggestions tm agents'
        (if Qltb 5000 avg
         then (suggestions ++ [HighTokensPerCall agent_id avg])%list
         else suggestions))
  end.

(** [get_cost_optimization_suggestions]; [agents] is
    [list(self.usage_by_agent)]. *)
Definition get_cost_optimization_suggestions (tm : TokenManager)
    (today : string) (agents : list string) : result (list Suggestion) :=
  rbind (agent_suggestions tm agents []) (fun suggestions =>
  rbind (get_daily_usage tm today None) (fun daily_usage =>
  rbind (getitem "budget_used_percentage" (budget_used_percentage daily_usage))
        (fun percentage =>
  Ok (if Qltb 50 percentage
      then (suggestions ++ [HighDailySpend percentage])%list
      else suggestions)))).

(** The dictionary returned by [get_summary]. *)
Record Summary : Type := mkSummary {
  daily_usage : DailyUsage;
  agent_usage : list (string * AgentUsage);
  optimization_suggestions : list Suggestion
}.

(** [get_summary]; [agents] is [list(self.usage_by_agent)]. *)
Definition get_summary (tm : TokenManager) (today : string)
    (agents : list string) : result Summary :=
  rbind (get_daily_usage tm today None) (fun daily =>
  let agent_summaries := map (fun a => (a, get_agent_usage tm a)) agents in
  rbind (get_cost_optimization_suggestions tm today agents) (fun suggestions =>
  Ok (mkSummary daily agent_summaries suggestions))).

(** The states a manager goes through: built by [__init__], then
    changed by [record_usage] only. *)
Inductive reachable : TokenManager -> Prop :=
| reach_init (daily_budget_arg : option Q) (max_cost_per_day : Q)
    (tok : option (string -> option nat)) :
    reachable (init daily_budget_arg max_cost_per_day tok)
| reach_record (tm : TokenManager) (now : Z) (today agent_id : string)
    (input_tokens output_tokens : Z) (model : string) :
    reachable tm ->
    reachable (rec_state (record_usage tm now today agent_id
                                       input_tokens output_tokens model)).

(** The number of entries held by a ledger, over all its buckets. *)
Definition entries (ledger : gmap string (list TokenUsage)) : nat :=
  sum_list (List.length <$> (snd <$> map_to_list ledger)).

(** A budget of 50 USD with usage recorded on the last day of the year
    only. *)
Definition tm_yesterday : TokenManager :=
  rec_state (record_usage (init None 50 None) 0 "2025-12-31" "analyst"
                          2000 800 "claude-sonnet-4-5").

End TokenReports.

(** ** The prompt cache ([src/core/prompt_cache.py]) *)

Module PromptCache.

Local Open Scope Q_scope.

(** [self.cache_stats]. *)
Record CacheStats : Type := mkCacheStats {
  hits : Z;
  misses : Z;
  savings_usd : Q
}.

(** The dictionary set by [__init__] and by [reset_stats]. *)
Definition init_stats : CacheStats := mkCacheStats 0 0 0.

Definition reset_stats (stats : CacheStats) : CacheStats := init_stats.

(** A token count of [response.usage] as [getattr(usage, name, 0)] finds
    it: the attribute may be missing, hold [None], or hold a number. *)
Inductive TokenField : Type :=
| FieldAbsent
| FieldNone
| FieldInt (n : Z).

(** [getattr(usage, name, 0)]: [None] here is Python's [None]. *)
Definition getattr_or_0 (f : TokenField) : option Z :=
  match f with
  | FieldAbsent => Some 0%Z
  | FieldNone => None
  | FieldInt n => Some n
  end.

Definition none_compared : exn :=
  Exn "TypeError" "'>' not supported between instances of 'NoneType' and 'int'".

(** [_record_cache_usage], on the two token counts of the response.
    The counters are updated as the statements run, so what was counted
    before an exception stays counted. *)
Definition _record_cache_usage (cache_creation cache_read : TokenField)
    : M CacheStats unit :=
  fun stats =>
    let cache_creation_tokens := getattr_or_0 cache_creation in
    let cache_read_tokens := getattr_or_0 cache_read in
    match cache_read_tokens with
    | None => (Raise none_compared, stats)
    | Some r =>
        let stats1 :=
          if (0 <? r)%Z
          then mkCacheStats (hits stats + 1) (misses stats)
                 (savings_usd stats + (inject_Z r / 1000000) * (27 # 10))
          else stats in
        match cache_creation_tokens with
        | None => (Raise none_compared, stats1)
        | Some c =>
            (Ok tt,
             if (0 <? c)%Z
             then mkCacheStats (hits stats1) (misses stats1 + 1) (savings_usd stats1)
             else stats1)
        end
    end.

(** The dictionary returned by [get_cache_stats]. *)
Record CacheReport : Type := mkCacheReport {
  total_requests : Z;
  cache_hits : Z;
  cache_misses : Z;
  hit_rate_percentage : Q;
  total_savings_usd : Q;
  estimated_monthly_savings : Q
}.

(** [get_cache_stats]. *)
Definition get_cache_stats (stats : CacheStats) : CacheReport :=
  let total_requests := (hits stats + misses stats)%Z in
  let hit_rate :=
    if (total_requests =? 0)%Z then 0
    else (inject_Z (hits stats) / inject_Z total_requests) * 100 in
  mkCacheReport total_requests (hits stats) (misses stats)
    (TokenManager.py_round hit_rate 1)
    (TokenManager.py_round (savings_usd stats) 2)
    (TokenManager.py_round (savings_usd stats * 30) 2).

(** The statistics a cache goes through: built by [__init__], then
    changed by [_record_cache_usage] (whether it returns or raises) and
    by [reset_stats]. *)
Inductive stats_reachable : CacheStats -> Prop :=
| stats_init : stats_reachable init_stats
| stats_record (stats : CacheStats) (cache_creation cache_read : TokenField) :
    stats_reachable stats ->
    stats_reachable (snd (_record_cache_usage cache_creation cache_read stats))
| stats_reset (stats : CacheStats) :
    stats_reachable stats -> stats_reachable (reset_stats stats).

(** The content of a message: a string or a list of content blocks. *)
Inductive CachedContent : Type :=
| ContentStr (s : string)
| ContentBlocks (blocks : list pydict).

(** A message dictionary [{"role": ..., "content": ...}]. *)
Record MessageDict : Type := mkMessageDict {
  md_role : string;
  md_content : CachedContent
}.

(** The message dictionaries live in a store and lists hold their
    addresses: [messages.copy()] copies the addresses, not the
    dictionaries. *)
Definition Store : Type := nat -> MessageDict.

Definition store_set (store : Store) (address : nat) (m : MessageDict) : Store :=
  fun a => if Nat.eqb a address then m else store a.

(** The block list that replaces a string content. *)
Definition ephemeral_text (text : string) : list pydict :=
  [[("type", JStr "text");
    ("text", JStr text);
    ("cache_control", JDict [("type", JStr "ephemeral")])]].

(** [range(a, b)]. *)
Definition py_range (a b : Z) : list Z :=
  map (fun k => (a + Z.of_nat k)%Z) (seq 0 (Z.to_nat (b - a))).

(** The body of the loop of [create_cached_messages] for the index
    [i]. *)
Definition cache_turn (cached_messages : list nat) (store : Store) (i : Z)
    : Store :=
  if (0 <=? i)%Z then
    match cached_messages !! Z.to_nat i with
    | Some address =>
        let m := store address in
        if String.eqb (md_role m) "assistant" then
          match md_content m with
          | ContentStr content =>
              store_set store address
                (mkMessageDict (md_role m) (ContentBlocks (ephemeral_text content)))
          | ContentBlocks _ => store
          end
        else store
    | None => store
    end
  else store.

(** [create_cached_messages]: the list returned and the store after the
    call. *)
Definition create_cached_messages (messages : list nat)
    (cache_recent_turns : Z) (store : Store) : list nat * Store :=
  if (List.length messages <=? 1)%nat then (messages, store)
  else
    let cached_messages := messages in
    let n := Z.of_nat (List.length cached_messages) in
    (cached_messages,
     fold_left (cache_turn cached_messages)
               (py_range (n - cache_recent_turns) n) store).

(** What the loop does to one message dictionary. *)
Definition marked (m : MessageDict) : MessageDict :=
  if String.eqb (md_role m) "assistant" then
    match md_content m with
    | ContentStr content =>
        mkMessageDict (md_role m) (ContentBlocks (ephemeral_text content))
    | ContentBlocks _ => m
    end
  else m.

(** The last [k] addresses of a list (all of them when [k] exceeds the
    length, none when [k] is not positive). *)
Definition recent (messages : list nat) (k : Z) : list nat :=
  drop (List.length messages - Z.to_nat k) messages.

(** A conversation of three turns stored at the addresses 0, 1, 2. *)
Definition three_turns : Store :=
  fun a =>
    match a with
    | O => mkMessageDict "user" (ContentStr "Size the market")
    | S O => mkMessageDict "assistant" (ContentStr "It is large.")
    | _ => mkMessageDict "user" (ContentStr "How large?")
    end.

End PromptCache.

(** * Properties *)

(** ** Cache strategy *)

Module CacheStrategyProps.
Import CacheStrategy.

(** C8: for every integer n, k and t (in particular every natural
    number), [should_cache_system_prompt n] is true iff n >= 1024,
    [should_cache_tools k] is true iff k > 3 and
    [should_cache_conversation_history t] is true iff t > 2; the boundary
    pairs 1023/1024, 3/4 and 2/3 flip the decision. *)
Theorem cache_thresholds :
  (forall n : Z, should_cache_system_prompt n = true <-> 1024 <= n) /\
  (forall k : Z, should_cache_tools k = true <-> 3 < k) /\
  (forall t : Z, should_cache_conversation_history t = true <-> 2 < t) /\
  should_cache_system_prompt 1023 = false /\
  should_cache_system_prompt 1024 = true /\
  should_cache_tools 3 = false /\
  should_cache_tools 4 = true /\
  should_cache_conversation_history 2 = false /\
  should_cache_conversation_history 3 = true.
Proof.
  unfold should_cache_system_prompt, should_cache_tools,
    should_cache_conversation_history, MIN_TOKENS_TO_CACHE.
  repeat split; try reflexivity; intros H.
  - apply Z.geb_le in H. lia.
  - apply Z.geb_le. lia.
  - apply Z.gtb_lt in H. lia.
  - apply Z.gtb_lt. lia.
  - apply Z.gtb_lt in H. lia.
  - apply Z.gtb_lt. lia.
Qed.

End CacheStrategyProps.

(** ** Token manager *)

Module TokenManagerProps.
Import TokenManager Scenarios.
Local Open Scope Q_scope.

(** *** Rounding *)

Lemma floor_bounds (q : Q) :
  inject_Z (Qfloor q) <= q /\ q < inject_Z (Qfloor q) + 1.
Proof.
  split; [apply Qfloor_le|].
  pose proof (Qlt_floor q) as H. rewrite inject_Z_plus in H. exact H.
Qed.

(** Rounding moves a value by at most one half. *)
Lemma round_half_even_bounds (q : Q) :
  q - (1 # 2) <= inject_Z (round_half_even q) <= q + (1 # 2).
Proof.
  unfold round_half_even.
  destruct (floor_bounds q) as [Hlo Hhi].
  set (f := Qfloor q) in *.
  destruct (Qcompare_spec (q - inject_Z f) (1 # 2)) as [He | Hl | Hg].
  - destruct (Z.even f).
    + split; lra.
    + rewrite inject_Z_plus. change (inject_Z 1) with 1. split; lra.
  - split; lra.
  - rewrite inject_Z_plus. change (inject_Z 1) with 1. split; lra.
Qed.

Lemma Z_lt_of_Q (a b : Z) : inject_Z a < inject_Z b -> (a < b)%Z.
Proof. intros H. rewrite Zlt_Qlt. exact H. Qed.

Lemma Z_le_of_Q (a b : Z) : inject_Z a <= inject_Z b -> (a <= b)%Z.
Proof. intros H. rewrite Zle_Qle. exact H. Qed.

Lemma Q_le_of_Z (a b : Z) : (a <= b)%Z -> inject_Z a <= inject_Z b.
Proof. intros H. rewrite <- Zle_Qle. exact H. Qed.

(** The rounded value is negative exactly below minus one half. *)
Lemma round_half_even_neg (q : Q) :
  (round_half_even q < 0)%Z <-> q < - (1 # 2).
Proof.
  unfold round_half_even.
  destruct (floor_bounds q) as [Hlo Hhi].
  set (f := Qfloor q) in *.
  destruct (Qcompare_spec (q - inject_Z f) (1 # 2)) as [He | Hl | Hg].
  - destruct (Z.even f) eqn:Hev.
    + split; intros H.
      * assert (f <> -1)%Z by (intros ->; discriminate Hev).
        assert (f <= -2)%Z as Hf by lia.
        apply Q_le_of_Z in Hf. change (inject_Z (-2)) with (-2 # 1) in Hf. lra.
      * apply Z_lt_of_Q. change (inject_Z 0) with 0. lra.
    + split; intros H.
      * assert (f <= -2)%Z as Hf by lia.
        apply Q_le_of_Z in Hf. change (inject_Z (-2)) with (-2 # 1) in Hf. lra.
      * assert (f < -1)%Z as Hf.
        { apply Z_lt_of_Q. change (inject_Z (-1)) with (-1 # 1). lra. }
        lia.
  - split; intros H.
    + assert (f <= -1)%Z as Hf by lia.
      apply Q_le_of_Z in Hf. change (inject_Z (-1)) with (-1 # 1) in Hf. lra.
    + apply Z_lt_of_Q. change (inject_Z 0) with 0. lra.
  - split; intros H.
    + assert (f <= -2)%Z as Hf by lia.
      apply Q_le_of_Z in Hf. change (inject_Z (-2)) with (-2 # 1) in Hf. lra.
    + assert (f < -1)%Z as Hf.
      { apply Z_lt_of_Q. change (inject_Z (-1)) with (-1 # 1). lra. }
      lia.
Qed.

(** The rounded value is at most zero exactly up to one half. *)
Lemma round_half_even_nonpos (q : Q) :
  (round_half_even q <= 0)%Z <-> q <= 1 # 2.
Proof.
  unfold round_half_even.
  destruct (floor_bounds q) as [Hlo Hhi].
  set (f := Qfloor q) in *.
  destruct (Qcompare_spec (q - inject_Z f) (1 # 2)) as [He | Hl | Hg].
  - destruct (Z.even f) eqn:Hev.
    + split; intros H.
      * apply Q_le_of_Z in H. change (inject_Z 0) with 0 in H. lra.
      * apply Z_le_of_Q. change (inject_Z 0) with 0. lra.
    + split; intros H.
      * assert (f <= -1)%Z as Hf by lia.
        apply Q_le_of_Z in Hf. change (inject_Z (-1)) with (-1 # 1) in Hf. lra.
      * assert (f <= 0)%Z as Hf.
        { apply Z_le_of_Q. change (inject_Z 0) with 0. lra. }
        assert (f <> 0)%Z by (intros Hz; rewrite Hz in Hev; discriminate Hev).
        lia.
  - split; intros H.
    + apply Q_le_of_Z in H. change (inject_Z 0) with 0 in H. lra.
    + assert (f < 1)%Z as Hf.
      { apply Z_lt_of_Q. change (inject_Z 1) with 1. lra. }
      lia.
  - split; intros H.
    + assert (f <= -1)%Z as Hf by lia.
      apply Q_le_of_Z in Hf. change (inject_Z (-1)) with (-1 # 1) in Hf. lra.
    + assert (f < 0)%Z as Hf.
      { apply Z_lt_of_Q. change (inject_Z 0) with 0. lra. }
      lia.
Qed.

Lemma Qltb_true (x y : Q) : Qltb x y = true <-> x < y.
Proof.
  unfold Qltb. rewrite negb_true_iff.
  split; intros H.
  - apply Qnot_le_lt. intros Hle. apply Qle_bool_iff in Hle. congruence.
  - destruct (Qle_bool y x) eqn:E; [| reflexivity].
    apply Qle_bool_iff in E. lra.
Qed.

Lemma Qltb_false (x y : Q) : Qltb x y = false <-> y <= x.
Proof.
  unfold Qltb. rewrite negb_false_iff. apply Qle_bool_iff.
Qed.

(** Sign of an amount rounded to cents. *)
Lemma py_round_2_neg (x : Q) : py_round x 2 < 0 <-> x < - (1 # 200).
Proof.
  unfold py_round. change (inject_Z (10 ^ Z.of_nat 2)) with (100 # 1).
  unfold Qdiv. change (/ (100 # 1)) with (1 # 100).
  destruct (round_half_even_neg (x * (100 # 1))) as [H1 H2].
  split; intros H.
  - assert (round_half_even (x * (100 # 1)) < 0)%Z as Hz.
    { apply Z_lt_of_Q. change (inject_Z 0) with 0. lra. }
    apply H1 in Hz. lra.
  - assert (round_half_even (x * (100 # 1)) < 0)%Z as Hz by (apply H2; lra).
    rewrite Zlt_Qlt in Hz. change (inject_Z 0) with 0 in Hz. lra.
Qed.

Lemma py_round_2_nonpos (x : Q) : py_round x 2 <= 0 <-> x <= 1 # 200.
Proof.
  unfold py_round. change (inject_Z (10 ^ Z.of_nat 2)) with (100 # 1).
  unfold Qdiv. change (/ (100 # 1)) with (1 # 100).
  destruct (round_half_even_nonpos (x * (100 # 1))) as [H1 H2].
  split; intros H.
  - assert (round_half_even (x * (100 # 1)) <= 0)%Z as Hz.
    { apply Z_le_of_Q. change (inject_Z 0) with 0. lra. }
    apply H1 in Hz. lra.
  - assert (round_half_even (x * (100 # 1)) <= 0)%Z as Hz by (apply H2; lra).
    rewrite Zle_Qle in Hz. change (inject_Z 0) with 0 in Hz. lra.
Qed.

Lemma py_round_2_upper (x : Q) : py_round x 2 <= x + (1 # 200).
Proof.
  unfold py_round. change (inject_Z (10 ^ Z.of_nat 2)) with (100 # 1).
  unfold Qdiv. change (/ (100 # 1)) with (1 # 100).
  destruct (round_half_even_bounds (x * (100 # 1))) as [_ H]. lra.
Qed.

Lemma get_daily_usage_today (tm : TokenManager) (today : string) :
  usages_on tm today <> [] ->
  ~ daily_budget tm == 0 ->
  get_daily_usage tm today None =
    Ok (mkDailyUsage today
          (sum_input (usages_on tm today) + sum_output (usages_on tm today))
          (sum_input (usages_on tm today)) (sum_output (usages_on tm today))
          (py_round (spent_on tm today) 2)
          (Z.of_nat (List.length (usages_on tm today)))
          (Some (py_round (daily_budget tm - spent_on tm today) 2))
          (Some (py_round ((spent_on tm today / daily_budget tm) * 100) 1))).
Proof.
  intros Hne Hb. unfold get_daily_usage, spent_on.
  destruct (usages_on tm today) as [| u us] eqn:E; [congruence |].
  destruct (Qeq_bool (daily_budget tm) 0) eqn:Hz.
  - apply Qeq_bool_iff in Hz. contradiction.
  - reflexivity.
Qed.

Lemma get_daily_usage_empty (tm : TokenManager) (today : string) :
  usages_on tm today = [] ->
  get_daily_usage tm today None = Ok (mkDailyUsage today 0 0 0 0 0 None None).
Proof. intros E. unfold get_daily_usage. rewrite E. reflexivity. Qed.

(** On a day with no recorded usage the budget keys are missing from the
    usage dictionary and the lookup raises. *)
Lemma check_budget_available_empty (tm : TokenManager) (today : string) :
  usages_on tm today = [] ->
  check_budget_available tm today = Raise (Exn "KeyError" "'budget_remaining_usd'").
Proof.
  intros E. unfold check_budget_available.
  rewrite (get_daily_usage_empty _ _ E). reflexivity.
Qed.

Lemma check_budget_available_eq (tm : TokenManager) (today : string) :
  usages_on tm today <> [] ->
  ~ daily_budget tm == 0 ->
  check_budget_available tm today =
    Ok (negb (Qltb (py_round (daily_budget tm - spent_on tm today) 2) 0)).
Proof.
  intros Hne Hb. unfold check_budget_available.
  rewrite (get_daily_usage_today _ _ Hne Hb). simpl.
  destruct (Qltb _ 0); reflexivity.
Qed.

(** C1 (amended): on a day with recorded usage and a non-zero budget,
    [check_budget_available] returns a boolean.  It is true whenever
    today's spend is at most the ceiling plus 0.4 cent, so in particular
    when the spend equals the ceiling, and false whenever today's spend is
    at least 0.6 cent above the ceiling.  (The test is
    [round(daily_budget - spend, 2) < 0], which switches half a cent above
    the ceiling; the band left out is where the rounding of the computed
    difference decides.) *)
Theorem check_budget_available_bounds (tm : TokenManager) (today : string) :
  usages_on tm today <> [] ->
  ~ daily_budget tm == 0 ->
  exists b : bool,
    check_budget_available tm today = Ok b /\
    (spent_on tm today <= daily_budget tm + (4 # 1000) -> b = true) /\
    (daily_budget tm + (6 # 1000) <= spent_on tm today -> b = false) /\
    (spent_on tm today == daily_budget tm -> b = true).
Proof.
  intros Hne Hb.
  exists (negb (Qltb (py_round (daily_budget tm - spent_on tm today) 2) 0)).
  split; [apply check_budget_available_eq; assumption |].
  assert (Hcore : negb (Qltb (py_round (daily_budget tm - spent_on tm today) 2) 0) = true
                  <-> spent_on tm today <= daily_budget tm + (1 # 200)).
  { rewrite negb_true_iff, Qltb_false.
    split; intros H.
    - apply Qnot_lt_le. intros Hlt.
      assert (py_round (daily_budget tm - spent_on tm today) 2 < 0) as Hneg
        by (apply py_round_2_neg; lra).
      lra.
    - apply Qnot_lt_le. intros Hlt. apply py_round_2_neg in Hlt. lra. }
  split; [| split].
  - intros H. apply Hcore. lra.
  - intros H. apply not_true_is_false. intros E. apply Hcore in E. lra.
  - intros Heq. apply Hcore. lra.
Qed.

Lemma estimate_tokens_nonneg (tm : TokenManager) (text : string) :
  (0 <= estimate_tokens tm text)%Z.
Proof.
  unfold estimate_tokens.
  destruct (tokenizer tm) as [encode |]; [destruct (encode text) |];
    try apply Z.div_pos; lia.
Qed.

Lemma pricing_for_pos (m : string) :
  0 < price_input (pricing_for m) /\ 0 < price_output (pricing_for m).
Proof.
  unfold pricing_for, model_pricing. simpl.
  repeat match goal with
         | |- context [String.eqb ?a ?b] => destruct (String.eqb a b)
         end; simpl; split; reflexivity.
Qed.

(** A call that expects at least one output token has a positive
    estimated cost, whatever the text and the model. *)
Lemma estimate_call_cost_pos (tm : TokenManager) (text : string)
    (expected_output_tokens : Z) (m : string) :
  (1 <= expected_output_tokens)%Z ->
  0 < estimate_call_cost tm text expected_output_tokens m.
Proof.
  intros He. unfold estimate_call_cost.
  destruct (pricing_for_pos m) as [Hi Ho].
  pose proof (estimate_tokens_nonneg tm text) as Ht.
  apply Q_le_of_Z in Ht. change (inject_Z 0) with 0 in Ht.
  apply Q_le_of_Z in He. change (inject_Z 1) with 1 in He.
  set (a := inject_Z (estimate_tokens tm text)) in *.
  set (b := inject_Z expected_output_tokens) in *.
  set (pi := price_input (pricing_for m)) in *.
  set (po := price_output (pricing_for m)) in *.
  assert (0 <= a / 1000 * pi).
  { apply Qmult_le_0_compat; [| lra]. unfold Qdiv.
    change (/ 1000) with (1 # 1000). lra. }
  assert (0 < b / 1000 * po).
  { apply Qmult_lt_0_compat; [| lra]. unfold Qdiv.
    change (/ 1000) with (1 # 1000). lra. }
  lra.
Qed.

(** C7 (amended): on a day with recorded usage and a non-zero budget,
    [should_allow_call] returns false with a denial reason, for any input
    text and any model, when today's spend has reached the daily budget
    and the call's estimated cost is positive, and also when
    [get_daily_usage] reports a [total_cost_usd] of at least the daily
    budget and the call's estimated cost exceeds one cent.
    ([total_cost_usd] is rounded to cents, so by itself it only tells
    that the spend is within half a cent of the budget, and the remaining
    budget the call is compared with is rounded to cents too.) *)
Theorem should_allow_call_denies (tm : TokenManager) (today text : string)
    (expected_output_tokens : Z) (m : string) (u : DailyUsage) :
  usages_on tm today <> [] ->
  get_daily_usage tm today None = Ok u ->
  (daily_budget tm <= spent_on tm today /\
   0 < estimate_call_cost tm text expected_output_tokens m) \/
  (daily_budget tm <= total_cost_usd u /\
   1 # 100 < estimate_call_cost tm text expected_output_tokens m) ->
  exists reason : Reason,
    should_allow_call tm today text expected_output_tokens m = Ok (false, reason) /\
    reason <> BudgetAvailable.
Proof.
  intros Hne Hu Hcases.
  assert (Hb : ~ daily_budget tm == 0).
  { intros Hz. unfold get_daily_usage in Hu.
    destruct (usages_on tm today) eqn:E; [congruence |].
    apply Qeq_bool_iff in Hz. rewrite Hz in Hu. discriminate Hu. }
  rewrite (get_daily_usage_today _ _ Hne Hb) in Hu.
  injection Hu as <-. simpl in Hcases.
  pose proof (py_round_2_upper (spent_on tm today)) as Hup.
  pose proof (py_round_2_upper (daily_budget tm - spent_on tm today)) as Hrem.
  assert (Hlt2 : py_round (daily_budget tm - spent_on tm today) 2
                 < estimate_call_cost tm text expected_output_tokens m).
  { destruct Hcases as [[Hge Hcost] | [Hge Hcost]].
    - assert (py_round (daily_budget tm - spent_on tm today) 2 <= 0)
        by (apply py_round_2_nonpos; lra).
      lra.
    - lra. }
  unfold should_allow_call.
  rewrite (check_budget_available_eq _ _ Hne Hb).
  rewrite (get_daily_usage_today _ _ Hne Hb). simpl.
  destruct (Qltb (py_round (daily_budget tm - spent_on tm today) 2) 0) eqn:Hlt; simpl.
  - exists DailyBudgetExceeded. split; [reflexivity | discriminate].
  - apply Qltb_true in Hlt2. rewrite Hlt2.
    eexists. split; [reflexivity | discriminate].
Qed.

(** *** [record_usage] *)

Lemma bucket_append_same (k : string) (u : TokenUsage)
    (d : gmap string (list TokenUsage)) :
  default [] (bucket_append k u d !! k) = (default [] (d !! k) ++ [u])%list.
Proof. unfold bucket_append. rewrite lookup_insert_eq. reflexivity. Qed.

Lemma bucket_append_other (k k' : string) (u : TokenUsage)
    (d : gmap string (list TokenUsage)) :
  k' <> k -> bucket_append k u d !! k' = d !! k'.
Proof. intros Hne. unfold bucket_append. apply lookup_insert_ne. congruence. Qed.



(** *** Concrete ledgers *)

Lemma tm_at_ceiling_usages :
  usages_on tm_at_ceiling day = [mkTokenUsage 1000000 0 "claude-sonnet-4-5" 0].
Proof. reflexivity. Qed.

Lemma tm_at_ceiling_spent : spent_on tm_at_ceiling day == daily_budget tm_at_ceiling.
Proof. unfold spent_on. rewrite tm_at_ceiling_usages. reflexivity. Qed.

(** C1 as stated fails: with today's spend equal to the ceiling the
    check returns true, and with nothing recorded today it raises. *)
Lemma check_budget_available_counterexample :
  (spent_on tm_at_ceiling day == daily_budget tm_at_ceiling /\
   check_budget_available tm_at_ceiling day = Ok true) /\
  (usages_on tm_fresh day = [] /\
   check_budget_available tm_fresh day
     = Raise (Exn "KeyError" "'budget_remaining_usd'")).
Proof.
  split; split.
  - exact tm_at_ceiling_spent.
  - vm_compute. reflexivity.
  - reflexivity.
  - vm_compute. reflexivity.
Qed.

Lemma check_budget_available_bounds_witness :
  usages_on tm_at_ceiling day <> [] /\
  ~ daily_budget tm_at_ceiling == 0 /\
  exists b : bool,
    check_budget_available tm_at_ceiling day = Ok b /\
    (spent_on tm_at_ceiling day <= daily_budget tm_at_ceiling + (4 # 1000) ->
     b = true) /\
    (daily_budget tm_at_ceiling + (6 # 1000) <= spent_on tm_at_ceiling day ->
     b = false) /\
    (spent_on tm_at_ceiling day == daily_budget tm_at_ceiling -> b = true).
Proof.
  assert (H1 : usages_on tm_at_ceiling day <> [])
    by (rewrite tm_at_ceiling_usages; discriminate).
  assert (H2 : ~ daily_budget tm_at_ceiling == 0) by (vm_compute; discriminate).
  split; [exact H1 |]. split; [exact H2 |].
  exact (check_budget_available_bounds tm_at_ceiling day H1 H2).
Defined.

(** C7 as stated fails: with [total_cost_usd] equal to the budget, a call
    whose estimated cost is zero is allowed; and with a zero budget and
    nothing recorded today the check raises instead of returning. *)
Lemma should_allow_call_counterexample :
  (exists u : DailyUsage,
     get_daily_usage tm_at_ceiling day None = Ok u /\
     daily_budget tm_at_ceiling <= total_cost_usd u /\
     should_allow_call tm_at_ceiling day "" 0 "claude-sonnet-4-5"
       = Ok (true, BudgetAvailable)) /\
  (exists u : DailyUsage,
     get_daily_usage tm_zero_budget day None = Ok u /\
     daily_budget tm_zero_budget <= total_cost_usd u /\
     should_allow_call tm_zero_budget day "hello" 1000 "claude-sonnet-4-5"
       = Raise (Exn "KeyError" "'budget_remaining_usd'")).
Proof.
  split.
  - eexists. split; [vm_compute; reflexivity |].
    split; [vm_compute; discriminate | vm_compute; reflexivity].
  - eexists. split; [vm_compute; reflexivity |].
    split; [vm_compute; discriminate | vm_compute; reflexivity].
Qed.

Lemma should_allow_call_denies_witness :
  usages_on tm_at_ceiling day <> [] /\
  (exists u : DailyUsage,
     get_daily_usage tm_at_ceiling day None = Ok u /\
     ((daily_budget tm_at_ceiling <= spent_on tm_at_ceiling day /\
       0 < estimate_call_cost tm_at_ceiling "hello" 1000 "claude-haiku") \/
      (daily_budget tm_at_ceiling <= total_cost_usd u /\
       1 # 100 < estimate_call_cost tm_at_ceiling "hello" 1000 "claude-haiku"))) /\
  exists reason : Reason,
    should_allow_call tm_at_ceiling day "hello" 1000 "claude-haiku"
      = Ok (false, reason) /\
    reason <> BudgetAvailable.
Proof.
  assert (H1 : usages_on tm_at_ceiling day <> [])
    by (rewrite tm_at_ceiling_usages; discriminate).
  pose (u := mkDailyUsage day 1000000 1000000 0 (300 # 100) 1
                         (Some (0 # 100)) (Some (1000 # 10))).
  assert (H2 : get_daily_usage tm_at_ceiling day None = Ok u)
    by (vm_compute; reflexivity).
  assert (H3 : (daily_budget tm_at_ceiling <= spent_on tm_at_ceiling day /\
                0 < estimate_call_cost tm_at_ceiling "hello" 1000 "claude-haiku") \/
               (daily_budget tm_at_ceiling <= total_cost_usd u /\
                1 # 100 < estimate_call_cost tm_at_ceiling "hello" 1000
                                            "claude-haiku")).
  { left. split; [vm_compute; discriminate | vm_compute; reflexivity]. }
  split; [exact H1 |].
  split; [exists u; split; [exact H2 | exact H3] |].
  exact (should_allow_call_denies tm_at_ceiling day "hello" 1000 "claude-haiku" u
                                  H1 H2 H3).
Defined.

End TokenManagerProps.

(** ** The run loop *)

Module AgentProps.
Import Agent Scenarios.

Section RunProps.

Context {W Value : Type}.
Variable agent_id : string.
Variable create : list Message -> M W Response.
Variable utcnow : W -> Q.
Variable format_value : Value -> result string.
Variable handle_tool_use : Response -> M W (list ToolResultBlock).

Local Abbreviation loop := (run_loop agent_id create utcnow handle_tool_use).
Local Abbreviation body := (run_body agent_id create utcnow format_value handle_tool_use).
Local Abbreviation run := (Agent.run agent_id create utcnow format_value handle_tool_use).
Local Abbreviation build := (_build_user_message format_value).
Local Abbreviation steps := (tool_use_steps create handle_tool_use).

(** [run] is its body under the handler. *)
Lemma run_unfold (task : string) (context : option (list (string * Value)))
    (max_iterations : Z) (st : State W) :
  run task context max_iterations st =
    match body (utcnow (world st)) task context max_iterations st with
    | (Ok d, st') => (Ok d, st')
    | (Raise e, st') =>
        if is_exception e then (Ok (failure_result agent_id e), st')
        else (Raise e, st')
    end.
Proof.
  unfold Agent.run, bind, read_clock, try_except.
  destruct (body (utcnow (world st)) task context max_iterations st)
    as [[d | e] st']; reflexivity.
Qed.

(** One iteration of the loop, case by case. *)
Lemma loop_call_raises (start : Q) (n : nat) (it : Z) (messages : list Message)
    (st : State W) (e : exn) (w1 : W) :
  create messages (world st) = (Raise e, w1) ->
  loop start (S n) it messages st = (Raise e, mkState w1 (S (model_calls st))).
Proof.
  intros Hc. simpl. unfold bind, model_call. rewrite Hc. reflexivity.
Qed.

Lemma loop_end_turn (start : Q) (n : nat) (it : Z) (messages : list Message)
    (st : State W) (response : Response) (w1 : W) :
  create messages (world st) = (Ok response, w1) ->
  stop_reason response = "end_turn" ->
  loop start (S n) it messages st =
    (Ok (success_result agent_id (_extract_result response) (it + 1)
                        (utcnow w1 - start)%Q response),
     mkState w1 (S (model_calls st))).
Proof.
  intros Hc Hs. simpl. unfold bind, model_call. rewrite Hc, Hs. reflexivity.
Qed.

Lemma loop_tool_use (start : Q) (n : nat) (it : Z) (messages : list Message)
    (st : State W) (response : Response) (w1 : W)
    (tool_results : list ToolResultBlock) (w2 : W) :
  create messages (world st) = (Ok response, w1) ->
  stop_reason response = "tool_use" ->
  handle_tool_use response w1 = (Ok tool_results, w2) ->
  loop start (S n) it messages st =
    loop start n (it + 1)
         (messages ++ tool_use_turns response tool_results)%list
         (mkState w2 (S (model_calls st))).
Proof.
  intros Hc Hs Hh. simpl. unfold bind at 1, model_call. rewrite Hc, Hs. simpl.
  unfold bind at 1, io. simpl. rewrite Hh. reflexivity.
Qed.

Lemma loop_dispatch_raises (start : Q) (n : nat) (it : Z)
    (messages : list Message) (st : State W) (response : Response) (w1 : W)
    (e : exn) (w2 : W) :
  create messages (world st) = (Ok response, w1) ->
  stop_reason response = "tool_use" ->
  handle_tool_use response w1 = (Raise e, w2) ->
  loop start (S n) it messages st = (Raise e, mkState w2 (S (model_calls st))).
Proof.
  intros Hc Hs Hh. simpl. unfold bind at 1, model_call. rewrite Hc, Hs. simpl.
  unfold bind at 1, io. simpl. rewrite Hh. reflexivity.
Qed.

Lemma loop_unexpected_stop (start : Q) (n : nat) (it : Z)
    (messages : list Message) (st : State W) (response : Response) (w1 : W) :
  create messages (world st) = (Ok response, w1) ->
  stop_reason response <> "end_turn" ->
  stop_reason response <> "tool_use" ->
  loop start (S n) it messages st =
    (Ok (max_iterations_result agent_id (it + 1)), mkState w1 (S (model_calls st))).
Proof.
  intros Hc H1 H2. simpl. unfold bind, model_call. rewrite Hc.
  apply String.eqb_neq in H1. apply String.eqb_neq in H2.
  rewrite H1, H2. reflexivity.
Qed.

(** The loop only ever adds model calls, at least one when it is
    entered. *)
Lemma loop_calls (start : Q) (n : nat) :
  forall (it : Z) (messages : list Message) (st : State W)
         (r : result pydict) (st' : State W),
    loop start n it messages st = (r, st') ->
    (model_calls st <= model_calls st')%nat /\
    (n <> O -> (S (model_calls st) <= model_calls st')%nat).
Proof.
  induction n as [| n IH]; intros it messages st r st' H.
  - simpl in H. injection H as <- <-. split; [lia | congruence].
  - destruct (create messages (world st)) as [[response | e] w1] eqn:Hc.
    + destruct (String.eqb (stop_reason response) "end_turn") eqn:He.
      * apply String.eqb_eq in He.
        rewrite (loop_end_turn _ _ _ _ _ _ _ Hc He) in H.
        injection H as <- <-. simpl. split; intros; lia.
      * destruct (String.eqb (stop_reason response) "tool_use") eqn:Ht.
        -- apply String.eqb_eq in Ht.
           destruct (handle_tool_use response w1) as [[trs | e] w2] eqn:Hh.
           ++ rewrite (loop_tool_use _ _ _ _ _ _ _ _ _ Hc Ht Hh) in H.
              apply IH in H. simpl in H. split; intros; lia.
           ++ rewrite (loop_dispatch_raises _ _ _ _ _ _ _ _ _ Hc Ht Hh) in H.
              injection H as <- <-. simpl. split; intros; lia.
        -- apply String.eqb_neq in He. apply String.eqb_neq in Ht.
           rewrite (loop_unexpected_stop _ _ _ _ _ _ _ Hc He Ht) in H.
           injection H as <- <-. simpl. split; intros; lia.
    + rewrite (loop_call_raises _ _ _ _ _ _ _ Hc) in H.
      injection H as <- <-. simpl. split; intros; lia.
Qed.

(** Whenever the loop returns, the [iterations] field of its result is
    the iteration count on entry plus the model calls made inside. *)
Lemma loop_iterations (start : Q) (n : nat) :
  forall (it : Z) (messages : list Message) (st : State W)
         (d : pydict) (st' : State W),
    loop start n it messages st = (Ok d, st') ->
    dict_get "iterations" d
      = Some (JInt (it + Z.of_nat (model_calls st' - model_calls st))).
Proof.
  induction n as [| n IH]; intros it messages st d st' H.
  - simpl in H. injection H as <- <-. simpl.
    rewrite Nat.sub_diag. simpl. rewrite Z.add_0_r. reflexivity.
  - destruct (create messages (world st)) as [[response | e] w1] eqn:Hc.
    + destruct (String.eqb (stop_reason response) "end_turn") eqn:He.
      * apply String.eqb_eq in He.
        rewrite (loop_end_turn _ _ _ _ _ _ _ Hc He) in H.
        injection H as <- <-. simpl.
        replace (S (model_calls st) - model_calls st)%nat with 1%nat by lia.
        reflexivity.
      * destruct (String.eqb (stop_reason response) "tool_use") eqn:Ht.
        -- apply String.eqb_eq in Ht.
           destruct (handle_tool_use response w1) as [[trs | e] w2] eqn:Hh.
           ++ rewrite (loop_tool_use _ _ _ _ _ _ _ _ _ Hc Ht Hh) in H.
              pose proof (loop_calls _ _ _ _ _ _ _ H) as [Hle _].
              apply IH in H. simpl in H, Hle. rewrite H. do 2 f_equal. lia.
           ++ rewrite (loop_dispatch_raises _ _ _ _ _ _ _ _ _ Hc Ht Hh) in H.
              discriminate H.
        -- apply String.eqb_neq in He. apply String.eqb_neq in Ht.
           rewrite (loop_unexpected_stop _ _ _ _ _ _ _ Hc He Ht) in H.
           injection H as <- <-. simpl.
           replace (S (model_calls st) - model_calls st)%nat with 1%nat by lia.
           reflexivity.
    + rewrite (loop_call_raises _ _ _ _ _ _ _ Hc) in H. discriminate H.
Qed.

(** After [n] tool-use iterations the loop is where it would be had it
    started there. *)
Lemma loop_steps (start : Q) (n : nat) (messages : list Message) (w : W)
    (messages' : list Message) (w' : W) :
  steps n messages w messages' w' ->
  forall (k : nat) (it : Z) (calls : nat),
    loop start (n + k) it messages (mkState w calls) =
    loop start k (it + Z.of_nat n) messages' (mkState w' (calls + n)).
Proof.
  induction 1 as [messages w | n messages w response w1 trs w2 messages' w'
                                 Hc Hs Hh Hrest IH]; intros k it calls.
  - simpl (0 + k)%nat. rewrite Z.add_0_r, Nat.add_0_r. reflexivity.
  - change (S n + k)%nat with (S (n + k)).
    rewrite (loop_tool_use start (n + k) it messages (mkState w calls)
                           response w1 trs w2 Hc Hs Hh).
    simpl model_calls. rewrite IH.
    replace (it + 1 + Z.of_nat n)%Z with (it + Z.of_nat (S n))%Z by lia.
    replace (S calls + n)%nat with (calls + S n)%nat by lia.
    reflexivity.
Qed.

(** The fields of the three result dictionaries. *)
Lemma failure_result_fields (e : exn) :
  dict_get "success" (failure_result agent_id e) = Some (JBool false) /\
  dict_get "error" (failure_result agent_id e) = Some (JStr (exn_message e)) /\
  dict_get "agent_id" (failure_result agent_id e) = Some (JStr agent_id) /\
  dict_get "iterations" (failure_result agent_id e) = None /\
  dict_get "result" (failure_result agent_id e) = None.
Proof. repeat split. Qed.

Lemma max_iterations_result_fields (it : Z) :
  dict_get "success" (max_iterations_result agent_id it) = Some (JBool false) /\
  dict_get "error" (max_iterations_result agent_id it)
    = Some (JStr "Max iterations reached") /\
  dict_get "iterations" (max_iterations_result agent_id it) = Some (JInt it).
Proof. repeat split. Qed.

Lemma success_result_fields (result : string) (it : Z) (elapsed : Q)
    (response : Response) :
  dict_get "success" (success_result agent_id result it elapsed response)
    = Some (JBool true) /\
  dict_get "result" (success_result agent_id result it elapsed response)
    = Some (JStr result) /\
  dict_get "iterations" (success_result agent_id result it elapsed response)
    = Some (JInt it) /\
  dict_get "error" (success_result agent_id result it elapsed response) = None.
Proof. repeat split. Qed.

(** The body of [run] once the first message is built. *)
Lemma body_built (start : Q) (task : string)
    (context : option (list (string * Value))) (max_iterations : Z)
    (first : string) (st : State W) :
  build task context = Ok first ->
  body start task context max_iterations st =
    loop start (Z.to_nat max_iterations) 0 [mkMessage "user" (MText first)] st.
Proof.
  intros Hb. unfold run_body, bind, lift. rewrite Hb. reflexivity.
Qed.

(** The three places an exception can come from, and what [run] makes
    of an instance of [Exception]: the message cannot be built, ... *)
Lemma run_catches_build_error (task : string)
    (context : option (list (string * Value))) (max_iterations : Z)
    (st : State W) (e : exn) :
  build task context = Raise e ->
  is_exception e = true ->
  run task context max_iterations st = (Ok (failure_result agent_id e), st).
Proof.
  intros Hb He. rewrite run_unfold. unfold run_body, bind, lift. rewrite Hb, He.
  reflexivity.
Qed.

(** ... a model call raises, after any number of tool-use iterations, ... *)
Lemma run_catches_model_error (task : string)
    (context : option (list (string * Value))) (max_iterations : Z)
    (first : string) (st : State W) (n : nat) (messages' : list Message)
    (w' : W) (e : exn) (w1 : W) :
  build task context = Ok first ->
  steps n [mkMessage "user" (MText first)] (world st) messages' w' ->
  (n < Z.to_nat max_iterations)%nat ->
  create messages' w' = (Raise e, w1) ->
  is_exception e = true ->
  run task context max_iterations st
    = (Ok (failure_result agent_id e), mkState w1 (S (model_calls st + n))).
Proof.
  intros Hb Hsteps Hn Hc He. rewrite run_unfold, (body_built _ _ _ _ _ _ Hb).
  destruct st as [w calls]. simpl in *.
  replace (Z.to_nat max_iterations)
    with (n + S (Z.to_nat max_iterations - S n))%nat by lia.
  rewrite (loop_steps _ _ _ _ _ _ Hsteps).
  rewrite (loop_call_raises _ _ _ _ (mkState w' (calls + n)) _ _ Hc).
  rewrite He. reflexivity.
Qed.

(** ... or the dispatch of a response's tool invocations raises. *)
Lemma run_catches_dispatch_error (task : string)
    (context : option (list (string * Value))) (max_iterations : Z)
    (first : string) (st : State W) (n : nat) (messages' : list Message)
    (w' : W) (response : Response) (w1 : W) (e : exn) (w2 : W) :
  build task context = Ok first ->
  steps n [mkMessage "user" (MText first)] (world st) messages' w' ->
  (n < Z.to_nat max_iterations)%nat ->
  create messages' w' = (Ok response, w1) ->
  stop_reason response = "tool_use" ->
  handle_tool_use response w1 = (Raise e, w2) ->
  is_exception e = true ->
  run task context max_iterations st
    = (Ok (failure_result agent_id e), mkState w2 (S (model_calls st + n))).
Proof.
  intros Hb Hsteps Hn Hc Hs Hh He.
  rewrite run_unfold, (body_built _ _ _ _ _ _ Hb).
  destruct st as [w calls]. simpl in *.
  replace (Z.to_nat max_iterations)
    with (n + S (Z.to_nat max_iterations - S n))%nat by lia.
  rewrite (loop_steps _ _ _ _ _ _ Hsteps).
  rewrite (loop_dispatch_raises _ _ _ _ (mkState w' (calls + n)) _ _ _ _
                                Hc Hs Hh).
  rewrite He. reflexivity.
Qed.

(** An exception that is no instance of [Exception] leaves [run], here
    from a model call. *)
Lemma run_passes_model_interrupt (task : string)
    (context : option (list (string * Value))) (max_iterations : Z)
    (first : string) (st : State W) (n : nat) (messages' : list Message)
    (w' : W) (e : exn) (w1 : W) :
  build task context = Ok first ->
  steps n [mkMessage "user" (MText first)] (world st) messages' w' ->
  (n < Z.to_nat max_iterations)%nat ->
  create messages' w' = (Raise e, w1) ->
  is_exception e = false ->
  run task context max_iterations st
    = (Raise e, mkState w1 (S (model_calls st + n))).
Proof.
  intros Hb Hsteps Hn Hc He. rewrite run_unfold, (body_built _ _ _ _ _ _ Hb).
  destruct st as [w calls]. simpl in *.
  replace (Z.to_nat max_iterations)
    with (n + S (Z.to_nat max_iterations - S n))%nat by lia.
  rewrite (loop_steps _ _ _ _ _ _ Hsteps).
  rewrite (loop_call_raises _ _ _ _ (mkState w' (calls + n)) _ _ Hc).
  rewrite He. reflexivity.
Qed.

(** C2 (amended): [run] never lets an instance of [Exception] reach its
    caller: whenever the body of its [try] block raises one (while
    building the message, calling the model or dispatching tools), [run]
    returns the failure dictionary with [success] false and the
    exception's message as [error].  An exception that is no instance of
    [Exception] ([KeyboardInterrupt], [SystemExit],
    [asyncio.CancelledError]) is not caught and leaves [run]; nothing
    else does. *)
Theorem run_contains_exceptions (task : string)
    (context : option (list (string * Value))) (max_iterations : Z)
    (st : State W) :
  match body (utcnow (world st)) task context max_iterations st with
  | (Ok d, st') => run task context max_iterations st = (Ok d, st')
  | (Raise e, st') =>
      if is_exception e
      then run task context max_iterations st
             = (Ok (failure_result agent_id e), st') /\
           dict_get "success" (failure_result agent_id e) = Some (JBool false) /\
           dict_get "error" (failure_result agent_id e)
             = Some (JStr (exn_message e))
      else run task context max_iterations st = (Raise e, st')
  end /\
  (forall (e : exn) (st' : State W),
     run task context max_iterations st = (Raise e, st') ->
     is_exception e = false).
Proof.
  rewrite run_unfold.
  destruct (body (utcnow (world st)) task context max_iterations st)
    as [[d | e] st0].
  - split; [reflexivity | intros e st' H; discriminate H].
  - destruct (is_exception e) eqn:He.
    + split; [repeat split | intros e' st' H; discriminate H].
    + split; [reflexivity |].
      intros e' st' H. injection H as <- _. exact He.
Qed.

(** C9 (amended): a result that [run] returns from inside its loop, by
    success, by exhausting [max_iterations] or by an unexpected stop
    reason, has an [iterations] field equal to the number of model calls
    the run made; the result built by the top-level exception handler
    has no [iterations] field.  (An exception the handler does not
    catch leaves [run] without a result.) *)
Theorem run_iterations_field (task : string)
    (context : option (list (string * Value))) (max_iterations : Z)
    (st : State W) :
  match body (utcnow (world st)) task context max_iterations st with
  | (Ok d, st') =>
      run task context max_iterations st = (Ok d, st') /\
      dict_get "iterations" d
        = Some (JInt (Z.of_nat (model_calls st' - model_calls st)))
  | (Raise e, st') =>
      if is_exception e
      then run task context max_iterations st
             = (Ok (failure_result agent_id e), st') /\
           dict_get "iterations" (failure_result agent_id e) = None
      else run task context max_iterations st = (Raise e, st')
  end.
Proof.
  rewrite run_unfold.
  destruct (body (utcnow (world st)) task context max_iterations st)
    as [[d | e] st'] eqn:Hbody.
  - split; [reflexivity |].
    unfold run_body, bind, lift in Hbody.
    destruct (build task context) as [first | e]; [| discriminate Hbody].
    apply loop_iterations in Hbody. rewrite Hbody. reflexivity.
  - destruct (is_exception e); [split |]; reflexivity.
Qed.

(** C4 (amended): for [max_iterations >= 1], if the run goes through
    [max_iterations] iterations in each of which the model call returns
    stop reason ["tool_use"] and the dispatch of the tool invocations
    returns without raising, then [run] returns the max-iterations
    failure, with [iterations] equal to [max_iterations]. *)
Theorem run_max_iterations (task : string)
    (context : option (list (string * Value))) (max_iterations : Z)
    (first : string) (st : State W) (messages' : list Message) (w' : W) :
  (1 <= max_iterations)%Z ->
  build task context = Ok first ->
  steps (Z.to_nat max_iterations) [mkMessage "user" (MText first)] (world st)
        messages' w' ->
  exists (d : pydict) (st' : State W),
    run task context max_iterations st = (Ok d, st') /\
    dict_get "success" d = Some (JBool false) /\
    dict_get "error" d = Some (JStr "Max iterations reached") /\
    dict_get "iterations" d = Some (JInt max_iterations) /\
    model_calls st' = (model_calls st + Z.to_nat max_iterations)%nat.
Proof.
  intros Hmax Hb Hsteps.
  exists (max_iterations_result agent_id max_iterations),
         (mkState w' (model_calls st + Z.to_nat max_iterations)).
  split; [| repeat split].
  rewrite run_unfold, (body_built _ _ _ _ _ _ Hb).
  destruct st as [w calls]. simpl in *.
  replace (Z.to_nat max_iterations) with (Z.to_nat max_iterations + 0)%nat at 1
    by lia.
  rewrite (loop_steps _ _ _ _ _ _ Hsteps). simpl.
  rewrite Z2Nat.id by lia. reflexivity.
Qed.

(** C5 (amended): when the first model response has stop reason
    ["end_turn"], [run] returns success with [iterations] equal to 1 and
    [result] the text blocks of that response, in order, joined by a
    newline between consecutive blocks. *)
Theorem run_end_turn_first (task : string)
    (context : option (list (string * Value))) (max_iterations : Z)
    (first : string) (st : State W) (response : Response) (w1 : W) :
  (1 <= max_iterations)%Z ->
  build task context = Ok first ->
  create [mkMessage "user" (MText first)] (world st) = (Ok response, w1) ->
  stop_reason response = "end_turn" ->
  exists (d : pydict) (st' : State W),
    run task context max_iterations st = (Ok d, st') /\
    dict_get "success" d = Some (JBool true) /\
    dict_get "iterations" d = Some (JInt 1) /\
    dict_get "result" d
      = Some (JStr (String.concat newline (text_parts (content response)))) /\
    model_calls st' = S (model_calls st).
Proof.
  intros Hmax Hb Hc Hs.
  eexists _, _. split.
  - rewrite run_unfold, (body_built _ _ _ _ _ _ Hb).
    destruct (Z.to_nat max_iterations) as [| n] eqn:Hn; [lia |].
    rewrite (loop_end_turn _ _ _ _ _ _ _ Hc Hs). reflexivity.
  - repeat split.
Qed.

End RunProps.

(** *** Scripted runs of the analyst *)

Definition first_message : list Message := [mkMessage "user" (MText "task")].

(** C2 as stated fails: a [KeyboardInterrupt] raised while the model
    call is in progress is not caught by [except Exception]; it leaves
    [run], which returns no result. *)
Lemma run_raises_counterexample :
  scripted_create first_message [Raise KeyboardInterrupt]
    = (Raise KeyboardInterrupt, []) /\
  is_exception KeyboardInterrupt = false /\
  analyst_run "task" 10 (mkState [Raise KeyboardInterrupt] O)
    = (Raise KeyboardInterrupt, mkState [] 1) /\
  ~ (exists (d : pydict) (st' : State Script),
       analyst_run "task" 10 (mkState [Raise KeyboardInterrupt] O) = (Ok d, st')).
Proof.
  split; [reflexivity |]. split; [reflexivity |]. split; [reflexivity |].
  intros (d & st' & H). discriminate H.
Qed.

(** C9 as stated fails: when the dispatch of the first response's tool
    invocation raises, or when the first model call itself raises, the
    result returned by [run] has no [iterations] field, though one model
    call was made. *)
Lemma run_iterations_counterexample :
  (exists (d : pydict) (st' : State Script),
     analyst_run "task" 10 (mkState [Ok store_bad] O) = (Ok d, st') /\
     model_calls st' = 1%nat /\
     dict_get "success" d = Some (JBool false) /\
     dict_get "iterations" d = None) /\
  (exists (d : pydict) (st' : State Script),
     analyst_run "task" 10 (mkState [] O) = (Ok d, st') /\
     model_calls st' = 1%nat /\
     dict_get "success" d = Some (JBool false) /\
     dict_get "iterations" d = None).
Proof. split; eexists _, _; repeat split. Qed.

(** C5 as stated fails: with the text blocks "a" and "b" the result is
    "a", a newline, "b", not their concatenation "ab". *)
Lemma run_end_turn_counterexample :
  exists (d : pydict) (st' : State Script),
    analyst_run "task" 10 (mkState [Ok two_texts] O) = (Ok d, st') /\
    dict_get "iterations" d = Some (JInt 1) /\
    dict_get "result" d = Some (JStr ("a" ++ newline ++ "b")) /\
    dict_get "result" d
      <> Some (JStr (String.concat "" (text_parts (content two_texts)))).
Proof.
  eexists _, _. split; [reflexivity |].
  split; [reflexivity |]. split; [reflexivity |]. discriminate.
Qed.

Lemma run_end_turn_first_witness :
  (1 <= 10)%Z /\
  _build_user_message format_string "task" None = Ok "task" /\
  scripted_create first_message [Ok two_texts] = (Ok two_texts, []) /\
  stop_reason two_texts = "end_turn" /\
  exists (d : pydict) (st' : State Script),
    analyst_run "task" 10 (mkState [Ok two_texts] O) = (Ok d, st') /\
    dict_get "success" d = Some (JBool true) /\
    dict_get "iterations" d = Some (JInt 1) /\
    dict_get "result" d
      = Some (JStr (String.concat newline (text_parts (content two_texts)))) /\
    model_calls st' = 1%nat.
Proof.
  assert (H1 : (1 <= 10)%Z) by lia.
  repeat (split; [first [exact H1 | reflexivity] |]).
  exact (run_end_turn_first "analyst" scripted_create frozen_clock format_string
           (Agent._handle_tool_use default_tools) "task" None 10 "task"
           (mkState [Ok two_texts] O) two_texts [] H1 eq_refl eq_refl eq_refl).
Defined.

(** C4 as stated fails: with [max_iterations = 1], the one model call
    returns stop reason ["tool_use"], the tool invocation lacks a required
    argument and its dispatch raises; [run] returns the failure built by
    the exception handler, not the max-iterations failure. *)
Lemma run_max_iterations_counterexample :
  scripted_create first_message [Ok store_bad] = (Ok store_bad, []) /\
  stop_reason store_bad = "tool_use" /\
  exists (d : pydict) (st' : State Script),
    analyst_run "task" 1 (mkState [Ok store_bad] O) = (Ok d, st') /\
    model_calls st' = 1%nat /\
    dict_get "success" d = Some (JBool false) /\
    d <> max_iterations_result "analyst" 1 /\
    dict_get "error" d <> Some (JStr "Max iterations reached") /\
    dict_get "iterations" d = None.
Proof.
  split; [reflexivity |]. split; [reflexivity |].
  eexists _, _. split; [reflexivity |].
  do 2 (split; [reflexivity |]).
  split; [discriminate |]. split; [discriminate | reflexivity].
Qed.

Lemma run_max_iterations_witness :
  (1 <= 2)%Z /\
  _build_user_message format_string "task" None = Ok "task" /\
  (exists messages' : list Message,
     tool_use_steps scripted_create (Agent._handle_tool_use default_tools)
       (Z.to_nat 2) first_message [Ok store_ok; Ok store_ok] messages' []) /\
  exists (d : pydict) (st' : State Script),
    analyst_run "task" 2 (mkState [Ok store_ok; Ok store_ok] O) = (Ok d, st') /\
    dict_get "success" d = Some (JBool false) /\
    dict_get "error" d = Some (JStr "Max iterations reached") /\
    dict_get "iterations" d = Some (JInt 2) /\
    model_calls st' = (0 + Z.to_nat 2)%nat.
Proof.
  assert (H1 : (1 <= 2)%Z) by lia.
  assert (H3 : { messages' : list Message |
                 tool_use_steps scripted_create
                   (Agent._handle_tool_use default_tools)
                   (Z.to_nat 2) first_message [Ok store_ok; Ok store_ok]
                   messages' [] }).
  { eexists. change (Z.to_nat 2) with 2%nat.
    eapply steps_more; [reflexivity | reflexivity | reflexivity |].
    eapply steps_more; [reflexivity | reflexivity | reflexivity |].
    apply steps_done. }
  destruct H3 as [messages' H3].
  split; [exact H1 |]. split; [reflexivity |].
  split; [exists messages'; exact H3 |].
  exact (run_max_iterations "analyst" scripted_create frozen_clock format_string
           (Agent._handle_tool_use default_tools) "task" None 2 "task"
           (mkState [Ok store_ok; Ok store_ok] O) messages' [] H1 eq_refl H3).
Defined.

End AgentProps.

(** ** The manager's dispatch *)

Module ManagerProps.
Import Agent Manager Scenarios.
Local Open Scope list_scope.

(** The loop over the blocks of a response, with any results already
    collected in front. *)
Lemma for_each_block_collected {W : Type}
    (dispatch : string -> pydict -> M W pydict) (render : pydict -> Rendered)
    (blocks : list ContentBlock) :
  forall (collected : list ToolResultBlock) (w : W),
    for_each_block dispatch render collected blocks w =
      match for_each_block dispatch render [] blocks w with
      | (Ok results, w') => (Ok (collected ++ results), w')
      | (Raise e, w') => (Raise e, w')
      end.
Proof.
  induction blocks as [| b blocks IH]; intros collected w.
  - simpl. unfold ret. rewrite app_nil_r. reflexivity.
  - destruct b as [text | id name input | type]; simpl; try apply IH.
    unfold bind. destruct (dispatch name input w) as [[result | e] w1];
      [| reflexivity].
    rewrite (IH (collected ++ _)), (IH [_]).
    destruct (for_each_block dispatch render [] blocks w1) as [[results | e] w2];
      [| reflexivity].
    rewrite <- app_assoc. reflexivity.
Qed.

Lemma for_each_block_app {W : Type}
    (dispatch : string -> pydict -> M W pydict) (render : pydict -> Rendered)
    (pre : list ContentBlock) :
  forall (rest : list ContentBlock) (collected : list ToolResultBlock) (w : W),
    for_each_block dispatch render collected (pre ++ rest) w =
      match for_each_block dispatch render collected pre w with
      | (Ok results, w') => for_each_block dispatch render results rest w'
      | (Raise e, w') => (Raise e, w')
      end.
Proof.
  induction pre as [| b pre IH]; intros rest collected w.
  - reflexivity.
  - destruct b as [text | id name input | type]; simpl; try apply IH.
    unfold bind. destruct (dispatch name input w) as [[result | e] w1];
      [apply IH | reflexivity].
Qed.

(** A response in which one invocation is dispatched between two groups
    of blocks whose own dispatch returns. *)
Lemma for_each_block_around {W : Type}
    (dispatch : string -> pydict -> M W pydict) (render : pydict -> Rendered)
    (pre post : list ContentBlock) (id name : string) (input : pydict)
    (w1 w2 w3 w4 : W) (res_pre res_post : list ToolResultBlock)
    (result : pydict) :
  for_each_block dispatch render [] pre w1 = (Ok res_pre, w2) ->
  dispatch name input w2 = (Ok result, w3) ->
  for_each_block dispatch render [] post w3 = (Ok res_post, w4) ->
  for_each_block dispatch render [] (pre ++ ToolUseBlock id name input :: post) w1
    = (Ok (res_pre ++ mkToolResult "tool_result" id (render result) :: res_post),
       w4).
Proof.
  intros Hpre Hd Hpost.
  rewrite for_each_block_app, Hpre. simpl. unfold bind. rewrite Hd.
  rewrite for_each_block_collected, Hpost. rewrite <- app_assoc. reflexivity.
Qed.

Section DispatchProps.

Context {W Value : Type}.
Variable specialist_run : string -> json -> json -> M W pydict.
Variable tools : list (Tool W).
Variable is_development : bool.
Variable create : list Message -> M W Response.
Variable utcnow : W -> Q.

Local Abbreviation call_specialist :=
  (_call_specialist_agent specialist_run).
Local Abbreviation dispatch :=
  (Manager.dispatch specialist_run tools is_development).
Local Abbreviation handle :=
  (Manager._handle_tool_use specialist_run tools is_development).
Local Abbreviation loop := (run_loop "manager" create utcnow handle).

(** A registered specialist whose run raises an instance of
    [Exception], and one whose run is left by another exception. *)
Lemma call_specialist_raises (agent_id : string) (task context t : json)
    (w w' : W) (e : exn) :
  existsb (String.eqb agent_id) specialist_ids = true ->
  slice_100 task = Ok t ->
  specialist_run agent_id task context w = (Raise e, w') ->
  is_exception e = true ->
  call_specialist agent_id task context w
    = (Ok (specialist_failed_result agent_id e), w').
Proof.
  intros Hreg Ht Hrun He.
  unfold _call_specialist_agent, specialist_agents_get, bind, lift, try_except.
  rewrite Ht, Hreg, Hrun, He. reflexivity.
Qed.

Lemma call_specialist_interrupted (agent_id : string) (task context t : json)
    (w w' : W) (e : exn) :
  existsb (String.eqb agent_id) specialist_ids = true ->
  slice_100 task = Ok t ->
  specialist_run agent_id task context w = (Raise e, w') ->
  is_exception e = false ->
  call_specialist agent_id task context w = (Raise e, w').
Proof.
  intros Hreg Ht Hrun He.
  unfold _call_specialist_agent, specialist_agents_get, bind, lift, try_except.
  rewrite Ht, Hreg, Hrun, He. reflexivity.
Qed.

(** A registered specialist whose run returns. *)
Lemma call_specialist_returns (agent_id : string) (task context t : json)
    (w w' : W) (d : pydict) :
  existsb (String.eqb agent_id) specialist_ids = true ->
  slice_100 task = Ok t ->
  specialist_run agent_id task context w = (Ok d, w') ->
  call_specialist agent_id task context w = (Ok d, w').
Proof.
  intros Hreg Ht Hrun.
  unfold _call_specialist_agent, specialist_agents_get, bind, lift, try_except.
  rewrite Ht, Hreg, Hrun. reflexivity.
Qed.

(** An identifier that is not registered, with a task that can be
    sliced: the failure names the identifier and has no [agent_id]. *)
Lemma call_specialist_unknown (agent_id : string) (task context t : json)
    (w : W) :
  existsb (String.eqb agent_id) specialist_ids = false ->
  slice_100 task = Ok t ->
  call_specialist agent_id task context w
    = (Ok (unknown_specialist_result agent_id), w) /\
  dict_get "success" (unknown_specialist_result agent_id) = Some (JBool false) /\
  dict_get "error" (unknown_specialist_result agent_id)
    = Some (JStr ("Unknown specialist agent: " ++ agent_id)%string) /\
  dict_get "agent_id" (unknown_specialist_result agent_id) = None.
Proof.
  intros Hreg Ht.
  unfold _call_specialist_agent, specialist_agents_get, bind, lift.
  rewrite Ht, Hreg. repeat split.
Qed.

(** A task that cannot be sliced: the logger's argument raises before
    the specialist is looked up. *)
Lemma call_specialist_bad_task (agent_id : string) (task context : json)
    (w : W) (e : exn) :
  slice_100 task = Raise e ->
  call_specialist agent_id task context w = (Raise e, w).
Proof.
  intros Ht. unfold _call_specialist_agent, bind, lift. rewrite Ht.
  reflexivity.
Qed.

(** A name of the form [call_..._agent] is dispatched to
    [_call_specialist_agent], whatever the registry holds. *)
Lemma dispatch_specialist_call (name : string) (input : pydict) :
  is_specialist_call name = true ->
  dispatch name input
    = call_specialist (specialist_id_of name)
        (dict_get_or_none "task" input) (dict_get_or_none "context" input).
Proof. intros H. unfold Manager.dispatch. rewrite H. reflexivity. Qed.

Lemma specialist_failed_result_fields (agent_id : string) (e : exn) :
  dict_get "success" (specialist_failed_result agent_id e) = Some (JBool false) /\
  dict_get "agent_id" (specialist_failed_result agent_id e)
    = Some (JStr agent_id) /\
  dict_get "error" (specialist_failed_result agent_id e)
    = Some (JStr (exn_message e)).
Proof. repeat split. Qed.

(** What [task[:100]] raises is a [TypeError]. *)
Lemma slice_100_raises (x : json) (e : exn) :
  slice_100 x = Raise e -> exn_class e = "TypeError" /\ is_exception e = true.
Proof.
  destruct x; simpl; intros H; try discriminate H; injection H as <-;
    split; reflexivity.
Qed.

(** A specialist call whose task cannot be sliced, among the blocks of
    a response: the exception leaves the dispatch and the handler; the
    specialist is not reached. *)
Lemma handle_task_error (response : Response) (pre post : list ContentBlock)
    (id name : string) (input : pydict) (res_pre : list ToolResultBlock)
    (w1 w2 : W) (e : exn) :
  content response = pre ++ ToolUseBlock id name input :: post ->
  for_each_block dispatch JsonDumps [] pre w1 = (Ok res_pre, w2) ->
  is_specialist_call name = true ->
  slice_100 (dict_get_or_none "task" input) = Raise e ->
  dispatch name input w2 = (Raise e, w2) /\
  handle response w1 = (Raise e, w2).
Proof.
  intros Hcontent Hpre Hcall Ht.
  assert (Hd : dispatch name input w2 = (Raise e, w2)).
  { rewrite (dispatch_specialist_call _ _ Hcall).
    exact (call_specialist_bad_task _ _ _ _ _ Ht). }
  split; [exact Hd |].
  unfold Manager._handle_tool_use. rewrite Hcontent.
  rewrite for_each_block_app, Hpre. simpl. unfold bind. rewrite Hd. reflexivity.
Qed.

(** C3 (defect): when the manager's model asks for a registered
    specialist ([call_<id>_agent]) with a task that makes the
    specialist's [run] raise, that is a task whose slice [task[:100]],
    the first expression [run] evaluates, raises (a task that is missing,
    [None], a number, a boolean or a dictionary), the failure is not
    contained: [_call_specialist_agent] evaluates the same slice for its
    logger before its [try] block, so the dispatch raises instead of
    returning the failure result, whatever the specialists are, and the
    manager's own run fails: it ends in its top-level handler after this
    model call, without a further iteration. *)
Theorem specialist_task_error_escapes
    (format_value : Value -> result string)
    (task : string) (context : option (list (string * Value)))
    (max_iterations : Z) (first : string) (st : State W)
    (response : Response) (w1 : W) (pre post : list ContentBlock)
    (id name : string) (input : pydict) (res_pre : list ToolResultBlock)
    (w2 : W) (e : exn) :
  _build_user_message format_value task context = Ok first ->
  (0 < max_iterations)%Z ->
  create [mkMessage "user" (MText first)] (world st) = (Ok response, w1) ->
  stop_reason response = "tool_use" ->
  content response = pre ++ ToolUseBlock id name input :: post ->
  for_each_block dispatch JsonDumps [] pre w1 = (Ok res_pre, w2) ->
  is_specialist_call name = true ->
  existsb (String.eqb (specialist_id_of name)) specialist_ids = true ->
  slice_100 (dict_get_or_none "task" input) = Raise e ->
  dispatch name input w2 = (Raise e, w2) /\
  (forall d : pydict, dispatch name input w2 <> (Ok d, w2)) /\
  Manager.run specialist_run tools is_development create utcnow format_value
              task context max_iterations st
    = (Ok (failure_result "manager" e), mkState w2 (S (model_calls st))) /\
  dict_get "success" (failure_result "manager" e) = Some (JBool false) /\
  dict_get "error" (failure_result "manager" e) = Some (JStr (exn_message e)).
Proof.
  intros Hb Hmax Hc Hs Hcontent Hpre Hcall Hreg Ht.
  destruct (handle_task_error response pre post id name input res_pre w1 w2 e
              Hcontent Hpre Hcall Ht) as [Hd Hh].
  destruct (slice_100_raises _ _ Ht) as [_ He].
  split; [exact Hd |].
  split; [intros d Hok; rewrite Hd in Hok; discriminate Hok |].
  split; [| split; reflexivity].
  assert (Hn : (0 < Z.to_nat max_iterations)%nat) by lia.
  unfold Manager.run.
  rewrite (AgentProps.run_catches_dispatch_error "manager" create utcnow
             format_value handle task context max_iterations first st
             0 _ _ response w1 e w2 Hb (steps_done _ _ _ _) Hn Hc Hs Hh He).
  rewrite Nat.add_0_r. reflexivity.
Qed.

End DispatchProps.

(** The generic registry and the approval mode play no part in the
    dispatch of a [call_..._agent] name: a tool registered under such a
    name cannot be reached. *)
Lemma dispatch_ignores_registry {W : Type}
    (specialist_run : string -> json -> json -> M W pydict)
    (tools1 tools2 : list (Tool W)) (dev1 dev2 : bool)
    (name : string) (input : pydict) :
  is_specialist_call name = true ->
  Manager.dispatch specialist_run tools1 dev1 name input
    = Manager.dispatch specialist_run tools2 dev2 name input.
Proof.
  intros H. rewrite !(dispatch_specialist_call _ _ _ _ _ H). reflexivity.
Qed.

(** *** Scripted runs of the manager *)

(** C3 (failing input): the manager's model asks for the analyst with
    a context and no task.  The script's second response is never
    asked for. *)
Lemma specialist_task_error_escapes_witness :
  _build_user_message format_string "task" None = Ok "task" /\
  (0 < 10)%Z /\
  scripted_create AgentProps.first_message
      [Ok call_analyst_without_task; Ok final_answer]
    = (Ok call_analyst_without_task, [Ok final_answer]) /\
  stop_reason call_analyst_without_task = "tool_use" /\
  for_each_block
      (Manager.dispatch ManagerTools.analyst_specialist default_tools true)
      JsonDumps [] [TextBlock "Delegating."] [Ok final_answer]
    = (Ok [], [Ok final_answer]) /\
  is_specialist_call "call_analyst_agent" = true /\
  existsb (String.eqb (specialist_id_of "call_analyst_agent")) specialist_ids
    = true /\
  slice_100 (dict_get_or_none "task" [("context", JDict [("segment", JStr "SMB")])])
    = Raise (Exn "TypeError" "'NoneType' object is not subscriptable") /\
  Manager.dispatch ManagerTools.analyst_specialist default_tools true
      "call_analyst_agent" [("context", JDict [("segment", JStr "SMB")])]
      [Ok final_answer]
    = (Raise (Exn "TypeError" "'NoneType' object is not subscriptable"),
       [Ok final_answer]) /\
  (forall d : pydict,
     Manager.dispatch ManagerTools.analyst_specialist default_tools true
       "call_analyst_agent" [("context", JDict [("segment", JStr "SMB")])]
       [Ok final_answer]
     <> (Ok d, [Ok final_answer])) /\
  manager_run ManagerTools.analyst_specialist "task" 10
      (mkState [Ok call_analyst_without_task; Ok final_answer] O)
    = (Ok (failure_result "manager"
             (Exn "TypeError" "'NoneType' object is not subscriptable")),
       mkState [Ok final_answer] 1) /\
  dict_get "success"
      (failure_result "manager"
         (Exn "TypeError" "'NoneType' object is not subscriptable"))
    = Some (JBool false) /\
  dict_get "error"
      (failure_result "manager"
         (Exn "TypeError" "'NoneType' object is not subscriptable"))
    = Some (JStr "'NoneType' object is not subscriptable").
Proof.
  assert (H2 : (0 < 10)%Z) by lia.
  split; [reflexivity |]. split; [exact H2 |].
  do 6 (split; [reflexivity |]).
  exact (specialist_task_error_escapes ManagerTools.analyst_specialist
           default_tools true scripted_create frozen_clock format_string
           "task" None 10 "task"
           (mkState [Ok call_analyst_without_task; Ok final_answer] O)
           call_analyst_without_task [Ok final_answer]
           [TextBlock "Delegating."] [] "toolu_8" "call_analyst_agent"
           [("context", JDict [("segment", JStr "SMB")])] [] [Ok final_answer]
           (Exn "TypeError" "'NoneType' object is not subscriptable")
           eq_refl H2 eq_refl eq_refl eq_refl eq_refl eq_refl eq_refl eq_refl).
Defined.

(** C10 (failing input): the invocation [call_ghost_agent] with an empty
    input names a specialist that is not registered, yet the dispatch
    does not return the failure result naming it: evaluating
    [task[:100]] for the logger raises [TypeError] first, and the
    manager's run ends in its exception handler.  The registered
    specialists play no part in it. *)
Theorem dispatch_unknown_specialist_without_task
    (specialist_run : string -> json -> json -> M Script pydict) :
  is_specialist_call "call_ghost_agent" = true /\
  existsb (String.eqb (specialist_id_of "call_ghost_agent")) specialist_ids
    = false /\
  Manager.dispatch specialist_run default_tools true "call_ghost_agent" [] []
    = (Raise (Exn "TypeError" "'NoneType' object is not subscriptable"), []) /\
  manager_run specialist_run "task" 10 (mkState [Ok call_ghost; Ok final_answer] O)
    = (Ok (failure_result "manager"
             (Exn "TypeError" "'NoneType' object is not subscriptable")),
       mkState [Ok final_answer] 1).
Proof. repeat split. Qed.

End ManagerProps.

(** * Further properties of the code *)

(** ** Invariants of the run loop *)

Module RunInvariants.
Import Agent Scenarios Conversation.

Lemma append_assoc (a b c : string) : ((a ++ b) ++ c = a ++ (b ++ c))%string.
Proof.
  induction a as [| x a IH]; [reflexivity |].
  change (String x ((a ++ b) ++ c) = String x (a ++ (b ++ c)))%string.
  f_equal. exact IH.
Qed.

Lemma append_empty_r (a : string) : (a ++ "")%string = a.
Proof.
  induction a as [| x a IH]; [reflexivity |].
  change (String x (a ++ "") = String x a)%string. f_equal. exact IH.
Qed.

Lemma concat_empty_cons (x : string) (l : list string) :
  String.concat "" (x :: l) = (x ++ String.concat "" l)%string.
Proof.
  destruct l as [| y l]; [symmetry; apply append_empty_r | reflexivity].
Qed.

Section Invariants.

Context {W Value : Type}.
Variable agent_id : string.
Variable create : list Message -> M W Response.
Variable utcnow : W -> Q.
Variable format_value : Value -> result string.
Variable handle_tool_use : Response -> M W (list ToolResultBlock).

Local Abbreviation loop := (run_loop agent_id create utcnow handle_tool_use).
Local Abbreviation body := (run_body agent_id create utcnow format_value handle_tool_use).
Local Abbreviation run := (Agent.run agent_id create utcnow format_value handle_tool_use).
Local Abbreviation build := (_build_user_message format_value).
Local Abbreviation steps := (tool_use_steps create handle_tool_use).

(** Case analysis of one round of the loop. *)
Lemma loop_round (start : Q) (n : nat) (it : Z) (messages : list Message)
    (st : State W) :
  (exists e w1,
     create messages (world st) = (Raise e, w1) /\
     loop start (S n) it messages st = (Raise e, mkState w1 (S (model_calls st)))) \/
  (exists response w1,
     create messages (world st) = (Ok response, w1) /\
     stop_reason response = "end_turn" /\
     loop start (S n) it messages st =
       (Ok (success_result agent_id (_extract_result response) (it + 1)
                           (utcnow w1 - start)%Q response),
        mkState w1 (S (model_calls st)))) \/
  (exists response w1 e w2,
     create messages (world st) = (Ok response, w1) /\
     stop_reason response = "tool_use" /\
     handle_tool_use response w1 = (Raise e, w2) /\
     loop start (S n) it messages st = (Raise e, mkState w2 (S (model_calls st)))) \/
  (exists response w1 tool_results w2,
     create messages (world st) = (Ok response, w1) /\
     stop_reason response = "tool_use" /\
     handle_tool_use response w1 = (Ok tool_results, w2) /\
     loop start (S n) it messages st =
       loop start n (it + 1)
            (messages ++ tool_use_turns response tool_results)%list
            (mkState w2 (S (model_calls st)))) \/
  (exists response w1,
     create messages (world st) = (Ok response, w1) /\
     stop_reason response <> "end_turn" /\
     stop_reason response <> "tool_use" /\
     loop start (S n) it messages st =
       (Ok (max_iterations_result agent_id (it + 1)),
        mkState w1 (S (model_calls st)))).
Proof.
  destruct (create messages (world st)) as [[response | e] w1] eqn:Hc.
  - destruct (String.eqb (stop_reason response) "end_turn") eqn:He.
    + apply String.eqb_eq in He. right; left. exists response, w1.
      split; [reflexivity |]. split; [exact He |].
      exact (AgentProps.loop_end_turn _ _ _ _ _ _ _ _ _ _ _ Hc He).
    + apply String.eqb_neq in He.
      destruct (String.eqb (stop_reason response) "tool_use") eqn:Ht.
      * apply String.eqb_eq in Ht.
        destruct (handle_tool_use response w1) as [[trs | e] w2] eqn:Hh.
        -- right; right; right; left. exists response, w1, trs, w2.
           repeat (split; [first [reflexivity | assumption] |]).
           exact (AgentProps.loop_tool_use _ _ _ _ _ _ _ _ _ _ _ _ _ Hc Ht Hh).
        -- right; right; left. exists response, w1, e, w2.
           repeat (split; [first [reflexivity | assumption] |]).
           exact (AgentProps.loop_dispatch_raises _ _ _ _ _ _ _ _ _ _ _ _ _ Hc Ht Hh).
      * apply String.eqb_neq in Ht. right; right; right; right.
        exists response, w1.
        repeat (split; [first [reflexivity | assumption] |]).
        exact (AgentProps.loop_unexpected_stop _ _ _ _ _ _ _ _ _ _ _ Hc He Ht).
  - left. exists e, w1. split; [reflexivity |].
    exact (AgentProps.loop_call_raises _ _ _ _ _ _ _ _ _ _ _ Hc).
Qed.

Lemma loop_calls_bounded (start : Q) (n : nat) :
  forall (it : Z) (messages : list Message) (st : State W),
    (model_calls (snd (loop start n it messages st)) <= model_calls st + n)%nat.
Proof.
  induction n as [| n IH]; intros it messages st.
  - simpl. lia.
  - destruct (loop_round start n it messages st)
      as [(e & w1 & _ & H) | [(r & w1 & _ & _ & H) | [(r & w1 & e & w2 & _ & _ & _ & H)
         | [(r & w1 & trs & w2 & _ & _ & _ & H) | (r & w1 & _ & _ & _ & H)]]]];
      rewrite H; simpl; try lia.
    specialize (IH (it + 1)%Z (messages ++ tool_use_turns r trs)%list
                   (mkState w2 (S (model_calls st)))).
    simpl in IH. lia.
Qed.

(** However the model behaves, a run makes at most [max_iterations]
    model calls, and none when [max_iterations] is not positive. *)
Theorem run_calls_bounded (task : string)
    (context : option (list (string * Value))) (max_iterations : Z)
    (st : State W) :
  (model_calls (snd (run task context max_iterations st))
   <= model_calls st + Z.to_nat max_iterations)%nat.
Proof.
  rewrite AgentProps.run_unfold.
  unfold run_body, bind, lift.
  destruct (build task context) as [first | e];
    [| destruct (is_exception e); simpl; lia].
  pose proof (loop_calls_bounded (utcnow (world st)) (Z.to_nat max_iterations) 0
                [mkMessage "user" (MText first)] st) as H.
  destruct (loop (utcnow (world st)) (Z.to_nat max_iterations) 0
                 [mkMessage "user" (MText first)] st) as [[d | e] st'];
    [| destruct (is_exception e)]; simpl in *; exact H.
Qed.

Lemma loop_shape (start : Q) (n : nat) :
  forall (it : Z) (messages : list Message) (st : State W)
         (d : pydict) (st' : State W),
    loop start n it messages st = (Ok d, st') ->
    (exists result it' elapsed response,
       d = success_result agent_id result it' elapsed response) \/
    (exists it', d = max_iterations_result agent_id it').
Proof.
  induction n as [| n IH]; intros it messages st d st' H.
  - simpl in H. injection H as <- <-. right. eauto.
  - destruct (loop_round start n it messages st)
      as [(e & w1 & _ & H') | [(r & w1 & _ & _ & H') | [(r & w1 & e & w2 & _ & _ & _ & H')
         | [(r & w1 & trs & w2 & _ & _ & _ & H') | (r & w1 & _ & _ & _ & H')]]]];
      rewrite H' in H.
    + discriminate H.
    + injection H as <- <-. left. eauto.
    + discriminate H.
    + exact (IH _ _ _ _ _ H).
    + injection H as <- <-. right. eauto.
Qed.

(** What leaves [run]: a dictionary that names the agent, or an
    exception that is no instance of [Exception]. *)
Lemma run_outcome (task : string)
    (context : option (list (string * Value))) (max_iterations : Z)
    (st : State W) :
  match run task context max_iterations st with
  | (Ok d, _) => dict_get "agent_id" d = Some (JStr agent_id)
  | (Raise e, _) => is_exception e = false
  end.
Proof.
  rewrite AgentProps.run_unfold.
  destruct (body (utcnow (world st)) task context max_iterations st)
    as [[d | e] st'] eqn:Hbody.
  - unfold run_body, bind, lift in Hbody.
    destruct (build task context) as [first | e]; [| discriminate Hbody].
    apply loop_shape in Hbody.
    destruct Hbody as [(result & it' & elapsed & response & ->) | (it' & ->)];
      reflexivity.
  - destruct (is_exception e) eqn:He; [reflexivity | exact He].
Qed.

(** Every result of [run] is a dictionary that names the agent and
    holds exactly one of [result] and [error]: a text result when
    [success] is true, an error message when it is false.  When [run]
    does not return, it was left by an exception that is no instance of
    [Exception]. *)
Theorem run_result_shape (task : string)
    (context : option (list (string * Value))) (max_iterations : Z)
    (st : State W) :
  match run task context max_iterations st with
  | (Ok d, _) =>
      dict_get "agent_id" d = Some (JStr agent_id) /\
      ((dict_get "success" d = Some (JBool true) /\
        (exists s, dict_get "result" d = Some (JStr s)) /\
        dict_get "error" d = None) \/
       (dict_get "success" d = Some (JBool false) /\
        (exists s, dict_get "error" d = Some (JStr s)) /\
        dict_get "result" d = None))
  | (Raise e, _) => is_exception e = false
  end.
Proof.
  rewrite AgentProps.run_unfold.
  destruct (body (utcnow (world st)) task context max_iterations st)
    as [[d | e] st'] eqn:Hbody.
  - unfold run_body, bind, lift in Hbody.
    destruct (build task context) as [first | e]; [| discriminate Hbody].
    apply loop_shape in Hbody.
    destruct Hbody as [(result & it' & elapsed & response & ->) | (it' & ->)].
    + split; [reflexivity |]. left. repeat split. eexists. reflexivity.
    + split; [reflexivity |]. right. repeat split. eexists. reflexivity.
  - destruct (is_exception e) eqn:He; [| exact He].
    split; [reflexivity |]. right. repeat split. eexists. reflexivity.
Qed.

(** A stop reason that is neither ["end_turn"] nor ["tool_use"] ends
    the run at once with the max-iterations failure, whatever is left of
    [max_iterations]; the tool invocations of that response are not
    dispatched. *)
Theorem run_unexpected_stop (task : string)
    (context : option (list (string * Value))) (max_iterations : Z)
    (first : string) (st : State W) (n : nat) (messages' : list Message)
    (w' : W) (response : Response) (w1 : W) :
  build task context = Ok first ->
  steps n [mkMessage "user" (MText first)] (world st) messages' w' ->
  (n < Z.to_nat max_iterations)%nat ->
  create messages' w' = (Ok response, w1) ->
  stop_reason response <> "end_turn" ->
  stop_reason response <> "tool_use" ->
  run task context max_iterations st
    = (Ok (max_iterations_result agent_id (Z.of_nat n + 1)),
       mkState w1 (S (model_calls st + n))).
Proof.
  intros Hb Hsteps Hn Hc He Ht.
  rewrite AgentProps.run_unfold, (AgentProps.body_built _ _ _ _ _ _ _ _ _ _ _ Hb).
  destruct st as [w calls]. simpl in *.
  replace (Z.to_nat max_iterations)
    with (n + S (Z.to_nat max_iterations - S n))%nat by lia.
  rewrite (AgentProps.loop_steps _ _ _ _ _ _ _ _ _ _ Hsteps).
  rewrite (AgentProps.loop_unexpected_stop _ _ _ _ _ _ _ _
             (mkState w' (calls + n)) _ _ Hc He Ht).
  reflexivity.
Qed.

(** With [max_iterations] zero or negative the loop is not entered: no
    model call is made and the run reports the max-iterations failure
    with [iterations] zero. *)
Theorem run_without_iterations (task : string)
    (context : option (list (string * Value))) (max_iterations : Z)
    (first : string) (st : State W) :
  (max_iterations <= 0)%Z ->
  build task context = Ok first ->
  run task context max_iterations st
    = (Ok (max_iterations_result agent_id 0), st).
Proof.
  intros Hmax Hb.
  rewrite AgentProps.run_unfold, (AgentProps.body_built _ _ _ _ _ _ _ _ _ _ _ Hb).
  replace (Z.to_nat max_iterations) with O by lia. reflexivity.
Qed.

(** The accumulation of the context lines, in closed form. *)
Lemma render_context_lines (items : list (string * Value)) :
  forall (message : string) (values : list string),
    Forall2 (fun item v => format_value (snd item) = Ok v) items values ->
    render_context format_value message items
      = Ok (message
            ++ String.concat ""
                 (map (fun p => bullet (fst (fst p)) (snd p)) (combine items values))).
Proof.
  induction items as [| [key value] items IH]; intros message values H.
  - inversion H; subst. simpl. rewrite append_empty_r. reflexivity.
  - inversion H as [| item v items' values' Hv Hrest]; subst. simpl in Hv.
    change (render_context format_value message ((key, value) :: items))
      with (rbind (format_value value) (fun v0 =>
              render_context format_value (message ++ bullet key v0) items)).
    rewrite Hv. simpl rbind. rewrite (IH _ _ Hrest).
    simpl combine. simpl map. rewrite concat_empty_cons, append_assoc.
    reflexivity.
Qed.

(** [_build_user_message] with a non-empty context whose values can
    all be formatted: the task, the heading, and one line per entry in
    the order of the dictionary. *)
Theorem build_user_message_with_context (task : string)
    (items : list (string * Value)) (values : list string) :
  items <> [] ->
  Forall2 (fun item v => format_value (snd item) = Ok v) items values ->
  build task (Some items)
    = Ok (task ++ context_header
          ++ String.concat ""
               (map (fun p => bullet (fst (fst p)) (snd p)) (combine items values))).
Proof.
  intros Hne H. destruct items as [| item items]; [congruence |].
  unfold _build_user_message.
  rewrite (render_context_lines _ _ _ H). rewrite append_assoc. reflexivity.
Qed.

(** The first value that cannot be formatted aborts the message with
    its exception. *)
Lemma build_user_message_raises (task : string)
    (before after : list (string * Value)) (key : string) (value : Value)
    (values : list string) (e : exn) :
  Forall2 (fun item v => format_value (snd item) = Ok v) before values ->
  format_value value = Raise e ->
  build task (Some (before ++ (key, value) :: after)%list) = Raise e.
Proof.
  intros H He.
  assert (Hgen : forall message,
            render_context format_value message
              (before ++ (key, value) :: after)%list = Raise e).
  { revert values H. induction before as [| [k v] before IH]; intros values H message.
    - simpl. rewrite He. reflexivity.
    - inversion H as [| item s items' values' Hv Hrest]; subst. simpl in Hv.
      simpl. rewrite Hv. simpl. exact (IH _ Hrest _). }
  unfold _build_user_message.
  destruct (before ++ (key, value) :: after)%list eqn:E.
  - destruct before; discriminate E.
  - apply Hgen.
Qed.

End Invariants.

(** *** The conversations sent to the model *)

Section Sent.

Context {W Value : Type}.
Variable agent_id : string.
Variable create : list Message -> M W Response.
Variable utcnow : W -> Q.
Variable format_value : Value -> result string.
Variable handle_tool_use : Response -> M W (list ToolResultBlock).

Local Abbreviation rcreate := (recording_create create).
Local Abbreviation rclock := (recording_clock utcnow).
Local Abbreviation rhandle := (recording_handler handle_tool_use).
Local Abbreviation loop := (run_loop agent_id create utcnow handle_tool_use).
Local Abbreviation rloop := (run_loop agent_id rcreate rclock rhandle).

Lemma recording_create_log (messages : list Message) (rw rw' : W * Transcript)
    (r : result Response) :
  rcreate messages rw = (r, rw') ->
  snd rw' = (snd rw ++ [(messages, r)])%list /\
  create messages (fst rw) = (r, fst rw').
Proof.
  unfold recording_create.
  destruct (create messages (fst rw)) as [r0 w'].
  intros H. injection H as <- <-. split; reflexivity.
Qed.

Lemma recording_handler_log (response : Response) (rw rw' : W * Transcript)
    (r : result (list ToolResultBlock)) :
  rhandle response rw = (r, rw') ->
  snd rw' = snd rw /\ handle_tool_use response (fst rw) = (r, fst rw').
Proof.
  unfold recording_handler.
  destruct (handle_tool_use response (fst rw)) as [r0 w'].
  intros H. injection H as <- <-. split; reflexivity.
Qed.

(** What the loop adds to the transcript. *)
Lemma rloop_transcript (start : Q) (n : nat) :
  forall (it : Z) (messages : list Message) (st : State (W * Transcript)),
    exists ext : Transcript,
      snd (world (snd (rloop start n it messages st)))
        = (snd (world st) ++ ext)%list /\
      grows_by_turns messages ext.
Proof.
  induction n as [| n IH]; intros it messages st.
  - exists []. simpl. rewrite app_nil_r. split; [reflexivity | exact I].
  - destruct (loop_round agent_id rcreate rclock rhandle start n it messages st)
      as [(e & w1 & Hc & H) | [(r & w1 & Hc & _ & H)
         | [(r & w1 & e & w2 & Hc & _ & Hh & H)
         | [(r & w1 & trs & w2 & Hc & Hs & Hh & H) | (r & w1 & Hc & _ & _ & H)]]]];
      rewrite H; apply recording_create_log in Hc; destruct Hc as [Hlog _].
    + eexists [_]. simpl. split; [exact Hlog |]. split; [reflexivity | left; reflexivity].
    + eexists [_]. simpl. split; [exact Hlog |]. split; [reflexivity | left; reflexivity].
    + apply recording_handler_log in Hh. destruct Hh as [Hlog2 _].
      eexists [_]. simpl. rewrite Hlog2.
      split; [exact Hlog |]. split; [reflexivity | left; reflexivity].
    + apply recording_handler_log in Hh. destruct Hh as [Hlog2 _].
      destruct (IH (it + 1)%Z (messages ++ tool_use_turns r trs)%list
                   (mkState w2 (S (model_calls st)))) as (ext & Hext & Hgrows).
      exists ((messages, Ok r) :: ext). split.
      * rewrite Hext. simpl. rewrite Hlog2, Hlog, <- app_assoc. reflexivity.
      * simpl. split; [reflexivity |]. right. exists r, trs.
        split; [reflexivity |]. split; [exact Hs | exact Hgrows].
    + eexists [_]. simpl. split; [exact Hlog |]. split; [reflexivity | left; reflexivity].
Qed.

(** Recording changes nothing else: without the transcript, the
    recording loop is the loop. *)
Lemma rloop_erase (start : Q) (n : nat) :
  forall (it : Z) (messages : list Message) (st : State (W * Transcript)),
    loop start n it messages (erase st)
      = (fst (rloop start n it messages st),
         erase (snd (rloop start n it messages st))).
Proof.
  induction n as [| n IH]; intros it messages st.
  - reflexivity.
  - destruct (loop_round agent_id rcreate rclock rhandle start n it messages st)
      as [(e & w1 & Hc & H) | [(r & w1 & Hc & Hs & H)
         | [(r & w1 & e & w2 & Hc & Hs & Hh & H)
         | [(r & w1 & trs & w2 & Hc & Hs & Hh & H) | (r & w1 & Hc & He & Ht & H)]]]];
      rewrite H; apply recording_create_log in Hc; destruct Hc as [_ Hc].
    + exact (AgentProps.loop_call_raises agent_id create utcnow handle_tool_use
               start n it messages (erase st) e (fst w1) Hc).
    + exact (AgentProps.loop_end_turn agent_id create utcnow handle_tool_use
               start n it messages (erase st) r (fst w1) Hc Hs).
    + apply recording_handler_log in Hh. destruct Hh as [_ Hh].
      exact (AgentProps.loop_dispatch_raises agent_id create utcnow
               handle_tool_use start n it messages (erase st) r (fst w1) e
               (fst w2) Hc Hs Hh).
    + apply recording_handler_log in Hh. destruct Hh as [_ Hh].
      rewrite (AgentProps.loop_tool_use agent_id create utcnow handle_tool_use
                 start n it messages (erase st) r (fst w1) trs (fst w2) Hc Hs Hh).
      exact (IH (it + 1)%Z (messages ++ tool_use_turns r trs)%list
                (mkState w2 (S (model_calls st)))).
    + exact (AgentProps.loop_unexpected_stop agent_id create utcnow
               handle_tool_use start n it messages (erase st) r (fst w1)
               Hc He Ht).
Qed.


End Sent.

(** *** Scripted runs *)

Lemma run_unexpected_stop_witness :
  _build_user_message format_string "task" None = Ok "task" /\
  tool_use_steps scripted_create (Agent._handle_tool_use default_tools)
    0 AgentProps.first_message [Ok truncated] AgentProps.first_message
    [Ok truncated] /\
  (0 < Z.to_nat 10)%nat /\
  scripted_create AgentProps.first_message [Ok truncated] = (Ok truncated, []) /\
  stop_reason truncated <> "end_turn" /\
  stop_reason truncated <> "tool_use" /\
  analyst_run "task" 10 (mkState [Ok truncated] O)
    = (Ok (max_iterations_result "analyst" (Z.of_nat 0 + 1)), mkState [] 1).
Proof.
  assert (H2 : tool_use_steps scripted_create (Agent._handle_tool_use default_tools)
                 0 AgentProps.first_message [Ok truncated]
                 AgentProps.first_message [Ok truncated]) by apply steps_done.
  assert (H3 : (0 < Z.to_nat 10)%nat) by (simpl; lia).
  assert (H5 : stop_reason truncated <> "end_turn") by discriminate.
  assert (H6 : stop_reason truncated <> "tool_use") by discriminate.
  split; [reflexivity |]. split; [exact H2 |]. split; [exact H3 |].
  split; [reflexivity |]. split; [exact H5 |]. split; [exact H6 |].
  exact (run_unexpected_stop "analyst" scripted_create frozen_clock format_string
           (Agent._handle_tool_use default_tools) "task" None 10 "task"
           (mkState [Ok truncated] O) 0 AgentProps.first_message [Ok truncated]
           truncated [] eq_refl H2 H3 eq_refl H5 H6).
Defined.

Lemma run_without_iterations_witness :
  (0 <= 0)%Z /\
  _build_user_message format_string "task" None = Ok "task" /\
  analyst_run "task" 0 (mkState [Ok two_texts] O)
    = (Ok (max_iterations_result "analyst" 0), mkState [Ok two_texts] O).
Proof.
  assert (H1 : (0 <= 0)%Z) by lia.
  split; [exact H1 |]. split; [reflexivity |].
  exact (run_without_iterations "analyst" scripted_create frozen_clock
           format_string (Agent._handle_tool_use default_tools) "task" None 0
           "task" (mkState [Ok two_texts] O) H1 eq_refl).
Defined.

Lemma build_user_message_with_context_witness :
  crm_context <> [] /\
  Forall2 (fun item v => format_string (snd item) = Ok v) crm_context ["CRM"; "SMB"] /\
  _build_user_message format_string "Plan the launch" (Some crm_context)
    = Ok ("Plan the launch" ++ context_header
          ++ String.concat ""
               (map (fun p => bullet (fst (fst p)) (snd p))
                    (combine crm_context ["CRM"; "SMB"]))).
Proof.
  assert (H1 : crm_context <> []) by discriminate.
  assert (H2 : Forall2 (fun item v => format_string (snd item) = Ok v)
                 crm_context ["CRM"; "SMB"]).
  { repeat constructor. }
  split; [exact H1 |]. split; [exact H2 |].
  exact (build_user_message_with_context format_string "Plan the launch"
           crm_context ["CRM"; "SMB"] H1 H2).
Defined.

End RunInvariants.

(** ** Invariants of the tool dispatch *)

Module DispatchInvariants.
Import Agent Scenarios Conversation.
Local Open Scope list_scope.

(** One tool result per tool invocation, in the order of the
    invocations and carrying their identifiers: this holds for the
    handler of the base agent and for the manager's. *)
Theorem tool_results_align {W : Type}
    (dispatch : string -> pydict -> M W pydict) (render : pydict -> Rendered)
    (blocks : list ContentBlock) (w : W)
    (results : list ToolResultBlock) (w' : W) :
  for_each_block dispatch render [] blocks w = (Ok results, w') ->
  map tool_use_id results = tool_use_ids blocks /\
  Forall (fun r => tr_type r = "tool_result") results.
Proof.
  revert w results w'.
  induction blocks as [| b blocks IH]; intros w results w' H.
  - simpl in H. injection H as <- <-. split; [reflexivity | constructor].
  - destruct b as [text | id name input | type]; simpl in H; try exact (IH _ _ _ H).
    unfold bind in H.
    destruct (dispatch name input w) as [[result | e] w1]; [| discriminate H].
    rewrite ManagerProps.for_each_block_collected in H.
    destruct (for_each_block dispatch render [] blocks w1)
      as [[rest | e] w2] eqn:Hrest; [| discriminate H].
    injection H as <- <-.
    destruct (IH _ _ _ Hrest) as [Hids Htypes].
    split; [simpl; f_equal; exact Hids |].
    constructor; [reflexivity | exact Htypes].
Qed.

(** When the dispatch of an invocation raises, the handler raises that
    exception: the results of the invocations already executed are lost
    and the later invocations are not executed. *)
Theorem tool_dispatch_aborts_batch {W : Type}
    (dispatch : string -> pydict -> M W pydict) (render : pydict -> Rendered)
    (pre post : list ContentBlock) (id name : string) (input : pydict)
    (w w1 w2 : W) (res_pre : list ToolResultBlock) (e : exn) :
  for_each_block dispatch render [] pre w = (Ok res_pre, w1) ->
  dispatch name input w1 = (Raise e, w2) ->
  for_each_block dispatch render [] (pre ++ ToolUseBlock id name input :: post) w
    = (Raise e, w2).
Proof.
  intros Hpre Hd.
  rewrite ManagerProps.for_each_block_app, Hpre. simpl. unfold bind.
  rewrite Hd. reflexivity.
Qed.

Lemma tool_results_align_witness :
  exists (results : list ToolResultBlock),
    Agent._handle_tool_use default_tools two_calls ([] : Script) = (Ok results, []) /\
    map tool_use_id results = tool_use_ids (content two_calls) /\
    Forall (fun r => tr_type r = "tool_result") results.
Proof.
  eexists. split; [reflexivity |].
  exact (tool_results_align (execute_tool default_tools) PyStr (content two_calls)
           [] _ [] eq_refl).
Defined.

Lemma tool_dispatch_aborts_batch_witness :
  for_each_block (execute_tool default_tools) PyStr []
      [TextBlock "Saving."] ([] : Script) = (Ok [], []) /\
  (exists e : exn,
     execute_tool default_tools "store_context" [("key", JStr "k")] ([] : Script)
       = (Raise e, []) /\
     for_each_block (execute_tool default_tools) PyStr []
         ([TextBlock "Saving."]
          ++ ToolUseBlock "toolu_1" "store_context" [("key", JStr "k")]
          :: content two_calls) ([] : Script)
       = (Raise e, [])).
Proof.
  split; [reflexivity |].
  eexists. split; [reflexivity |].
  exact (tool_dispatch_aborts_batch (execute_tool default_tools) PyStr
           [TextBlock "Saving."] (content two_calls) "toolu_1" "store_context"
           [("key", JStr "k")] [] [] [] [] _ eq_refl eq_refl).
Defined.

End DispatchInvariants.

(** ** The tool registry *)

Module RegistryProps.
Import Registry Scenarios.
Local Open Scope list_scope.

(** What is registered under a name is what [get] finds there, and
    registering leaves every other name as it was. *)
Theorem register_get {W : Type} (t : Tool W) (tools : list (Tool W))
    (name : string) :
  registry_get (register t tools) name
    = if String.eqb name (tool_name t) then Some t else registry_get tools name.
Proof.
  induction tools as [| t' tools IH]; simpl.
  - destruct (String.eqb name (tool_name t)); reflexivity.
  - destruct (String.eqb (tool_name t) (tool_name t')) eqn:E; simpl.
    + apply String.eqb_eq in E.
      destruct (String.eqb name (tool_name t)) eqn:E1; [reflexivity |].
      rewrite <- E, E1. reflexivity.
    + destruct (String.eqb name (tool_name t')) eqn:E2.
      * apply String.eqb_eq in E2. subst name.
        rewrite String.eqb_sym, E. reflexivity.
      * exact IH.
Qed.

(** Registering under a name already taken replaces the tool where it
    stands; a new name is added at the end.  Either way no name is ever
    listed twice. *)
Theorem register_names {W : Type} (t : Tool W) (tools : list (Tool W)) :
  (In (tool_name t) (tool_names tools) ->
     tool_names (register t tools) = tool_names tools) /\
  (~ In (tool_name t) (tool_names tools) ->
     tool_names (register t tools) = tool_names tools ++ [tool_name t]) /\
  (NoDup (tool_names tools) -> NoDup (tool_names (register t tools))).
Proof.
  assert (Hin : In (tool_name t) (tool_names tools) ->
                tool_names (register t tools) = tool_names tools).
  { induction tools as [| t' tools IH]; simpl; [tauto |].
    destruct (String.eqb (tool_name t) (tool_name t')) eqn:E; simpl.
    - apply String.eqb_eq in E. intros _. f_equal. exact E.
    - apply String.eqb_neq in E. intros [H | H]; [congruence |].
      f_equal. exact (IH H). }
  assert (Hout : ~ In (tool_name t) (tool_names tools) ->
                 tool_names (register t tools) = tool_names tools ++ [tool_name t]).
  { clear Hin. induction tools as [| t' tools IH]; simpl; [reflexivity |].
    intros Hn.
    destruct (String.eqb (tool_name t) (tool_name t')) eqn:E; simpl.
    - apply String.eqb_eq in E. exfalso. apply Hn. left. congruence.
    - assert (Hn' : ~ In (tool_name t) (tool_names tools))
        by (intros Hx; apply Hn; right; exact Hx).
      rewrite (IH Hn'). reflexivity. }
  split; [exact Hin |]. split; [exact Hout |].
  intros Hnd.
  destruct (in_dec string_dec (tool_name t) (tool_names tools)) as [H | H].
  - rewrite (Hin H). exact Hnd.
  - rewrite (Hout H). apply NoDup_app.
    split; [exact Hnd |]. split; [| apply NoDup_singleton].
    intros x Hx Hx'. apply list_elem_of_singleton in Hx'. subst x.
    apply list_elem_of_In in Hx. exact (H Hx).
Qed.

(** A tool input that has a key [name] (or [self]) cannot be passed on:
    the call of [execute_tool] itself raises, whatever is registered. *)
Lemma execute_tool_reserved_key {W : Type} (tools : list (Tool W))
    (name : string) (kwargs : pydict) (w : W) :
  has_key "name" kwargs || has_key "self" kwargs = true ->
  exists e : exn,
    execute_tool tools name kwargs w = (Raise e, w) /\
    exn_class e = "TypeError" /\ is_exception e = true.
Proof.
  intros H. unfold execute_tool. rewrite H. eexists. repeat split.
Qed.

(** A tool invocation whose input has a key [name] (or [self]) fails
    the whole run of a base agent, whatever is registered: the keyword
    call of [execute_tool] raises [TypeError], the invocations after it
    are not executed, and [run] returns its failure dictionary after that
    one model call. *)
Theorem reserved_key_fails_run {W Value : Type} (agent_id : string)
    (create : list Message -> M W Response) (utcnow : W -> Q)
    (format_value : Value -> result string) (tools : list (Tool W))
    (task : string) (context : option (list (string * Value)))
    (max_iterations : Z) (first : string) (st : State W)
    (response : Response) (w1 : W) (pre post : list ContentBlock)
    (id name : string) (input : pydict) (res_pre : list ToolResultBlock)
    (w2 : W) :
  Agent._build_user_message format_value task context = Ok first ->
  (0 < max_iterations)%Z ->
  create [mkMessage "user" (MText first)] (world st) = (Ok response, w1) ->
  stop_reason response = "tool_use" ->
  content response = pre ++ ToolUseBlock id name input :: post ->
  Agent.for_each_block (execute_tool tools) PyStr [] pre w1 = (Ok res_pre, w2) ->
  has_key "name" input || has_key "self" input = true ->
  exists e : exn,
    exn_class e = "TypeError" /\
    Agent.run agent_id create utcnow format_value (Agent._handle_tool_use tools)
              task context max_iterations st
      = (Ok (Agent.failure_result agent_id e), mkState w2 (S (model_calls st))).
Proof.
  intros Hb Hmax Hc Hs Hcontent Hpre Hkey.
  destruct (execute_tool_reserved_key tools name input w2 Hkey)
    as (e & He & Hclass & Hexc).
  exists e. split; [exact Hclass |].
  assert (Hh : Agent._handle_tool_use tools response w1 = (Raise e, w2)).
  { unfold Agent._handle_tool_use. rewrite Hcontent.
    rewrite ManagerProps.for_each_block_app, Hpre. simpl. unfold bind.
    rewrite He. reflexivity. }
  assert (Hn : (0 < Z.to_nat max_iterations)%nat) by lia.
  rewrite (AgentProps.run_catches_dispatch_error agent_id create utcnow format_value
             (Agent._handle_tool_use tools) task context max_iterations first st
             0 _ _ response w1 e w2 Hb (Agent.steps_done _ _ _ _) Hn Hc Hs Hh
             Hexc).
  rewrite Nat.add_0_r. reflexivity.
Qed.

(** A name that is not registered gives the "not found" failure and
    touches nothing. *)
Lemma execute_tool_not_found {W : Type} (tools : list (Tool W))
    (name : string) (kwargs : pydict) (w : W) :
  has_key "name" kwargs || has_key "self" kwargs = false ->
  registry_get tools name = None ->
  execute_tool tools name kwargs w
    = (Ok [("success", JBool false);
           ("error", JStr ("Tool '" ++ name ++ "' not found")%string)], w).
Proof.
  intros Hk Hg. unfold execute_tool. rewrite Hk, Hg. reflexivity.
Qed.

Lemma bind_kwargs_type_error {W : Type} (t : Tool W) (kwargs : pydict) (e : exn) :
  bind_kwargs t kwargs = Raise e -> exn_class e = "TypeError".
Proof.
  unfold bind_kwargs.
  destruct (List.find _ kwargs) as [[k v] |].
  - intros H. injection H as <-. reflexivity.
  - destruct (List.find _ (required_params t)) as [p |].
    + intros H. injection H as <-. reflexivity.
    + discriminate.
Qed.

Lemma registry_get_in {W : Type} (tools : list (Tool W)) (name : string)
    (t : Tool W) :
  registry_get tools name = Some t -> In t tools.
Proof.
  induction tools as [| t' tools IH]; simpl; [discriminate |].
  destruct (String.eqb name (tool_name t')).
  - intros H. injection H as <-. left. reflexivity.
  - intros H. right. exact (IH H).
Qed.

(** When no registered tool lets an exception out of its [execute]
    body, the only exceptions of [execute_tool] are the [TypeError]s of
    argument binding, and they are raised before anything is done. *)
Theorem execute_tool_raises_only_type_errors {W : Type} (tools : list (Tool W))
    (name : string) (kwargs : pydict) (w : W) (e : exn) (w' : W) :
  (forall (t : Tool W) (kw : pydict) (w0 : W),
     In t tools -> exists d w1, tool_execute t kw w0 = (Ok d, w1)) ->
  execute_tool tools name kwargs w = (Raise e, w') ->
  exn_class e = "TypeError" /\ w' = w.
Proof.
  intros Hsafe. unfold execute_tool.
  destruct (has_key "name" kwargs || has_key "self" kwargs).
  - intros H. injection H as <- <-. split; reflexivity.
  - destruct (registry_get tools name) as [t |] eqn:Hg; [| discriminate].
    unfold bind, lift.
    destruct (bind_kwargs t kwargs) as [[] | e0] eqn:Hb.
    + destruct (Hsafe t kwargs w (registry_get_in _ _ _ Hg)) as (d & w1 & Hx).
      rewrite Hx. discriminate.
    + intros H. injection H as <- <-.
      split; [exact (bind_kwargs_type_error _ _ _ Hb) | reflexivity].
Qed.

(** The three default tools keep the failures of their services to
    themselves: no instance of [Exception] leaves [execute] once its
    arguments are bound, and when the search services and the page fetch
    raise nothing but instances of [Exception], [execute] returns a
    dictionary.  Only an exception that is no instance of [Exception]
    gets out. *)
Theorem default_tools_contain_exceptions {W : Type}
    (brave_api_key serpapi_key : option string)
    (_search_brave _search_serpapi : json -> json -> M W pydict)
    (fetch_url : json -> M W pydict)
    (t : Tool W) (kwargs : pydict) (w : W) :
  In t (default_registry brave_api_key serpapi_key _search_brave
                         _search_serpapi fetch_url) ->
  (forall (e : exn) (w1 : W),
     tool_execute t kwargs w = (Raise e, w1) -> is_exception e = false) /\
  ((forall q n w0 e w1,
      _search_brave q n w0 = (Raise e, w1) -> is_exception e = true) ->
   (forall q n w0 e w1,
      _search_serpapi q n w0 = (Raise e, w1) -> is_exception e = true) ->
   (forall u w0 e w1,
      fetch_url u w0 = (Raise e, w1) -> is_exception e = true) ->
   exists d w1, tool_execute t kwargs w = (Ok d, w1)).
Proof.
  intros [<- | [<- | [<- | []]]]; simpl; unfold try_except.
  - destruct (truthy brave_api_key);
      [| destruct (truthy serpapi_key)].
    + destruct (_search_brave _ _ w) as [[d | e] w1] eqn:E.
      * split; [intros e w2 H; discriminate H | intros; eexists _, _; reflexivity].
      * destruct (is_exception e) eqn:He.
        -- split; [intros e' w2 H; discriminate H | intros; eexists _, _; reflexivity].
        -- split; [intros e' w2 H; injection H as <- _; exact He |].
           intros Hb _ _. rewrite (Hb _ _ _ _ _ E) in He. discriminate He.
    + destruct (_search_serpapi _ _ w) as [[d | e] w1] eqn:E.
      * split; [intros e w2 H; discriminate H | intros; eexists _, _; reflexivity].
      * destruct (is_exception e) eqn:He.
        -- split; [intros e' w2 H; discriminate H | intros; eexists _, _; reflexivity].
        -- split; [intros e' w2 H; injection H as <- _; exact He |].
           intros _ Hs _. rewrite (Hs _ _ _ _ _ E) in He. discriminate He.
    + split; [intros e w2 H; discriminate H | intros; eexists _, _; reflexivity].
  - destruct (fetch_url _ w) as [[d | e] w1] eqn:E.
    + split; [intros e w2 H; discriminate H | intros; eexists _, _; reflexivity].
    + destruct (is_exception e) eqn:He.
      * split; [intros e' w2 H; discriminate H | intros; eexists _, _; reflexivity].
      * split; [intros e' w2 H; injection H as <- _; exact He |].
        intros _ _ Hf. rewrite (Hf _ _ _ _ E) in He. discriminate He.
  - split; [intros e w2 H; discriminate H | intros; eexists _, _; reflexivity].
Qed.

Lemma reserved_key_fails_run_witness :
  Agent._build_user_message format_string "task" None = Ok "task" /\
  (0 < 10)%Z /\
  scripted_create [mkMessage "user" (MText "task")] [Ok Conversation.named_call]
    = (Ok Conversation.named_call, []) /\
  stop_reason Conversation.named_call = "tool_use" /\
  Agent.for_each_block (execute_tool default_tools) PyStr []
      [TextBlock "Saving the contact."] ([] : Script) = (Ok [], []) /\
  has_key "name" [("name", JStr "Ada"); ("key", JStr "k"); ("value", JStr "v")]
    || has_key "self" [("name", JStr "Ada"); ("key", JStr "k"); ("value", JStr "v")]
    = true /\
  exists e : exn,
    exn_class e = "TypeError" /\
    analyst_run "task" 10 (mkState [Ok Conversation.named_call] O)
      = (Ok (Agent.failure_result "analyst" e), mkState [] 1).
Proof.
  assert (H2 : (0 < 10)%Z) by lia.
  split; [reflexivity |]. split; [exact H2 |].
  do 4 (split; [reflexivity |]).
  exact (reserved_key_fails_run "analyst" scripted_create frozen_clock format_string
           default_tools "task" None 10 "task"
           (mkState [Ok Conversation.named_call] O) Conversation.named_call []
           [TextBlock "Saving the contact."] [] "toolu_7" "store_context"
           [("name", JStr "Ada"); ("key", JStr "k"); ("value", JStr "v")] [] []
           eq_refl H2 eq_refl eq_refl eq_refl eq_refl eq_refl).
Defined.

Lemma default_tools_contain_exceptions_witness :
  In (web_search (Some "brave-key") None ManagerTools.offline_search
                 ManagerTools.offline_search)
     ManagerTools.offline_registry /\
  (forall (e : exn) (w1 : Script),
     tool_execute (web_search (Some "brave-key") None ManagerTools.offline_search
                              ManagerTools.offline_search)
                  [("query", JStr "crm market size")] ([] : Script) = (Raise e, w1) ->
     is_exception e = false) /\
  ((forall q n w0 e w1,
      ManagerTools.offline_search q n w0 = (Raise e, w1) -> is_exception e = true) ->
   (forall q n w0 e w1,
      ManagerTools.offline_search q n w0 = (Raise e, w1) -> is_exception e = true) ->
   (forall u w0 e w1,
      ManagerTools.offline_fetch u w0 = (Raise e, w1) -> is_exception e = true) ->
   exists d w1,
     tool_execute (web_search (Some "brave-key") None ManagerTools.offline_search
                              ManagerTools.offline_search)
                  [("query", JStr "crm market size")] ([] : Script) = (Ok d, w1)).
Proof.
  assert (H : In (web_search (Some "brave-key") None ManagerTools.offline_search
                             ManagerTools.offline_search)
                 ManagerTools.offline_registry) by (left; reflexivity).
  split; [exact H |].
  exact (default_tools_contain_exceptions (Some "brave-key") None
           ManagerTools.offline_search ManagerTools.offline_search
           ManagerTools.offline_fetch _ [("query", JStr "crm market size")] [] H).
Defined.

Lemma execute_tool_raises_only_type_errors_witness :
  exists e : exn,
    (forall (t : Tool Script) (kw : pydict) (w0 : Script),
       In t ManagerTools.offline_registry ->
       exists d w1, tool_execute t kw w0 = (Ok d, w1)) /\
    execute_tool ManagerTools.offline_registry "web_search"
        [("query", JStr "crm"); ("limit", JInt 5)] ([] : Script) = (Raise e, []) /\
    exn_class e = "TypeError" /\ ([] : Script) = [].
Proof.
  assert (H1 : forall (t : Tool Script) (kw : pydict) (w0 : Script),
             In t ManagerTools.offline_registry ->
             exists d w1, tool_execute t kw w0 = (Ok d, w1)).
  { intros t kw w0 [<- | [<- | [<- | []]]]; eexists _, _; reflexivity. }
  eexists. split; [exact H1 |]. split; [reflexivity |].
  exact (execute_tool_raises_only_type_errors ManagerTools.offline_registry
           "web_search" [("query", JStr "crm"); ("limit", JInt 5)] [] _ []
           H1 eq_refl).
Defined.

End RegistryProps.

(** ** The manager's tools and its specialists *)

Module DelegationProps.
Import Agent Manager ManagerTools Scenarios.
Local Open Scope list_scope.

(** The tools the manager offers and its dispatch agree: each
    specialist tool is named after a registered specialist, is
    recognised as a specialist call and is sent to that specialist, and
    there is one for every registered specialist; the approval tool is
    not taken for a specialist call. *)
Theorem offered_tools_are_dispatched :
  map fst specialist_tools
    = map (fun id => ("call_" ++ id ++ "_agent")%string) specialist_ids
      ++ ["request_human_approval"] /\
  Forall (fun id =>
            is_specialist_call ("call_" ++ id ++ "_agent")%string = true /\
            specialist_id_of ("call_" ++ id ++ "_agent")%string = id)
         specialist_ids /\
  is_specialist_call "request_human_approval" = false /\
  NoDup specialist_ids.
Proof.
  split; [reflexivity |].
  split; [repeat constructor |].
  split; [reflexivity |].
  assert (H : bool_decide (NoDup specialist_ids) = true) by (vm_compute; reflexivity).
  exact (bool_decide_eq_true_1 _ H).
Qed.

Section Delegation.

Context {W Value : Type}.
Variable specialist_run : string -> json -> json -> M W pydict.
Variable tools : list (Tool W).
Variable is_development : bool.
(** The parts of a specialist that is an [AgentBase]. *)
Variable create : list Message -> M W Response.
Variable utcnow : W -> Q.
Variable format_value : Value -> result string.
Variable handle_tool_use : Response -> M W (list ToolResultBlock).

(** When the specialist called is an agent of the base class, run as
    the manager runs it (with the default limit of ten iterations), the
    handler of [_call_specialist_agent] is never taken: the outcome of the
    dispatch is the outcome of the specialist's run.  That is the
    specialist's own result, which names the specialist, unless the run
    was left by an exception that is no instance of [Exception]. *)
Theorem delegation_returns_specialist_result (name : string) (input : pydict)
    (task : string) (context : option (list (string * Value))) (w : W) :
  is_specialist_call name = true ->
  existsb (String.eqb (specialist_id_of name)) specialist_ids = true ->
  dict_get_or_none "task" input = JStr task ->
  specialist_run (specialist_id_of name) (JStr task)
                 (dict_get_or_none "context" input) w
    = call_run (specialist_id_of name) create utcnow format_value
               handle_tool_use task context 10 w ->
  Manager.dispatch specialist_run tools is_development name input w
    = call_run (specialist_id_of name) create utcnow format_value
               handle_tool_use task context 10 w /\
  match call_run (specialist_id_of name) create utcnow format_value
                 handle_tool_use task context 10 w with
  | (Ok d, _) => dict_get "agent_id" d = Some (JStr (specialist_id_of name))
  | (Raise e, _) => is_exception e = false
  end.
Proof.
  intros Hcall Hreg Htask Hrun.
  pose proof (RunInvariants.run_outcome (specialist_id_of name) create
                utcnow format_value handle_tool_use task context 10 (mkState w O))
    as Hout.
  rewrite (ManagerProps.dispatch_specialist_call _ _ _ _ _ Hcall), Htask.
  unfold call_run in *.
  destruct (Agent.run (specialist_id_of name) create utcnow format_value
                      handle_tool_use task context 10 (mkState w O))
    as [[d | e] st'].
  - split; [| exact Hout].
    exact (ManagerProps.call_specialist_returns specialist_run
             (specialist_id_of name) (JStr task) (dict_get_or_none "context" input)
             (JStr (String.substring 0 100 task)) w (world st') d
             Hreg eq_refl Hrun).
  - split; [| exact Hout].
    exact (ManagerProps.call_specialist_interrupted specialist_run
             (specialist_id_of name) (JStr task) (dict_get_or_none "context" input)
             (JStr (String.substring 0 100 task)) w (world st') e
             Hreg eq_refl Hrun Hout).
Qed.

End Delegation.

Lemma delegation_returns_specialist_result_witness :
  is_specialist_call "call_analyst_agent" = true /\
  existsb (String.eqb (specialist_id_of "call_analyst_agent")) specialist_ids = true /\
  dict_get_or_none "task" [("task", JStr "Size the market")]
    = JStr "Size the market" /\
  Manager.dispatch ManagerTools.analyst_specialist default_tools true
      "call_analyst_agent" [("task", JStr "Size the market")] [Ok two_texts]
    = call_run (specialist_id_of "call_analyst_agent") scripted_create frozen_clock
               format_string (Agent._handle_tool_use default_tools)
               "Size the market" None 10 [Ok two_texts] /\
  match call_run (specialist_id_of "call_analyst_agent") scripted_create
                 frozen_clock format_string (Agent._handle_tool_use default_tools)
                 "Size the market" None 10 [Ok two_texts] with
  | (Ok d, _) =>
      dict_get "agent_id" d = Some (JStr (specialist_id_of "call_analyst_agent"))
  | (Raise e, _) => is_exception e = false
  end.
Proof.
  do 3 (split; [reflexivity |]).
  exact (delegation_returns_specialist_result ManagerTools.analyst_specialist
           default_tools true scripted_create frozen_clock format_string
           (Agent._handle_tool_use default_tools)
           "call_analyst_agent" [("task", JStr "Size the market")]
           "Size the market" None [Ok two_texts]
           eq_refl eq_refl eq_refl eq_refl).
Defined.

End DelegationProps.

(** ** The ledger and its reports *)

Module LedgerProps.
Import TokenManager TokenReports Scenarios.
Local Open Scope Q_scope.

Lemma sum_cost_snoc (l : list TokenUsage) (u : TokenUsage) :
  sum_cost (l ++ [u]) = sum_cost l + cost_of u.
Proof. unfold sum_cost. rewrite fold_left_app. reflexivity. Qed.

Lemma sum_input_snoc (l : list TokenUsage) (u : TokenUsage) :
  sum_input (l ++ [u]) = (sum_input l + input_tokens u)%Z.
Proof. unfold sum_input. rewrite fold_left_app. reflexivity. Qed.

Lemma sum_output_snoc (l : list TokenUsage) (u : TokenUsage) :
  sum_output (l ++ [u]) = (sum_output l + output_tokens u)%Z.
Proof. unfold sum_output. rewrite fold_left_app. reflexivity. Qed.

Lemma usages_on_record_same (tm : TokenManager) (now : Z)
    (today agent_id : string) (i o : Z) (m : string) :
  usages_on (rec_state (record_usage tm now today agent_id i o m)) today
    = (usages_on tm today ++ [mkTokenUsage i o m now])%list.
Proof. apply TokenManagerProps.bucket_append_same. Qed.

Lemma usages_on_record_other (tm : TokenManager) (now : Z)
    (today agent_id : string) (i o : Z) (m : string) (d : string) :
  d <> today ->
  usages_on (rec_state (record_usage tm now today agent_id i o m)) d
    = usages_on tm d.
Proof.
  intros Hd. unfold usages_on, record_usage; simpl.
  rewrite (TokenManagerProps.bucket_append_other _ _ _ _ Hd). reflexivity.
Qed.

Lemma usages_of_record_same (tm : TokenManager) (now : Z)
    (today agent_id : string) (i o : Z) (m : string) :
  usages_of (rec_state (record_usage tm now today agent_id i o m)) agent_id
    = (usages_of tm agent_id ++ [mkTokenUsage i o m now])%list.
Proof. apply TokenManagerProps.bucket_append_same. Qed.

Lemma usages_of_record_other (tm : TokenManager) (now : Z)
    (today agent_id : string) (i o : Z) (m : string) (a : string) :
  a <> agent_id ->
  usages_of (rec_state (record_usage tm now today agent_id i o m)) a
    = usages_of tm a.
Proof.
  intros Ha. unfold usages_of, record_usage; simpl.
  rewrite (TokenManagerProps.bucket_append_other _ _ _ _ Ha). reflexivity.
Qed.

Lemma cost_of_nonneg (u : TokenUsage) :
  (0 <= input_tokens u)%Z -> (0 <= output_tokens u)%Z -> 0 <= cost_of u.
Proof.
  intros Hi Ho. unfold cost_of, calculate_cost.
  destruct (TokenManagerProps.pricing_for_pos (model u)) as [Hpi Hpo].
  apply TokenManagerProps.Q_le_of_Z in Hi. change (inject_Z 0) with 0 in Hi.
  apply TokenManagerProps.Q_le_of_Z in Ho. change (inject_Z 0) with 0 in Ho.
  set (a := inject_Z (input_tokens u)) in *.
  set (b := inject_Z (output_tokens u)) in *.
  set (pi := price_input (pricing_for (model u))) in *.
  set (po := price_output (pricing_for (model u))) in *.
  assert (0 <= a / 1000 * pi).
  { apply Qmult_le_0_compat; [| lra]. unfold Qdiv.
    change (/ 1000) with (1 # 1000). lra. }
  assert (0 <= b / 1000 * po).
  { apply Qmult_le_0_compat; [| lra]. unfold Qdiv.
    change (/ 1000) with (1 # 1000). lra. }
  lra.
Qed.

(** Recording a usage adds exactly its cost to the spend of the day it
    is recorded on and leaves the spend of every other day as it was;
    with token counts that are not negative the spend of a day never
    goes down. *)
Theorem record_usage_spend (tm : TokenManager) (now : Z)
    (today agent_id : string) (i o : Z) (m : string) :
  spent_on (rec_state (record_usage tm now today agent_id i o m)) today
    = spent_on tm today + cost_of (mkTokenUsage i o m now) /\
  (forall d : string, d <> today ->
     spent_on (rec_state (record_usage tm now today agent_id i o m)) d
       = spent_on tm d) /\
  ((0 <= i)%Z -> (0 <= o)%Z ->
   forall d : string,
     spent_on tm d
       <= spent_on (rec_state (record_usage tm now today agent_id i o m)) d).
Proof.
  assert (H1 : spent_on (rec_state (record_usage tm now today agent_id i o m)) today
               = spent_on tm today + cost_of (mkTokenUsage i o m now)).
  { unfold spent_on. rewrite usages_on_record_same. apply sum_cost_snoc. }
  assert (H2 : forall d : string, d <> today ->
               spent_on (rec_state (record_usage tm now today agent_id i o m)) d
                 = spent_on tm d).
  { intros d Hd. unfold spent_on. rewrite (usages_on_record_other _ _ _ _ _ _ _ _ Hd).
    reflexivity. }
  split; [exact H1 |]. split; [exact H2 |].
  intros Hi Ho d. destruct (string_dec d today) as [-> | Hd].
  - rewrite H1.
    pose proof (cost_of_nonneg (mkTokenUsage i o m now) Hi Ho). lra.
  - rewrite (H2 d Hd). lra.
Qed.

(** After a usage is recorded, the usage of that day can be read (with
    a non-zero budget): it has the two budget keys, one more call, and
    token totals grown by the tokens recorded. *)
Theorem record_then_daily_usage (tm : TokenManager) (now : Z)
    (today agent_id : string) (i o : Z) (m : string) :
  ~ daily_budget tm == 0 ->
  exists du : DailyUsage,
    get_daily_usage (rec_state (record_usage tm now today agent_id i o m))
                    today None = Ok du /\
    call_count du = (Z.of_nat (List.length (usages_on tm today)) + 1)%Z /\
    du_input_tokens du = (sum_input (usages_on tm today) + i)%Z /\
    du_output_tokens du = (sum_output (usages_on tm today) + o)%Z /\
    du_total_tokens du = (du_input_tokens du + du_output_tokens du)%Z /\
    budget_remaining_usd du <> None /\
    budget_used_percentage du <> None.
Proof.
  intros Hb.
  assert (Hne : usages_on (rec_state (record_usage tm now today agent_id i o m)) today
                <> []).
  { rewrite usages_on_record_same. destruct (usages_on tm today); discriminate. }
  rewrite (TokenManagerProps.get_daily_usage_today _ _ Hne Hb).
  eexists. split; [reflexivity |].
  cbn [call_count du_input_tokens du_output_tokens du_total_tokens
       budget_remaining_usd budget_used_percentage].
  rewrite usages_on_record_same, sum_input_snoc, sum_output_snoc, length_app.
  cbn [List.length input_tokens output_tokens].
  repeat split; try discriminate. lia.
Qed.

(** [get_daily_usage] raises in one case only: a budget of zero on a
    day that has usage, where the percentage divides by zero. *)
Theorem get_daily_usage_raises_iff (tm : TokenManager) (today : string)
    (date : option string) :
  (exists e : exn, get_daily_usage tm today date = Raise e) <->
  (daily_budget tm == 0 /\
   usages_on tm (match date with Some d => d | None => today end) <> []).
Proof.
  unfold get_daily_usage.
  destruct (usages_on tm (match date with Some d => d | None => today end))
    as [| u us].
  - split; [intros [e H]; discriminate H | intros [_ H]; congruence].
  - destruct (Qeq_bool (daily_budget tm) 0) eqn:Hz.
    + apply Qeq_bool_iff in Hz. split; [intros _ | intros _; eexists; reflexivity].
      split; [exact Hz | discriminate].
    + split; [intros [e H]; discriminate H |].
      intros [Hq _]. apply Qeq_bool_iff in Hq. congruence.
Qed.

(** [get_agent_usage] after a usage is recorded: the agent that made the
    call has one more call and the tokens added to its totals; every
    other agent reads as before. *)
Theorem record_then_agent_usage (tm : TokenManager) (now : Z)
    (today agent_id : string) (i o : Z) (m : string) :
  au_call_count (get_agent_usage
                   (rec_state (record_usage tm now today agent_id i o m)) agent_id)
    = (au_call_count (get_agent_usage tm agent_id) + 1)%Z /\
  au_total_tokens (get_agent_usage
                     (rec_state (record_usage tm now today agent_id i o m)) agent_id)
    = (au_total_tokens (get_agent_usage tm agent_id) + i + o)%Z /\
  avg_tokens_per_call (get_agent_usage
                         (rec_state (record_usage tm now today agent_id i o m))
                         agent_id) <> None /\
  (forall a : string, a <> agent_id ->
     get_agent_usage (rec_state (record_usage tm now today agent_id i o m)) a
       = get_agent_usage tm a).
Proof.
  assert (Hother : forall a : string, a <> agent_id ->
            get_agent_usage (rec_state (record_usage tm now today agent_id i o m)) a
              = get_agent_usage tm a).
  { intros a Ha. unfold get_agent_usage.
    rewrite (usages_of_record_other _ _ _ _ _ _ _ _ Ha). reflexivity. }
  unfold get_agent_usage. rewrite usages_of_record_same.
  destruct (usages_of tm agent_id) as [| u us] eqn:E.
  - cbn [app au_call_count au_total_tokens avg_tokens_per_call].
    split; [reflexivity |].
    split; [unfold sum_input, sum_output; simpl; lia |].
    split; [discriminate | exact Hother].
  - change ((u :: us) ++ [mkTokenUsage i o m now])%list
      with (u :: (us ++ [mkTokenUsage i o m now]))%list.
    cbv beta iota.
    change (u :: (us ++ [mkTokenUsage i o m now]))%list
      with ((u :: us) ++ [mkTokenUsage i o m now])%list.
    cbn [au_call_count au_total_tokens avg_tokens_per_call].
    rewrite sum_input_snoc, sum_output_snoc, length_app.
    cbn [List.length input_tokens output_tokens].
    split; [lia |]. split; [lia |]. split; [discriminate | exact Hother].
Qed.


(** *** The states a manager goes through *)

Lemma entries_perm (l1 l2 : list (string * list TokenUsage)) :
  l1 ≡ₚ l2 ->
  sum_list (List.length <$> (snd <$> l1)) = sum_list (List.length <$> (snd <$> l2)).
Proof.
  induction 1 as [| x l1 l2 _ IH | x y l | l1 l2 l3 _ IH1 _ IH2];
    rewrite ?fmap_cons; simpl; lia.
Qed.

Lemma entries_insert_fresh (k : string) (l : list TokenUsage)
    (d : gmap string (list TokenUsage)) :
  d !! k = None -> entries (<[k := l]> d) = (List.length l + entries d)%nat.
Proof.
  intros H. unfold entries.
  rewrite (entries_perm _ _ (map_to_list_insert d k l H)). reflexivity.
Qed.

Lemma entries_bucket_append (k : string) (u : TokenUsage)
    (d : gmap string (list TokenUsage)) :
  entries (bucket_append k u d) = S (entries d).
Proof.
  unfold bucket_append.
  destruct (d !! k) as [l |] eqn:E.
  - rewrite <- (insert_delete_eq d k (default [] (Some l) ++ [u])%list).
    rewrite entries_insert_fresh by apply lookup_delete_eq.
    rewrite <- (insert_id d k l E) at 2.
    rewrite <- (insert_delete_eq d k l).
    rewrite entries_insert_fresh by apply lookup_delete_eq.
    simpl. rewrite length_app. simpl. lia.
  - rewrite entries_insert_fresh by exact E. reflexivity.
Qed.

Lemma bucket_append_nonempty (k : string) (u : TokenUsage)
    (d : gmap string (list TokenUsage)) :
  (forall k' l, d !! k' = Some l -> l <> []) ->
  forall k' l, bucket_append k u d !! k' = Some l -> l <> [].
Proof.
  intros H k' l. unfold bucket_append.
  destruct (decide (k = k')) as [<- | Hne].
  - rewrite lookup_insert_eq. intros Hl. injection Hl as <-.
    destruct (default [] (d !! k)); discriminate.
  - rewrite lookup_insert_ne by exact Hne. apply H.
Qed.

Lemma reachable_buckets (tm : TokenManager) :
  reachable tm ->
  (forall a l, usage_by_agent tm !! a = Some l -> l <> []) /\
  (forall d l, usage_by_date tm !! d = Some l -> l <> []).
Proof.
  induction 1 as [b mc tok | tm now today agent_id i o m _ [IHa IHd]].
  - split; intros k l H; simpl in H; rewrite lookup_empty in H; discriminate H.
  - split; simpl.
    + apply bucket_append_nonempty. exact IHa.
    + apply bucket_append_nonempty. exact IHd.
Qed.

Lemma reachable_entries (tm : TokenManager) :
  reachable tm -> entries (usage_by_agent tm) = entries (usage_by_date tm).
Proof.
  induction 1 as [b mc tok | tm now today agent_id i o m _ IH].
  - reflexivity.
  - simpl. rewrite !entries_bucket_append. f_equal. exact IH.
Qed.

(** Whatever has been recorded, no bucket of the ledger is empty, and
    the ledger by agent and the ledger by day hold the same number of
    entries. *)
Theorem reachable_ledgers_agree (tm : TokenManager) :
  reachable tm ->
  (forall a l, usage_by_agent tm !! a = Some l -> l <> []) /\
  (forall d l, usage_by_date tm !! d = Some l -> l <> []) /\
  entries (usage_by_agent tm) = entries (usage_by_date tm).
Proof.
  intros H. destruct (reachable_buckets tm H) as [Ha Hd].
  split; [exact Ha |]. split; [exact Hd |]. exact (reachable_entries tm H).
Qed.

(** *** Admission and reports *)

(** A call whose estimated cost exceeds the budget that remains for the
    day, [daily_budget] minus today's spend, by more than a cent is never
    allowed: [should_allow_call] denies it, or raises on a day without
    usage or with a zero budget. *)
Theorem call_over_budget_not_allowed (tm : TokenManager) (today text : string)
    (expected_output_tokens : Z) (m : string) :
  daily_budget tm - spent_on tm today + (1 # 100)
    < estimate_call_cost tm text expected_output_tokens m ->
  forall reason : Reason,
    should_allow_call tm today text expected_output_tokens m <> Ok (true, reason).
Proof.
  intros Hover reason H.
  destruct (usages_on tm today) as [| u us] eqn:E.
  { unfold should_allow_call in H.
    rewrite (TokenManagerProps.check_budget_available_empty _ _ E) in H.
    discriminate H. }
  assert (Hne : usages_on tm today <> []) by (rewrite E; discriminate).
  destruct (Qeq_bool (daily_budget tm) 0) eqn:Hz.
  { unfold should_allow_call, check_budget_available, get_daily_usage in H.
    rewrite E, Hz in H. discriminate H. }
  assert (Hb : ~ daily_budget tm == 0).
  { intros Hq. apply Qeq_bool_iff in Hq. congruence. }
  unfold should_allow_call in H.
  rewrite (TokenManagerProps.check_budget_available_eq _ _ Hne Hb) in H.
  rewrite (TokenManagerProps.get_daily_usage_today _ _ Hne Hb) in H.
  simpl in H.
  destruct (Qltb (py_round (daily_budget tm - spent_on tm today) 2) 0);
    simpl in H; [discriminate H |].
  destruct (Qltb (py_round (daily_budget tm - spent_on tm today) 2)
                 (estimate_call_cost tm text expected_output_tokens m)) eqn:Hlt;
    [discriminate H |].
  apply TokenManagerProps.Qltb_false in Hlt.
  pose proof (TokenManagerProps.py_round_2_upper
                (daily_budget tm - spent_on tm today)) as Hup.
  lra.
Qed.

Lemma agent_suggestions_return (tm : TokenManager) (agents : list string) :
  Forall (fun a => usages_of tm a <> []) agents ->
  forall suggestions : list Suggestion,
    exists l, agent_suggestions tm agents suggestions = Ok l.
Proof.
  induction 1 as [| a agents Ha _ IH]; intros suggestions.
  - eexists. reflexivity.
  - simpl. unfold get_agent_usage.
    destruct (usages_of tm a) as [| u us]; [congruence |]. simpl.
    apply IH.
Qed.

(** On a day without usage the two reports that look at the budget
    raise [KeyError], however much was recorded before: the usage
    dictionary of an idle day has no [budget_used_percentage]. *)
Theorem reports_raise_on_idle_day (tm : TokenManager) (today : string)
    (agents : list string) :
  reachable tm ->
  Forall (fun a => is_Some (usage_by_agent tm !! a)) agents ->
  usages_on tm today = [] ->
  get_cost_optimization_suggestions tm today agents
    = Raise (Exn "KeyError" "'budget_used_percentage'") /\
  get_summary tm today agents
    = Raise (Exn "KeyError" "'budget_used_percentage'").
Proof.
  intros Hr Hagents Hidle.
  assert (Hne : Forall (fun a => usages_of tm a <> []) agents).
  { apply (Forall_impl _ _ _ Hagents). intros a [l Hl]. unfold usages_of.
    rewrite Hl. simpl. exact (proj1 (reachable_buckets tm Hr) a l Hl). }
  destruct (agent_suggestions_return tm agents Hne []) as [l Hl].
  assert (H1 : get_cost_optimization_suggestions tm today agents
               = Raise (Exn "KeyError" "'budget_used_percentage'")).
  { unfold get_cost_optimization_suggestions. rewrite Hl. simpl.
    rewrite (TokenManagerProps.get_daily_usage_empty _ _ Hidle). reflexivity. }
  split; [exact H1 |].
  unfold get_summary.
  rewrite (TokenManagerProps.get_daily_usage_empty _ _ Hidle). simpl.
  rewrite H1. reflexivity.
Qed.

(** *** Concrete ledgers *)

Lemma record_then_daily_usage_witness :
  ~ daily_budget tm_fresh == 0 /\
  exists du : DailyUsage,
    get_daily_usage (rec_state (record_usage tm_fresh 0 day "analyst" 2000 800
                                             "claude-haiku"))
                    day None = Ok du /\
    call_count du = (Z.of_nat (List.length (usages_on tm_fresh day)) + 1)%Z /\
    du_input_tokens du = (sum_input (usages_on tm_fresh day) + 2000)%Z /\
    du_output_tokens du = (sum_output (usages_on tm_fresh day) + 800)%Z /\
    du_total_tokens du = (du_input_tokens du + du_output_tokens du)%Z /\
    budget_remaining_usd du <> None /\
    budget_used_percentage du <> None.
Proof.
  assert (H : ~ daily_budget tm_fresh == 0) by (vm_compute; discriminate).
  split; [exact H |].
  exact (record_then_daily_usage tm_fresh 0 day "analyst" 2000 800 "claude-haiku" H).
Defined.

Lemma reachable_ledgers_agree_witness :
  reachable tm_yesterday /\
  (forall a l, usage_by_agent tm_yesterday !! a = Some l -> l <> []) /\
  (forall d l, usage_by_date tm_yesterday !! d = Some l -> l <> []) /\
  entries (usage_by_agent tm_yesterday) = entries (usage_by_date tm_yesterday).
Proof.
  assert (H : reachable tm_yesterday) by (apply reach_record, reach_init).
  split; [exact H |]. exact (reachable_ledgers_agree tm_yesterday H).
Defined.

Lemma call_over_budget_not_allowed_witness :
  daily_budget tm_at_ceiling - spent_on tm_at_ceiling day + (1 # 100)
    < estimate_call_cost tm_at_ceiling "hello" 10000 "claude-sonnet-4-5" /\
  forall reason : Reason,
    should_allow_call tm_at_ceiling day "hello" 10000 "claude-sonnet-4-5"
      <> Ok (true, reason).
Proof.
  assert (H : daily_budget tm_at_ceiling - spent_on tm_at_ceiling day + (1 # 100)
              < estimate_call_cost tm_at_ceiling "hello" 10000 "claude-sonnet-4-5")
    by (vm_compute; reflexivity).
  split; [exact H |].
  exact (call_over_budget_not_allowed tm_at_ceiling day "hello" 10000
           "claude-sonnet-4-5" H).
Defined.

Lemma reports_raise_on_idle_day_witness :
  reachable tm_yesterday /\
  Forall (fun a => is_Some (usage_by_agent tm_yesterday !! a)) ["analyst"] /\
  usages_on tm_yesterday day = [] /\
  get_cost_optimization_suggestions tm_yesterday day ["analyst"]
    = Raise (Exn "KeyError" "'budget_used_percentage'") /\
  get_summary tm_yesterday day ["analyst"]
    = Raise (Exn "KeyError" "'budget_used_percentage'").
Proof.
  assert (H1 : reachable tm_yesterday) by (apply reach_record, reach_init).
  assert (H2 : Forall (fun a => is_Some (usage_by_agent tm_yesterday !! a))
                 ["analyst"]).
  { constructor; [| constructor]. eexists. vm_compute. reflexivity. }
  assert (H3 : usages_on tm_yesterday day = []) by reflexivity.
  split; [exact H1 |]. split; [exact H2 |]. split; [exact H3 |].
  exact (reports_raise_on_idle_day tm_yesterday day ["analyst"] H1 H2 H3).
Defined.

End LedgerProps.

(** ** The prompt cache *)

Module PromptCacheProps.
Import TokenManager PromptCache.
Local Open Scope Q_scope.

Lemma stats_reachable_nonneg (stats : CacheStats) :
  stats_reachable stats ->
  (0 <= hits stats)%Z /\ (0 <= misses stats)%Z /\ 0 <= savings_usd stats.
Proof.
  induction 1 as [| stats c r _ (Hh & Hm & Hs) | stats _ _].
  - repeat split; try reflexivity; discriminate.
  - unfold _record_cache_usage.
    destruct (getattr_or_0 r) as [rn |]; [| simpl; tauto].
    destruct (0 <? rn)%Z eqn:Hr.
    + apply Z.ltb_lt in Hr.
      assert (Hs' : 0 <= savings_usd stats + inject_Z rn / 1000000 * (27 # 10)).
      { assert (0 <= inject_Z rn).
        { change 0 with (inject_Z 0). apply TokenManagerProps.Q_le_of_Z. lia. }
        unfold Qdiv. change (/ 1000000) with (1 # 1000000). lra. }
      destruct (getattr_or_0 c) as [cn |]; [| simpl; repeat split; [lia | lia | exact Hs']].
      destruct (0 <? cn)%Z; simpl; repeat split; try lia; exact Hs'.
    + destruct (getattr_or_0 c) as [cn |]; [| simpl; tauto].
      destruct (0 <? cn)%Z; simpl; repeat split; try lia; assumption.
  - repeat split; try reflexivity; discriminate.
Qed.

Lemma py_round_nonneg (x : Q) (ndigits : nat) : 0 <= x -> 0 <= py_round x ndigits.
Proof.
  intros Hx. unfold py_round.
  set (scale := (10 ^ Z.of_nat ndigits)%Z).
  assert (Hscale : (0 < scale)%Z) by (apply Z.pow_pos_nonneg; lia).
  assert (Hsq : 0 < inject_Z scale).
  { change 0 with (inject_Z 0). rewrite <- Zlt_Qlt. exact Hscale. }
  destruct (TokenManagerProps.round_half_even_bounds (x * inject_Z scale)) as [Hlo _].
  assert (Hprod : 0 <= x * inject_Z scale) by (apply Qmult_le_0_compat; lra).
  assert (Hz : (0 <= round_half_even (x * inject_Z scale))%Z).
  { assert (-1 < round_half_even (x * inject_Z scale))%Z; [| lia].
    apply TokenManagerProps.Z_lt_of_Q. change (inject_Z (-1)) with (-1 # 1). lra. }
  apply Qle_shift_div_l; [exact Hsq |].
  rewrite Qmult_0_l. change 0 with (inject_Z 0). rewrite <- Zle_Qle. exact Hz.
Qed.

(** Whatever responses were recorded, the report is consistent: the
    total is the sum of hits and misses, no counter is negative, the hit
    rate is a percentage between 0 and 100 and the savings are not
    negative; the division by the total never fails. *)
Theorem cache_report_bounds (stats : CacheStats) :
  stats_reachable stats ->
  total_requests (get_cache_stats stats)
    = (cache_hits (get_cache_stats stats) + cache_misses (get_cache_stats stats))%Z /\
  (0 <= cache_hits (get_cache_stats stats))%Z /\
  (0 <= cache_misses (get_cache_stats stats))%Z /\
  0 <= hit_rate_percentage (get_cache_stats stats) /\
  hit_rate_percentage (get_cache_stats stats) <= 100 /\
  0 <= total_savings_usd (get_cache_stats stats).
Proof.
  intros H. destruct (stats_reachable_nonneg stats H) as (Hh & Hm & Hs).
  unfold get_cache_stats; simpl.
  split; [reflexivity |]. split; [exact Hh |]. split; [exact Hm |].
  assert (Hrate : 0 <= (if (hits stats + misses stats =? 0)%Z then 0
                        else inject_Z (hits stats)
                             / inject_Z (hits stats + misses stats) * 100)
                  /\ (if (hits stats + misses stats =? 0)%Z then 0
                      else inject_Z (hits stats)
                           / inject_Z (hits stats + misses stats) * 100) <= 100).
  { destruct (hits stats + misses stats =? 0)%Z eqn:Ht; [split; lra |].
    apply Z.eqb_neq in Ht.
    assert (Htot : 0 < inject_Z (hits stats + misses stats)).
    { change 0 with (inject_Z 0). rewrite <- Zlt_Qlt. lia. }
    assert (Hhq : 0 <= inject_Z (hits stats)).
    { change 0 with (inject_Z 0). rewrite <- Zle_Qle. exact Hh. }
    assert (Hle : inject_Z (hits stats) <= inject_Z (hits stats + misses stats)).
    { rewrite <- Zle_Qle. lia. }
    assert (H0 : 0 <= inject_Z (hits stats) / inject_Z (hits stats + misses stats)).
    { apply Qle_shift_div_l; [exact Htot | lra]. }
    assert (H1 : inject_Z (hits stats) / inject_Z (hits stats + misses stats) <= 1).
    { apply Qle_shift_div_r; [exact Htot | lra]. }
    split; lra. }
  destruct Hrate as [Hr0 Hr1].
  split; [apply py_round_nonneg; exact Hr0 |].
  split; [| apply py_round_nonneg; exact Hs].
  set (x := if (hits stats + misses stats =? 0)%Z then 0
            else inject_Z (hits stats) / inject_Z (hits stats + misses stats) * 100)
    in *.
  unfold py_round. change (inject_Z (10 ^ Z.of_nat 1)) with (10 # 1).
  destruct (TokenManagerProps.round_half_even_bounds (x * (10 # 1))) as [_ Hhi].
  assert (Hz : (round_half_even (x * (10 # 1)) <= 1000)%Z).
  { assert (round_half_even (x * (10 # 1)) < 1001)%Z; [| lia].
    apply TokenManagerProps.Z_lt_of_Q. change (inject_Z 1001) with (1001 # 1). lra. }
  apply TokenManagerProps.Q_le_of_Z in Hz. change (inject_Z 1000) with (1000 # 1) in Hz.
  unfold Qdiv. change (/ (10 # 1)) with (1 # 10). lra.
Qed.

Lemma marked_idem (m : MessageDict) : marked (marked m) = marked m.
Proof.
  unfold marked.
  destruct (String.eqb (md_role m) "assistant") eqn:E; [| rewrite E; reflexivity].
  destruct (md_content m) eqn:C; simpl; rewrite E, ?C; reflexivity.
Qed.

Lemma marked_role (m : MessageDict) : md_role (marked m) = md_role m.
Proof.
  unfold marked.
  destruct (String.eqb (md_role m) "assistant"); [| reflexivity].
  destruct (md_content m); reflexivity.
Qed.

Lemma cache_turn_at (messages : list nat) (st : Store) (i : Z) (b : nat) :
  (0 <= i)%Z -> messages !! Z.to_nat i = Some b ->
  forall a, cache_turn messages st i a = if Nat.eqb a b then marked (st a) else st a.
Proof.
  intros Hi Hb a. unfold cache_turn.
  destruct (0 <=? i)%Z eqn:E; [| apply Z.leb_gt in E; lia].
  rewrite Hb. unfold marked.
  destruct (Nat.eqb a b) eqn:Eab.
  - apply Nat.eqb_eq in Eab. subst a.
    destruct (String.eqb (md_role (st b)) "assistant"); [| reflexivity].
    destruct (md_content (st b)); [| reflexivity].
    unfold store_set. rewrite Nat.eqb_refl. reflexivity.
  - destruct (String.eqb (md_role (st b)) "assistant"); [| reflexivity].
    destruct (md_content (st b)); [| reflexivity].
    unfold store_set. rewrite Eab. reflexivity.
Qed.

Lemma cache_turn_skip (messages : list nat) (st : Store) (i : Z) :
  (i < 0)%Z \/ messages !! Z.to_nat i = None -> cache_turn messages st i = st.
Proof.
  intros H. unfold cache_turn.
  destruct (0 <=? i)%Z eqn:E; [| reflexivity].
  destruct H as [H | H]; [apply Z.leb_le in E; lia |].
  rewrite H. reflexivity.
Qed.

Lemma fold_cache_turn (messages : list nat) (store : Store) (idx : list Z) :
  forall (st : Store) (p : nat -> bool),
    (forall a, st a = if p a then marked (store a) else store a) ->
    forall a,
      fold_left (cache_turn messages) idx st a
      = if p a || existsb (fun i => (0 <=? i)%Z
                                    && bool_decide (messages !! Z.to_nat i = Some a)) idx
        then marked (store a) else store a.
Proof.
  induction idx as [| i idx IH]; intros st p Hst a.
  - simpl. rewrite orb_false_r. apply Hst.
  - simpl fold_left.
    rewrite (IH (cache_turn messages st i)
                (fun a => p a || ((0 <=? i)%Z
                                  && bool_decide (messages !! Z.to_nat i = Some a)))).
    + simpl existsb. rewrite orb_assoc. reflexivity.
    + clear a. intros a.
      destruct (0 <=? i)%Z eqn:Ei.
      * apply Z.leb_le in Ei.
        destruct (messages !! Z.to_nat i) as [b |] eqn:Eb.
        -- rewrite (cache_turn_at messages st i b Ei Eb a).
           destruct (Nat.eqb a b) eqn:Eab.
           ++ apply Nat.eqb_eq in Eab. subst b.
              rewrite (bool_decide_eq_true_2 _ eq_refl).
              rewrite andb_true_l, orb_true_r.
              rewrite Hst. destruct (p a); [apply marked_idem | reflexivity].
           ++ apply Nat.eqb_neq in Eab.
              rewrite bool_decide_eq_false_2 by congruence.
              rewrite andb_false_r, orb_false_r. apply Hst.
        -- rewrite cache_turn_skip by (right; exact Eb).
           rewrite bool_decide_eq_false_2 by discriminate.
           rewrite andb_false_r, orb_false_r. apply Hst.
      * rewrite cache_turn_skip by (left; apply Z.leb_gt in Ei; exact Ei).
        rewrite andb_false_l, orb_false_r. apply Hst.
Qed.

Lemma in_py_range (a b x : Z) : In x (py_range a b) <-> (a <= x < b)%Z.
Proof.
  unfold py_range. rewrite in_map_iff. split.
  - intros (k & <- & Hk). apply in_seq in Hk. lia.
  - intros Hx. exists (Z.to_nat (x - a)). split; [lia |].
    apply in_seq. lia.
Qed.

Lemma recent_indices (messages : list nat) (k : Z) (a : nat) :
  existsb (fun i => (0 <=? i)%Z && bool_decide (messages !! Z.to_nat i = Some a))
          (py_range (Z.of_nat (List.length messages) - k)
                    (Z.of_nat (List.length messages)))
  = bool_decide (a ∈ recent messages k).
Proof.
  apply eq_true_iff_eq. rewrite existsb_exists, bool_decide_eq_true.
  unfold recent. rewrite list_elem_of_lookup. split.
  - intros (x & Hin & Hx). apply in_py_range in Hin.
    apply andb_true_iff in Hx. destruct Hx as [H0 Hl].
    apply Z.leb_le in H0. apply bool_decide_eq_true in Hl.
    exists (Z.to_nat x - (List.length messages - Z.to_nat k))%nat.
    rewrite lookup_drop.
    replace (List.length messages - Z.to_nat k
             + (Z.to_nat x - (List.length messages - Z.to_nat k)))%nat
      with (Z.to_nat x) by lia.
    exact Hl.
  - intros (j & Hj). rewrite lookup_drop in Hj.
    pose proof (lookup_lt_Some _ _ _ Hj) as Hlt.
    change (base.length messages) with (List.length messages) in Hlt.
    exists (Z.of_nat (List.length messages - Z.to_nat k + j)). split.
    + apply in_py_range. lia.
    + apply andb_true_iff. split; [apply Z.leb_le; lia |].
      apply bool_decide_eq_true. rewrite Nat2Z.id. exact Hj.
Qed.

Lemma cached_store (messages : list nat) (k : Z) (store : Store) :
  (1 < List.length messages)%nat ->
  forall a,
    snd (create_cached_messages messages k store) a
    = if bool_decide (a ∈ recent messages k) then marked (store a) else store a.
Proof.
  intros Hlen a. unfold create_cached_messages.
  destruct (List.length messages <=? 1)%nat eqn:E; [apply Nat.leb_le in E; lia |].
  cbn [snd].
  rewrite (fold_cache_turn messages store _ store (fun _ => false))
    by (intros; reflexivity).
  rewrite orb_false_l, recent_indices. reflexivity.
Qed.

(** [create_cached_messages] returns the list it was given and changes
    the caller's own message dictionaries: in a conversation of two or
    more messages, exactly the dictionaries among the last
    [cache_recent_turns] entries are rewritten (an assistant message with
    a string content gets the block list with the cache marker, any other
    is left as it is) and every other dictionary is untouched.  A count
    larger than the conversation marks all of it, a count of zero or
    less marks nothing. *)
Theorem create_cached_messages_marks_recent
    (messages : list nat) (k : Z) (store : Store) :
  (1 < List.length messages)%nat ->
  fst (create_cached_messages messages k store) = messages /\
  forall a,
    snd (create_cached_messages messages k store) a
    = if bool_decide (a ∈ recent messages k) then marked (store a) else store a.
Proof.
  intros Hlen. split; [| apply cached_store; exact Hlen].
  unfold create_cached_messages.
  destruct (List.length messages <=? 1)%nat; reflexivity.
Qed.

(** Marking is idempotent and keeps the roles: a second call of
    [create_cached_messages] on the same conversation changes no
    dictionary, and no call changes the role of a message. *)
Theorem create_cached_messages_idempotent
    (messages : list nat) (k : Z) (store : Store) (a : nat) :
  snd (create_cached_messages messages k
         (snd (create_cached_messages messages k store))) a
  = snd (create_cached_messages messages k store) a /\
  md_role (snd (create_cached_messages messages k store) a) = md_role (store a).
Proof.
  destruct (le_lt_dec (List.length messages) 1) as [Hle | Hlt].
  - unfold create_cached_messages.
    destruct (List.length messages <=? 1)%nat eqn:E;
      [| apply Nat.leb_gt in E; lia].
    split; reflexivity.
  - rewrite !(cached_store messages k _ Hlt).
    destruct (bool_decide (a ∈ recent messages k)).
    + split; [apply marked_idem | apply marked_role].
    + split; reflexivity.
Qed.

(** After one response that read 2000 tokens from the cache and
    created none. *)
Lemma cache_report_bounds_witness :
  stats_reachable (snd (_record_cache_usage (FieldInt 0) (FieldInt 2000) init_stats)) /\
  (total_requests
     (get_cache_stats (snd (_record_cache_usage (FieldInt 0) (FieldInt 2000) init_stats)))
   = (cache_hits
        (get_cache_stats
           (snd (_record_cache_usage (FieldInt 0) (FieldInt 2000) init_stats)))
      + cache_misses
          (get_cache_stats
             (snd (_record_cache_usage (FieldInt 0) (FieldInt 2000) init_stats))))%Z /\
   (0 <= cache_hits
           (get_cache_stats
              (snd (_record_cache_usage (FieldInt 0) (FieldInt 2000) init_stats))))%Z /\
   (0 <= cache_misses
           (get_cache_stats
              (snd (_record_cache_usage (FieldInt 0) (FieldInt 2000) init_stats))))%Z /\
   0 <= hit_rate_percentage
          (get_cache_stats
             (snd (_record_cache_usage (FieldInt 0) (FieldInt 2000) init_stats))) /\
   hit_rate_percentage
     (get_cache_stats (snd (_record_cache_usage (FieldInt 0) (FieldInt 2000) init_stats)))
   <= 100 /\
   0 <= total_savings_usd
          (get_cache_stats
             (snd (_record_cache_usage (FieldInt 0) (FieldInt 2000) init_stats)))).
Proof.
  assert (H : stats_reachable
                (snd (_record_cache_usage (FieldInt 0) (FieldInt 2000) init_stats)))
    by (apply stats_record, stats_init).
  split; [exact H |].
  exact (cache_report_bounds _ H).
Defined.

(** In the three-turn conversation the default of three recent turns
    covers every message: the assistant's answer at address 1 is
    rewritten in the caller's store. *)
Lemma create_cached_messages_marks_recent_witness :
  (1 < List.length [0%nat; 1%nat; 2%nat])%nat /\
  (fst (create_cached_messages [0%nat; 1%nat; 2%nat] 3 three_turns)
     = [0%nat; 1%nat; 2%nat] /\
   forall a,
     snd (create_cached_messages [0%nat; 1%nat; 2%nat] 3 three_turns) a
     = if bool_decide (a ∈ recent [0%nat; 1%nat; 2%nat] 3)
       then marked (three_turns a) else three_turns a).
Proof.
  assert (H : (1 < List.length [0%nat; 1%nat; 2%nat])%nat) by (simpl; lia).
  split; [exact H |].
  exact (create_cached_messages_marks_recent [0%nat; 1%nat; 2%nat] 3 three_turns H).
Defined.

End PromptCacheProps.
